(** * helpers/training.py: prediction, metrics and fold bookkeeping

    A shallow embedding of the evaluation helpers of [helpers/training.py]
    and the properties its specification states about them.

    Python values are modelled as follows.
    - A float is an element of a type [F] of the class [PyFloat]; the class
      has an exact instance (rationals) and an IEEE binary64 instance.
    - A numpy array is an [ndarray]: a shape and its entries in row-major
      order.  Arrays and lists that are passed around live in a store and
      are named by a location, so that copying and aliasing are visible.
    - A dict with string keys is a [gmap string _]; the class-index table
      of a flow, whose order matters when it is inverted, is an
      association list.
    - A raised exception is the [Raise] case of [result]; a function with
      effects is a computation [M], a state transformer over [World] that
      keeps the state reached when an exception escapes.
    - The collaborators that are not part of the repository (scikit-learn's
      metrics, the builtin [int]) are the fields of a [Library] record; the
      [reset] and [next] of the generator library's iterators are the
      variables of the section on the fused generator. *)

From Stdlib Require Import ZArith QArith PrimFloat Uint63.
From Stdlib Require Import Ascii String.
From stdpp Require Import base option list strings gmap fin_maps pretty sorting.

(** ** Exceptions and results *)

Inductive PyExn : Type :=
  | KeyError
  | IndexError
  | TypeError
  | ValueError
  | AxisError
  | ZeroDivisionError
  | StopIteration
  | NameError.

Inductive result (A : Type) : Type :=
  | Ok (a : A)
  | Raise (e : PyExn).
Arguments Ok {A} a.
Arguments Raise {A} e.

Definition bindR {A B} (m : result A) (k : A → result B) : result B :=
  match m with
  | Ok a => k a
  | Raise e => Raise e
  end.

Definition is_Ok {A} (m : result A) : bool :=
  match m with Ok _ => true | Raise _ => false end.

Fixpoint mapR {A B} (f : A → result B) (l : list A) : result (list B) :=
  match l with
  | [] => Ok []
  | x :: l' => bindR (f x) (λ y, bindR (mapR f l') (λ ys, Ok (y :: ys)))
  end.

#[export] Instance result_ret : MRet result := λ A a, Ok a.
#[export] Instance result_bind : MBind result := λ A B k m, bindR m k.

(** ** Floats *)

(** The float operations the module uses.  [f_of_Z] is the conversion an
    int operand undergoes in mixed arithmetic, [f_half] the literal [0.5],
    [f_ltb] the comparison [<] and [f_isnan] the test for a NaN. *)
Class PyFloat (F : Type) : Type := {
  f_of_Z : Z → F;
  f_half : F;
  f_add : F → F → F;
  f_sub : F → F → F;
  f_div : F → F → F;
  f_ltb : F → F → bool;
  f_isnan : F → bool
}.

(** [a > b] is [b < a]. *)
Definition f_gtb `{PyFloat F} (a b : F) : bool := f_ltb b a.

(** Two floats are tied when neither is below the other. *)
Definition f_tied `{PyFloat F} (a b : F) : bool :=
  negb (f_ltb a b) && negb (f_ltb b a).

(** [<] behaves as a strict weak order: what a sort relies on. *)
Class PyFloatOrder (F : Type) `{PyFloat F} : Prop := {
  f_ltb_irrefl : ∀ a : F, f_ltb a a = false;
  f_ltb_trans : ∀ a b c : F, f_ltb a b = true → f_ltb b c = true → f_ltb a c = true;
  f_ltb_cotrans : ∀ a b c : F, f_ltb a c = true → f_ltb a b = true ∨ f_ltb b c = true
}.

(** The laws of [PyFloatOrder], asked of the floats of [keys] alone.
    The binary64 floats as a whole do not have them (a NaN is neither
    below nor above another float), so what the ranking and the arg-max
    need of [<] is asked of the floats at hand. *)
Definition orders `{PyFloat F} (keys : list F) : Prop :=
  ∀ a b c : F, a ∈ keys → b ∈ keys → c ∈ keys →
    f_ltb a a = false
    ∧ (f_ltb a b = true → f_ltb b c = true → f_ltb a c = true)
    ∧ (f_ltb a c = true → f_ltb a b = true ∨ f_ltb b c = true).

(** The same, as a test that runs. *)
Definition ordersb `{PyFloat F} (keys : list F) : bool :=
  forallb (λ a,
    forallb (λ b,
      forallb (λ c,
        negb (f_ltb a a)
        && implb (f_ltb a b && f_ltb b c) (f_ltb a c)
        && implb (f_ltb a c) (f_ltb a b || f_ltb b c)) keys) keys) keys.

Definition Qltb (a b : Q) : bool := negb (Qle_bool b a).

(** The exact floats: rationals, with neither rounding nor NaN, and with
    [0] for a division by [0].  They serve examples in exact arithmetic. *)
#[export] Instance Q_float : PyFloat Q := {|
  f_of_Z := inject_Z;
  f_half := (1 # 2)%Q;
  f_add := Qplus;
  f_sub := Qminus;
  f_div := Qdiv;
  f_ltb := Qltb;
  f_isnan := λ _, false
|}.

Definition float_of_Z (z : Z) : float :=
  if (z <? 0)%Z then PrimFloat.opp (PrimFloat.of_uint63 (Uint63.of_Z (- z)))
  else PrimFloat.of_uint63 (Uint63.of_Z z).

Definition binary64 : PyFloat float := {|
  f_of_Z := float_of_Z;
  f_half := 0.5%float;
  f_add := PrimFloat.add;
  f_sub := PrimFloat.sub;
  f_div := PrimFloat.div;
  f_ltb := PrimFloat.ltb;
  f_isnan := PrimFloat.is_nan
|}.

(** ** numpy arrays *)

Record ndarray (A : Type) : Type := mk_ndarray {
  shape : list nat;
  data : list A
}.
Arguments mk_ndarray {A} shape data.
Arguments shape {A} _.
Arguments data {A} _.


(** [a.flatten()]: a one-dimensional copy, entries in row-major order. *)
Definition flatten {A} (a : ndarray A) : ndarray A :=
  mk_ndarray [length (data a)] (data a).

(** [np.array(l)] of a list of scalars. *)
Definition np_array {A} (l : list A) : ndarray A :=
  mk_ndarray [length l] l.

(** [np.where(cond, 1, 0)] for the entrywise condition [cond]. *)
Definition np_where {A} (cond : A → bool) (a : ndarray A) : ndarray Z :=
  mk_ndarray (shape a) (map (λ x, if cond x then 1%Z else 0%Z) (data a)).

(** The rows of a two-dimensional array with [n] rows of [c] columns. *)
Fixpoint array_rows {A} (n c : nat) (d : list A) : list (list A) :=
  match n with
  | O => []
  | S n' => take c d :: array_rows n' c (drop c d)
  end.

(** [np.argmax] of one row: the index of the first maximum, a NaN counting
    as the maximum.  [i] is the index of [x], [best] and [bi] the running
    maximum and its index. *)
Fixpoint argmax_from `{PyFloat F} (best : F) (bi i : nat) (l : list F) : nat :=
  match l with
  | [] => bi
  | x :: l' =>
      if f_isnan best then bi
      else if f_isnan x || f_ltb best x then argmax_from x i (S i) l'
      else argmax_from best bi (S i) l'
  end.

Definition argmax_row `{PyFloat F} (row : list F) : nat :=
  match row with
  | [] => 0
  | x :: l => argmax_from x 0 1 l
  end.

(** What iterating [np.argmax(a, axis=1)] hands to the loop body. *)
Inductive ArgmaxItems : Type :=
  | Indices (ks : list nat)
  | SubArrays (n : nat).

(** [np.argmax(a, axis=1)]: needs a second axis, and a non-empty one; of a
    two-dimensional array it is the vector of the rows' arg-maxima, of an
    array with more axes an array whose [n] items are arrays again. *)
Definition np_argmax_axis1 `{PyFloat F} (a : ndarray F) : result ArgmaxItems :=
  match shape a with
  | [] | [_] => Raise AxisError
  | [n; c] =>
      if decide (c = 0) then Raise ValueError
      else Ok (Indices (map argmax_row (array_rows n c (data a))))
  | n :: c :: _ =>
      if decide (c = 0) then Raise ValueError else Ok (SubArrays n)
  end.

(** ** Python dicts *)

(** A dict in insertion order: the first pair of a key is its entry. *)
Fixpoint assoc_get {K V} `{EqDecision K} (d : list (K * V)) (k : K) : option V :=
  match d with
  | [] => None
  | (k', v) :: d' => if decide (k' = k) then Some v else assoc_get d' k
  end.

(** [d[k] = v]: replace the entry in place, or append a new one. *)
Fixpoint assoc_set {K V} `{EqDecision K} (d : list (K * V)) (k : K) (v : V)
    : list (K * V) :=
  match d with
  | [] => [(k, v)]
  | (k', v') :: d' =>
      if decide (k' = k) then (k, v) :: d' else (k', v') :: assoc_set d' k v
  end.

Definition assoc_getitem {K V} `{EqDecision K} (d : list (K * V)) (k : K)
    : result V :=
  match assoc_get d k with
  | Some v => Ok v
  | None => Raise KeyError
  end.

(** [dict((v, k) for k, v in d.items())]. *)
Definition dict_invert {K V} `{EqDecision V} (d : list (K * V)) : list (V * K) :=
  foldl (λ acc kv, assoc_set acc kv.2 kv.1) [] d.

(** ** Flows *)

(** What subscripting a flow can evaluate to: an int, or a batch. *)
Inductive FlowItem : Type :=
  | ItemInt (z : Z)
  | ItemBatch.

(** [item != z] for an int [z]; a batch is a tuple and differs from it. *)
Definition item_ne (item : FlowItem) (z : Z) : bool :=
  match item with
  | ItemInt z' => negb (z' =? z)%Z
  | ItemBatch => true
  end.

(** The attributes of a flow that the helpers read.  [class_indices] maps
    a label to its class index, [classes] holds the class index of every
    sample, and [flow_getitem] is the flow's [__getitem__] at a [str]: a
    subscript that raises leaves the flow as it was, so no state of the
    flow is threaded through it. *)
Record Flow : Type := mk_Flow {
  class_indices : list (string * Z);
  classes : list Z;
  filenames : list string;
  flow_getitem : string → result FlowItem
}.

(** A flow of the generator library: its [__getitem__] starts by
    comparing the index with [len(self)], which raises for a [str]. *)
Definition keras_flow (ci : list (string * Z)) (cls : list Z)
    (names : list string) : Flow :=
  mk_Flow ci cls names (λ _, Raise TypeError).

(** ** The collaborators *)

(** The [average] argument of [precision_recall_fscore_support]. *)
Inductive Average : Type := AvgBinary | AvgMacro.

Record Library (F : Type) : Type := mk_Library {
  (** the builtin [int] at a [str] *)
  py_int : string → result Z;
  (** [accuracy_score(y_true, y_pred)] *)
  accuracy_score : list Z → list Z → result F;
  (** [precision_recall_fscore_support(y_true, y_pred, average=...)]:
      precision, recall, F-score and support *)
  precision_recall_fscore_support :
    list Z → list Z → Average → result (F * F * F * option (list Z));
  (** [mean_absolute_error(y_true, y_pred)] *)
  mean_absolute_error : list Z → list Z → result F;
  (** [average_precision_score(y_true, y_score)] *)
  average_precision_score : list Z → list F → result F
}.
Arguments py_int {F} _ _.
Arguments accuracy_score {F} _ _ _.
Arguments precision_recall_fscore_support {F} _ _ _ _.
Arguments mean_absolute_error {F} _ _ _.
Arguments average_precision_score {F} _ _ _.

(** ** The store and the computations over it *)

Definition loc := nat.

(** A line on standard output.  Lines that print a float keep it as a
    value. *)
Inductive Printed (F : Type) : Type :=
  | Line (s : string)
  | AveragePrecisionAt (k : Z) (average_precision : F)
  | AveragePrecisionMean (ks : list Z) (mean : F).
Arguments Line {F} s.
Arguments AveragePrecisionAt {F} k average_precision.
Arguments AveragePrecisionMean {F} ks mean.

Record World (F : Type) : Type := mk_World {
  arrays : gmap loc (ndarray F);      (* the float arrays *)
  pools : gmap loc (list (F * Z));    (* the lists of (probability, label) *)
  stdout : list (Printed F);
  files : gmap string (list string)   (* the lines of every file *)
}.
Arguments mk_World {F} arrays pools stdout files.
Arguments arrays {F} _.
Arguments pools {F} _.
Arguments stdout {F} _.
Arguments files {F} _.

Definition M (F A : Type) : Type := World F → result A * World F.

#[export] Instance M_ret {F} : MRet (M F) := λ A a w, (Ok a, w).
#[export] Instance M_bind {F} : MBind (M F) := λ A B k m w,
  match m w with
  | (Ok a, w') => k a w'
  | (Raise e, w') => (Raise e, w')
  end.

Definition liftR {F A} (r : result A) : M F A := λ w, (r, w).
Definition raise {F A} (e : PyExn) : M F A := λ w, (Raise e, w).

Section Store.
Context {F : Type}.

Definition read_array (l : loc) : M F (ndarray F) := λ w,
  match arrays w !! l with
  | Some a => (Ok a, w)
  | None => (Raise NameError, w)
  end.

(** A new array object: it gets a location no array has. *)
Definition new_array (a : ndarray F) : M F loc := λ w,
  let l := fresh (dom (arrays w)) in
  (Ok l, mk_World (<[l := a]> (arrays w)) (pools w) (stdout w) (files w)).

Definition read_pool (l : loc) : M F (list (F * Z)) := λ w,
  match pools w !! l with
  | Some p => (Ok p, w)
  | None => (Raise NameError, w)
  end.

Definition new_pool (p : list (F * Z)) : M F loc := λ w,
  let l := fresh (dom (pools w)) in
  (Ok l, mk_World (arrays w) (<[l := p]> (pools w)) (stdout w) (files w)).

(** [print(...)]. *)
Definition print (p : Printed F) : M F () := λ w,
  (Ok (), mk_World (arrays w) (pools w) (stdout w ++ [p]) (files w)).

(** [open(name, "a+")]: the file exists afterwards. *)
Definition open_append (name : string) : M F () := λ w,
  (Ok (), mk_World (arrays w) (pools w) (stdout w)
            (<[name := default [] (files w !! name)]> (files w))).

(** [f.write(line)] on a file opened for appending. *)
Definition write_line (name line : string) : M F () := λ w,
  (Ok (), mk_World (arrays w) (pools w) (stdout w)
            (<[name := default [] (files w !! name) ++ [line]]> (files w))).
End Store.

(** ** Probability interpretation *)

(** The predictions are a numpy array in binary mode and a list
    otherwise. *)
Inductive Predictions : Type :=
  | PredArray (a : ndarray Z)
  | PredList (l : list Z).

Section Prediction.
Context `{PyFloat F} (lib : Library F).

(** The condition of [verify_probabilities]:
    [train_indices['0'] != 0 and train_flow['1'] != 1]. *)
Definition misaligned (train_flow : Flow) : result bool :=
  let train_indices := class_indices train_flow in
  i0 ← assoc_getitem train_indices "0";
  if negb (i0 =? 0)%Z
  then item ← flow_getitem train_flow "1"; mret (item_ne item 1)
  else mret false.

Definition verify_probabilities (y_probs : loc) (train_flow : Flow) : M F loc :=
  flip ← liftR (misaligned train_flow);
  a ← read_array y_probs;
  if (flip : bool)
  then new_array (np_array (map (λ el, f_sub (f_of_Z 1) el) (data (flatten a))))
  else new_array (flatten a).

Definition calculate_prediction (y_pred_prob : loc) (trn_flow tst_flow : Flow)
    (is_binary : bool) : M F (loc * Predictions * list Z) :=
  if is_binary then
    y_pred_prob ← verify_probabilities y_pred_prob trn_flow;
    a ← read_array y_pred_prob;
    let y_pred := np_where (λ p, f_gtb p f_half) a in
    mret (y_pred_prob, PredArray y_pred, classes tst_flow)
  else
    a ← read_array y_pred_prob;
    predicted_class_indices ← liftR (np_argmax_axis1 a);
    let labels := class_indices trn_flow in
    let labels := dict_invert labels in
    y_pred ← liftR
      match predicted_class_indices with
      | Indices ks =>
          mapR (λ k, s ← assoc_getitem labels (Z.of_nat k); py_int lib s) ks
      | SubArrays n => if decide (n = 0) then Ok [] else Raise TypeError
      end;
    mret (y_pred_prob, PredList y_pred, classes tst_flow).
End Prediction.

(** A computation run twice in a row: the second run starts in the store
    the first one leaves. *)
Definition twice {F A} (m : M F A) (w : World F)
    : (result A * World F) * (result A * World F) :=
  let o1 := m w in (o1, m o1.2).

(** Two outcomes of [calculate_prediction] agree: the same exception, or
    probability arrays with the same contents (each read in the store of
    its run, the first one also in the store of the second), the same
    predictions and the same true labels. *)
Definition same_prediction {F}
    (o1 o2 : result (loc * Predictions * list Z) * World F) : Prop :=
  match o1.1, o2.1 with
  | Ok (p1, y_pred1, y_test1), Ok (p2, y_pred2, y_test2) =>
      (∃ a, arrays o1.2 !! p1 = Some a ∧ arrays o2.2 !! p2 = Some a
            ∧ arrays o2.2 !! p1 = Some a)
      ∧ y_pred1 = y_pred2 ∧ y_test1 = y_test2
  | Raise e1, Raise e2 => e1 = e2
  | _, _ => False
  end.

(** ** Metrics *)

(** [d.update(other)]: the entries of [other] win. *)
Definition dict_update {V} (d other : gmap string V) : gmap string V :=
  other ∪ d.

Section Metrics.
Context `{PyFloat F} (lib : Library F).

Definition accuracy_precision_recall_fscore (y_test y_pred : list Z)
    (is_binary : bool) : result (gmap string F) :=
  accuracy ← accuracy_score lib y_test y_pred;
  let result : gmap string F := {[ "accuracy" := accuracy ]} in
  if is_binary then
    prfs ← precision_recall_fscore_support lib y_test y_pred AvgBinary;
    let '(precision, recall, f_score, _) := prfs in
    mret (dict_update result
            (<["precision" := precision]>
              (<["recall" := recall]> {[ "f-score" := f_score ]})))
  else
    mean_absolute ← mean_absolute_error lib y_test y_pred;
    prfs ← precision_recall_fscore_support lib y_test y_pred AvgMacro;
    let '(precision_ma, recall_ma, f_score_ma, _) := prfs in
    mret (dict_update result
            (<["precision_ma" := precision_ma]>
              (<["recall_ma" := recall_ma]>
                (<["f-score_ma" := f_score_ma]>
                  {[ "mean_absolute_error" := mean_absolute ]})))).
End Metrics.

(** ** Ranked average precision *)

Section Ranking.
Context `{PyFloat F} (lib : Library F).

Definition itemgetter_0 (x : F * Z) : F := x.1.

(** Place [x] in a list that is in descending order of probability:
    ahead of the first item that is not above it. *)
Fixpoint insert_desc (x : F * Z) (l : list (F * Z)) : list (F * Z) :=
  match l with
  | [] => [x]
  | y :: l' =>
      if f_ltb (itemgetter_0 x) (itemgetter_0 y)
      then y :: insert_desc x l'
      else x :: y :: l'
  end.

(** [sorted(lst, key=itemgetter(0), reverse=True)]: a new list, in
    descending order of the key; items with tied keys keep the order
    they have in [lst].  Where [<] orders the keys there is one such list
    ([descending_unique] below), whatever the algorithm that builds it;
    here each item is inserted into the ranking of those after it.  Keys
    that [<] does not order (a NaN among other floats) can leave this
    insertion and Python's merge sort with different lists, so what is
    proved of the arrangement is proved of pools whose keys [<] orders
    ([orders]). *)
Definition sorted_desc (lst : list (F * Z)) : list (F * Z) :=
  foldr insert_desc [] lst.

(** [x] is not below [y]: the order a descending list keeps. *)
Definition not_below (x y : F * Z) : Prop :=
  f_ltb (itemgetter_0 x) (itemgetter_0 y) = false.

Definition descending (l : list (F * Z)) : Prop :=
  StronglySorted not_below l.

(** The items of [l] whose key is tied with [p], in the order of [l]. *)
Definition tied_with (p : F) (l : list (F * Z)) : list (F * Z) :=
  filter (λ x, f_tied (itemgetter_0 x) p) l.

(** [l[:k]]. *)
Definition slice_to {A} (k : Z) (l : list A) : list A :=
  if (0 <=? k)%Z then take (Z.to_nat k) l
  else take (length l - Z.to_nat (- k)) l.

(** Unpacking the transposed pairs into [y_score, y_true]: the
    transpose of no pair has no item, and the unpacking raises. *)
Definition unzip_pairs (pairs : list (F * Z)) : result (list F * list Z) :=
  match pairs with
  | [] => Raise ValueError
  | _ => Ok (pairs.*1, pairs.*2)
  end.

Definition default_ks : list Z := [50; 100; 250; 480]%Z.

(** What the library is asked for the cut-off [k] of the ranking [r]:
    the average precision of its first [k] pairs. *)
Definition average_precision_at (r : list (F * Z)) (k : Z) : result F :=
  average_precision_score lib (slice_to k r).*2 (slice_to k r).*1.

(** The body of the loop over [ks], threading [score]. *)
Fixpoint average_precision_loop (results : loc) (ks : list Z) (score : F)
    : M F F :=
  match ks with
  | [] => mret score
  | k :: ks' =>
      r ← read_pool results;
      unzipped ← liftR (unzip_pairs (slice_to k r));
      let '(y_score, y_true) := unzipped in
      average_precision ← liftR (average_precision_score lib y_true y_score);
      let score := f_add score average_precision in
      print (AveragePrecisionAt k average_precision);;
      average_precision_loop results ks' score
  end.

Definition calculate_average_precision_ks (lst : loc) (is_binary : bool)
    (ks : list Z) : M F () :=
  if is_binary then
    l ← read_pool lst;
    results ← new_pool (sorted_desc l);
    score ← average_precision_loop results ks (f_of_Z 0);
    if decide (ks = []) then raise ZeroDivisionError
    else print (AveragePrecisionMean ks
                  (f_div score (f_of_Z (Z.of_nat (length ks)))))
  else mret ().
End Ranking.

(** ** Averaging the metrics of the folds *)

(** [dict((k, f(k, v)) for k, v in d.items())]. *)
Definition dict_comprehension {A B} (f : string → A → result B)
    (d : gmap string A) : result (gmap string B) :=
  items ← mapR (λ kv, v ← f kv.1 kv.2; mret (kv.1, v)) (map_to_list d);
  mret (list_to_map items).

(** [metrics_dict] starts as a [defaultdict(int)] and is a plain dict from
    the first fold on. *)
Inductive MetricsDict (F : Type) : Type :=
  | DefaultDict (d : gmap string F)
  | PlainDict (d : gmap string F).
Arguments DefaultDict {F} d.
Arguments PlainDict {F} d.

Section Folds.
Context `{PyFloat F}.

Definition metrics_items (m : MetricsDict F) : gmap string F :=
  match m with DefaultDict d | PlainDict d => d end.

(** [metrics_dict[k]]: a key a [defaultdict(int)] lacks reads as [0].  The
    entry such a read leaves in the [defaultdict] is not modelled: the
    comprehension reads every key once, and its result replaces the
    [defaultdict]. *)
Definition metrics_getitem (m : MetricsDict F) (k : string) : result F :=
  match m with
  | DefaultDict d => Ok (default (f_of_Z 0) (d !! k))
  | PlainDict d =>
      match d !! k with
      | Some v => Ok v
      | None => Raise KeyError
      end
  end.

(** [dict((k, metrics_dict[k] + v) for k, v in metrics_it.items())]. *)
Definition add_fold (metrics_dict : MetricsDict F) (metrics_it : gmap string F)
    : result (MetricsDict F) :=
  d ← dict_comprehension
        (λ k v, old ← metrics_getitem metrics_dict k; mret (f_add old v))
        metrics_it;
  mret (PlainDict d).

Fixpoint add_folds (metrics_dict : MetricsDict F)
    (folds : list (gmap string F)) : result (MetricsDict F) :=
  match folds with
  | [] => Ok metrics_dict
  | metrics_it :: folds' =>
      metrics_dict ← add_fold metrics_dict metrics_it;
      add_folds metrics_dict folds'
  end.

(** The values a key has in the folds, in the order of the folds. *)
Definition fold_values (k : string) (folds : list (gmap string F)) : list F :=
  omap (λ metrics_it, metrics_it !! k) folds.

(** The metric bookkeeping of [train_test_model_cv] (and, statement for
    statement, of [train_test_attention_guided_cnn]): [folds] holds the
    [metrics_it] of the successive folds.  The splitter yields
    [nr_folds] folds and refuses [nr_folds < 2], so the divisor is
    never [0]. *)
Definition train_test_model_cv_metrics (nr_folds : Z)
    (folds : list (gmap string F)) : result (gmap string F) :=
  metrics_dict ← add_folds (DefaultDict ∅) folds;
  dict_comprehension (λ _ v, Ok (f_div v (f_of_Z nr_folds)))
    (metrics_items metrics_dict).
End Folds.

(** ** The classification report *)

(** The values of the configuration dict. *)
Inductive PyVal : Type :=
  | VNone
  | VBool (b : bool)
  | VInt (z : Z)
  | VStr (s : string).

(** The truth value of a configuration value. *)
Definition truthy (v : PyVal) : bool :=
  match v with
  | VNone => false
  | VBool b => b
  | VInt z => negb (z =? 0)%Z
  | VStr s => negb (String.eqb s "")
  end.

Definition dict_getitem {V} (d : gmap string V) (k : string) : result V :=
  match d !! k with
  | Some v => Ok v
  | None => Raise KeyError
  end.

(** [l[idx]] for an index that is not negative. *)
Definition list_getitem {A} (l : list A) (idx : nat) : result A :=
  match l !! idx with
  | Some x => Ok x
  | None => Raise IndexError
  end.

Fixpoint spaces (n : nat) : string :=
  match n with
  | O => ""
  | S n' => String " "%char (spaces n')
  end.

(** ["{:<width}".format(s)]: padded on the right, never cut. *)
Definition ljust (s : string) (width : nat) : string :=
  s +:+ spaces (width - String.length s).

Definition green : string := String "027"%char "[92m".
Definition red : string := String "027"%char "[91m".
Definition end_colour : string := String "027"%char "[0m".

(** ["{:<105} -> True: {} | Pred: {}".format(name, cls, el)]. *)
Definition classification_line (name : string) (cls el : Z) : string :=
  ljust name 105 +:+ " -> True: " +:+ pretty cls +:+ " | Pred: " +:+ pretty el.

Definition separator : string :=
  "------------------------------------------------".

Section Report.
Context {F : Type}.

(** The loop over [enumerate(y_pred)], from index [idx] on.  A line that
    is written ends the line of the file: [files] keeps the lines without
    their newline. *)
Fixpoint report_loop (tst_flow : Flow) (idx : nat) (y_pred : list Z) : M F () :=
  match y_pred with
  | [] => mret ()
  | el :: y_pred' =>
      cls ← liftR (list_getitem (classes tst_flow) idx);
      let color := if (cls =? el)%Z then green else red in
      name ← liftR (list_getitem (filenames tst_flow) idx);
      print (Line (color +:+ classification_line name cls el +:+ end_colour));;
      let tick := if (cls =? el)%Z then "Correct" else "Incorrect" in
      write_line "info.txt" (classification_line name cls el +:+ " -> " +:+ tick);;
      report_loop tst_flow (S idx) y_pred'
  end.

Definition print_classifications (args : gmap string PyVal) (tst_flow : Flow)
    (y_pred : list Z) : M F () :=
  flag ← liftR (dict_getitem args "print_classifications");
  if negb (truthy flag) then mret ()
  else
    open_append "info.txt";;
    report_loop tst_flow 0 y_pred;;
    write_line "info.txt" separator.
End Report.

(** ** The fused generator *)

Section FusedGenerator.
(** The iterator of the generator library: the state of a flow, its
    image and label batches, and its [reset] and [next]. *)
Context {St X Y : Type}.
Context (flow_reset : St → St) (flow_next : St → result (X * Y) * St).

(** The flow objects, by location: two names may denote one flow. *)
Definition call_reset (x : loc) (flows : gmap loc St) : result () * gmap loc St :=
  match flows !! x with
  | Some s => (Ok (), <[x := flow_reset s]> flows)
  | None => (Raise NameError, flows)
  end.

Definition call_next (x : loc) (flows : gmap loc St)
    : result (X * Y) * gmap loc St :=
  match flows !! x with
  | Some s => let '(r, s') := flow_next s in (r, <[x := s']> flows)
  | None => (Raise NameError, flows)
  end.

(** Where the body of the generator stands: before its first statement,
    suspended at the [yield], or left through an exception. *)
Inductive GenState : Type := NotStarted | Suspended | Finished.

Record Generator : Type := mk_Generator {
  gen_state : GenState;
  gen_x1 : loc;
  gen_x2 : loc
}.

(** Calling [merge_generators] runs none of its body. *)
Definition merge_generators (x1 x2 : loc) : Generator :=
  mk_Generator NotStarted x1 x2.

Definition finished (g : Generator) : Generator :=
  mk_Generator Finished (gen_x1 g) (gen_x2 g).

Definition suspended (g : Generator) : Generator :=
  mk_Generator Suspended (gen_x1 g) (gen_x2 g).

(** One turn of [while True], up to the [yield]. *)
Definition loop_turn (g : Generator) (flows : gmap loc St)
    : result (list X * Y) * Generator * gmap loc St :=
  match call_next (gen_x1 g) flows with
  | (Raise e, flows) => (Raise e, finished g, flows)
  | (Ok x1i, flows) =>
      match call_next (gen_x2 g) flows with
      | (Raise e, flows) => (Raise e, finished g, flows)
      | (Ok x2i, flows) => (Ok ([x1i.1; x2i.1], x1i.2), suspended g, flows)
      end
  end.

(** [next(generator)]. *)
Definition generator_next (g : Generator) (flows : gmap loc St)
    : result (list X * Y) * Generator * gmap loc St :=
  match gen_state g with
  | Finished => (Raise StopIteration, g, flows)
  | Suspended => loop_turn g flows
  | NotStarted =>
      match call_reset (gen_x1 g) flows with
      | (Raise e, flows) => (Raise e, finished g, flows)
      | (Ok _, flows) =>
          match call_reset (gen_x2 g) flows with
          | (Raise e, flows) => (Raise e, finished g, flows)
          | (Ok _, flows) => loop_turn g flows
          end
      end
  end.

(** [n] pulls in a row, up to the first that raises. *)
Fixpoint generator_pulls (n : nat) (g : Generator) (flows : gmap loc St)
    : result (list (list X * Y)) * Generator * gmap loc St :=
  match n with
  | O => (Ok [], g, flows)
  | S n' =>
      match generator_next g flows with
      | (Raise e, g, flows) => (Raise e, g, flows)
      | (Ok item, g, flows) =>
          match generator_pulls n' g flows with
          | (Raise e, g, flows) => (Raise e, g, flows)
          | (Ok items, g, flows) => (Ok (item :: items), g, flows)
          end
      end
  end.

(** The item the generator makes of a batch of each flow. *)
Definition fused (x1i x2i : X * Y) : list X * Y := ([x1i.1; x2i.1], x1i.2).

(** The batches a flow hands out over [n] calls of [next]. *)
Fixpoint flow_pulls (n : nat) (s : St) : result (list (X * Y)) * St :=
  match n with
  | O => (Ok [], s)
  | S n' =>
      match flow_next s with
      | (Raise e, s) => (Raise e, s)
      | (Ok b, s) =>
          match flow_pulls n' s with
          | (Raise e, s) => (Raise e, s)
          | (Ok bs, s) => (Ok (b :: bs), s)
          end
      end
  end.
End FusedGenerator.

(** ** Printing the metrics *)

Section Printing.
(** [float_repr] is the text that ["{}".format] gives a float. *)
Context {F : Type} (float_repr : F → string).

(** [print(label + "{}".format(metrics[key]))]. *)
Definition print_metric (label : string) (metrics : gmap string F)
    (key : string) : M F () :=
  value ← liftR (dict_getitem metrics key);
  print (Line (label +:+ float_repr value)).

Definition print_results (metrics : gmap string F) (is_binary : bool) : M F () :=
  print_metric "Accuracy ----------------> " metrics "accuracy";;
  if is_binary then
    print_metric "F-Score -----------------> " metrics "f-score";;
    print_metric "Precision ---------------> " metrics "precision";;
    print_metric "Recall ------------------> " metrics "recall"
  else
    print_metric "Mean Absolute Error -----> " metrics "mean_absolute_error";;
    print_metric "F-Score (macro) ---------> " metrics "f-score_ma";;
    print_metric "Precision (macro) -------> " metrics "precision_ma";;
    print_metric "Recall (macro) ----------> " metrics "recall_ma".

Definition print_fold_results (metrics : gmap string F) (is_binary : bool)
    : M F () :=
  if is_binary then
    print_metric "Accuracy ----------------> " metrics "accuracy";;
    print_metric "F-Score -----------------> " metrics "f-score"
  else
    print_metric "Accuracy ----------------> " metrics "accuracy";;
    print_metric "F-Score (macro) ---------> " metrics "f-score_ma".

(** The keys that [print_results] reads in a mode, in the order it reads
    them, with the label it prints each under. *)
Definition printed_keys (is_binary : bool) : list (string * string) :=
  if is_binary then
    [ ("Accuracy ----------------> ", "accuracy");
      ("F-Score -----------------> ", "f-score");
      ("Precision ---------------> ", "precision");
      ("Recall ------------------> ", "recall") ]
  else
    [ ("Accuracy ----------------> ", "accuracy");
      ("Mean Absolute Error -----> ", "mean_absolute_error");
      ("F-Score (macro) ---------> ", "f-score_ma");
      ("Precision (macro) -------> ", "precision_ma");
      ("Recall (macro) ----------> ", "recall_ma") ].

(** The lines of the keys of [keys] that [metrics] has, up to the first
    key it lacks. *)
Fixpoint metric_lines (metrics : gmap string F) (keys : list (string * string))
    : list (Printed F) :=
  match keys with
  | [] => []
  | (label, key) :: keys' =>
      match metrics !! key with
      | Some value => Line (label +:+ float_repr value) :: metric_lines metrics keys'
      | None => []
      end
  end.
End Printing.

(** The keys of the dict of a mode. *)
Definition metric_keys (is_binary : bool) : gset string :=
  if is_binary then {[ "accuracy"; "precision"; "recall"; "f-score" ]}
  else {[ "accuracy"; "mean_absolute_error"; "precision_ma"; "recall_ma";
          "f-score_ma" ]}.

(** Whether [metrics] has every key of [keys]. *)
Definition has_keys {F} (metrics : gmap string F) (keys : list (string * string))
    : bool :=
  forallb (λ lk, bool_decide (is_Some (metrics !! lk.2))) keys.

(** ** Folds that differ in their keys *)

(** Every fold has its keys among those of the fold before it; [keys] are
    the keys of the fold before the first of [folds]. *)
Fixpoint keys_shrink {F} (keys : gset string) (folds : list (gmap string F))
    : Prop :=
  match folds with
  | [] => True
  | metrics_it :: folds' =>
      dom metrics_it ⊆ keys ∧ keys_shrink (dom metrics_it) folds'
  end.

(** ** Accuracy per class *)

(** What the bound of a share asks of the floats, for the counts up to
    [s] divided by [s]: no share is a NaN, the shares keep the order of
    the counts, and [0 / s] and [s / s] compare with the shares as [0] and
    [1] do. *)
Definition share_laws `{PyFloat F} (s : Z) : Prop :=
  ∀ a b : Z, (0 ≤ a)%Z → (a ≤ b)%Z → (b ≤ s)%Z →
    let share := λ x : Z, f_div (f_of_Z x) (f_of_Z s) in
    f_isnan (share a) = false
    ∧ f_ltb (share b) (share a) = false
    ∧ f_ltb (share a) (f_of_Z 0) = f_ltb (share a) (share 0%Z)
    ∧ f_ltb (f_of_Z 1) (share a) = f_ltb (share s) (share a).

(** [share_laws], as a test that runs over the counts up to [s]. *)
Definition share_lawsb `{PyFloat F} (s : Z) : bool :=
  let share := λ x : Z, f_div (f_of_Z x) (f_of_Z s) in
  forallb (λ a : nat,
    negb (f_isnan (share (Z.of_nat a)))
    && Bool.eqb (f_ltb (share (Z.of_nat a)) (f_of_Z 0))
                (f_ltb (share (Z.of_nat a)) (share 0%Z))
    && Bool.eqb (f_ltb (f_of_Z 1) (share (Z.of_nat a)))
                (f_ltb (share s) (share (Z.of_nat a)))
    && forallb (λ b : nat,
         negb (f_ltb (share (Z.of_nat (a + b))) (share (Z.of_nat a))))
         (seq 0 (S (Z.to_nat s - a))))
    (seq 0 (S (Z.to_nat s))).

Section PerClass.
(** [confusion_matrix] is scikit-learn's, its result a list of rows;
    [array_repr] is the text that ["{}".format] gives an array. *)
Context `{PyFloat F}.
Context (confusion_matrix : list Z → list Z → result (list (list Z))).
Context (array_repr : list F → string).

(** [cm.sum(axis=1)] at one row. *)
Definition row_sum (row : list Z) : Z := foldr Z.add 0%Z row.

(** [cm.astype('float') / cm.sum(axis=1)[:, np.newaxis]]: every row
    divided by its sum. *)
Definition normalise_rows (cm : list (list Z)) : list (list F) :=
  map (λ row, map (λ x, f_div (f_of_Z x) (f_of_Z (row_sum row))) row) cm.

(** [cm.diagonal()], from row and column [i] on. *)
Fixpoint diagonal_from {A} (i : nat) (cm : list (list A)) : list A :=
  match cm with
  | [] => []
  | row :: cm' =>
      match row !! i with
      | Some x => x :: diagonal_from (S i) cm'
      | None => []
      end
  end.

Definition calculate_accuracy_per_class (y_test y_pred : list Z) : M F () :=
  cm ← liftR (confusion_matrix y_test y_pred);
  let cm := normalise_rows cm in
  print (Line ("Accuracy per class ------> " +:+ array_repr (diagonal_from 0 cm))).
End PerClass.

(** ** Checkpoint paths *)

(** The paths are the format strings of the drivers; [dataset] is a
    [str], the fold number and the number of folds are ints. *)
Definition split_weights_path (dataset : string) : string :=
  "weights/" +:+ dataset +:+ "_split/weights.hdf5".

Definition cv_weights_path (dataset : string) (fold_nr nr_folds : Z) : string :=
  "weights/" +:+ dataset +:+ "_cv/weights_fold_" +:+ pretty fold_nr
    +:+ "_from_" +:+ pretty nr_folds +:+ ".hdf5".

Definition first_branch_path (dataset : string) (fold_nr nr_folds : Z) : string :=
  "weights/" +:+ dataset +:+ "_attention_guided_global_branch_cv/weights_fold_"
    +:+ pretty fold_nr +:+ "_from_" +:+ pretty nr_folds +:+ ".hdf5".

Definition second_branch_path (dataset : string) (fold_nr nr_folds : Z) : string :=
  "weights/" +:+ dataset +:+ "_attention_guided_local_branch_cv/weights_fold_"
    +:+ pretty fold_nr +:+ "_from_" +:+ pretty nr_folds +:+ ".hdf5".

Definition all_network_path (dataset : string) (fold_nr nr_folds : Z) : string :=
  "weights/" +:+ dataset +:+ "_attention_guided_all_cv/weights_fold_"
    +:+ pretty fold_nr +:+ "_from_" +:+ pretty nr_folds +:+ ".hdf5".

(** The character [c] does not occur in [s]. *)
Fixpoint lacks (c : ascii) (s : string) : Prop :=
  match s with
  | EmptyString => True
  | String c' s' => c' ≠ c ∧ lacks c s'
  end.

(** ** Creating the directory of a path *)

(** [p[:p.rfind('/') + 1]]: [p] up to its last slash. *)
Fixpoint head_of_path (p : string) : string :=
  match p with
  | EmptyString => ""
  | String c p' =>
      let head := head_of_path p' in
      if negb (String.eqb head "") || Ascii.eqb c "/" then String c head else ""
  end.

(** [head.rstrip('/')]. *)
Fixpoint rstrip_slashes (head : string) : string :=
  match head with
  | EmptyString => ""
  | String c head' =>
      let rest := rstrip_slashes head' in
      if Ascii.eqb c "/" && String.eqb rest "" then "" else String c rest
  end.

(** [head == '/' * len(head)]. *)
Fixpoint all_slashes (head : string) : bool :=
  match head with
  | EmptyString => true
  | String c head' => Ascii.eqb c "/" && all_slashes head'
  end.

(** [os.path.dirname] of a POSIX path. *)
Definition dirname (p : string) : string :=
  let head := head_of_path p in
  if negb (String.eqb head "") && negb (all_slashes head)
  then rstrip_slashes head
  else head.

Section CheckPath.
(** The file system is that of [os]: [isdir] is [os.path.isdir] and
    [makedirs] is [os.makedirs]. *)
Context {FS : Type}.
Context (isdir : FS → string → bool).
Context (makedirs : string → FS → result () * FS).

Definition check_path (filepath : string) (fs : FS) : result string * FS :=
  let parent := dirname filepath in
  if negb (isdir fs parent) then
    match makedirs parent fs with
    | (Ok _, fs') => (Ok filepath, fs')
    | (Raise e, fs') => (Raise e, fs')
    end
  else (Ok filepath, fs).
End CheckPath.

(** ** The classification report, line by line *)

(** The samples that [print_classifications] gets through: file name,
    true class and prediction, as far as all three exist. *)
Definition report_rows (tst_flow : Flow) (y_pred : list Z)
    : list (string * Z * Z) :=
  zip (zip (filenames tst_flow) (classes tst_flow)) y_pred.

Definition printed_row {F} (row : string * Z * Z) : Printed F :=
  let '(name, cls, el) := row in
  Line ((if (cls =? el)%Z then green else red)
        +:+ classification_line name cls el +:+ end_colour).

Definition written_row (row : string * Z * Z) : string :=
  let '(name, cls, el) := row in
  classification_line name cls el +:+ " -> "
    +:+ (if (cls =? el)%Z then "Correct" else "Incorrect").

(** ** One flow under two names *)

(** The items of the fused generator when both its flows are one flow:
    the batches of that flow, two by two. *)
Fixpoint fused_pairs {X Y} (bs : list (X * Y)) : list (list X * Y) :=
  match bs with
  | b1 :: b2 :: bs' => fused b1 b2 :: fused_pairs bs'
  | _ => []
  end.

(** ** Example inputs *)

(** [int] at a non-empty string of ASCII digits, which is what the labels
    of the examples are; [acc] is the value of the digits read so far. *)
Fixpoint int_of_digits (acc : Z) (s : string) : result Z :=
  match s with
  | EmptyString => Ok acc
  | String c s' =>
      let d := (Z.of_nat (nat_of_ascii c) - 48)%Z in
      if ((0 <=? d) && (d <=? 9))%Z then int_of_digits (10 * acc + d) s'
      else Raise ValueError
  end.

Definition example_int (s : string) : result Z :=
  match s with
  | EmptyString => Raise ValueError
  | _ => int_of_digits 0 s
  end.

(** A library for the closed examples: its metrics return fixed values,
    whatever they are asked. *)
Definition stub_library : Library Q :=
  mk_Library Q
    example_int
    (λ _ _, Ok 1%Q)
    (λ _ _ _, Ok (1%Q, 1%Q, 1%Q, None))
    (λ _ _, Ok 0%Q)
    (λ _ _, Ok 1%Q).

(** A flow whose class-index table is the expected one, and one whose
    table is inverted. *)
Definition aligned_flow : Flow :=
  keras_flow [("0", 0%Z); ("1", 1%Z)] [1%Z; 0%Z] ["a.png"; "b.png"].

Definition inverted_flow : Flow :=
  keras_flow [("1", 0%Z); ("0", 1%Z)] [1%Z; 0%Z] ["a.png"; "b.png"].

(** The output of a model on two samples: a column of probabilities. *)
Definition example_probabilities : ndarray Q :=
  mk_ndarray [2; 1] [(9 # 10)%Q; (1 # 5)%Q].

(** A pool of four pairs, two of them tied at each probability. *)
Definition example_pool : list (Q * Z) :=
  [((1 # 2)%Q, 1%Z); ((9 # 10)%Q, 0%Z); ((1 # 2)%Q, 0%Z); ((9 # 10)%Q, 1%Z)].

Definition example_world : World Q :=
  mk_World {[ 0 := example_probabilities ]} {[ 0 := example_pool ]} [] ∅.

(** A flow over the labels 3, 5 and 7, and the output of a model on two
    samples of it. *)
Definition three_class_flow : Flow :=
  keras_flow [("3", 0%Z); ("5", 1%Z); ("7", 2%Z)] [2%Z; 0%Z] ["a.png"; "b.png"].

Definition three_class_world : World Q :=
  mk_World
    {[ 0 := mk_ndarray [2; 3]
              [(1 # 10)%Q; (7 # 10)%Q; (2 # 10)%Q;
               (5 # 10)%Q; (3 # 10)%Q; (2 # 10)%Q] ]}
    ∅ [] ∅.

(** Four folds that report one accuracy each. *)
Definition accuracy_folds {F} (a b c d : F) : list (gmap string F) :=
  [ {[ "accuracy" := a ]}; {[ "accuracy" := b ]};
    {[ "accuracy" := c ]}; {[ "accuracy" := d ]} ].

(** A flow for the examples: its state is a first label and a cursor, its
    batch at cursor [c] carries the label [first + c]. *)
Definition example_reset (s : Z * nat) : Z * nat := (s.1, 0).

Definition example_next (s : Z * nat) : result (string * Z) * (Z * nat) :=
  (Ok ("image " +:+ pretty (s.1 + Z.of_nat s.2)%Z, (s.1 + Z.of_nat s.2)%Z),
   (s.1, S s.2)).

Definition example_flows : gmap loc (Z * nat) :=
  {[ 0 := (0%Z, 5); 1 := (10%Z, 7) ]}.

(** A flow over the labels ["cat"] and ["dog"]. *)
Definition cat_dog_flow : Flow :=
  keras_flow [("cat", 0%Z); ("dog", 1%Z)] [1%Z; 0%Z] ["a.png"; "b.png"].

(** A rational as numerator, slash, denominator. *)
Definition example_repr (q : Q) : string :=
  pretty (Qnum q) +:+ "/" +:+ pretty (Zpos (Qden q)).

Definition example_array_repr (l : list Q) : string :=
  foldr (λ q s, example_repr q +:+ " " +:+ s) "" l.

(** The four metrics of a binary fold, all [1]. *)
Definition binary_fold : gmap string Q :=
  dict_update {[ "accuracy" := 1%Q ]}
    (<["precision" := 1%Q]> (<["recall" := 1%Q]> {[ "f-score" := 1%Q ]})).

Definition example_confusion_matrix (y_test y_pred : list Z)
    : result (list (list Z)) :=
  Ok [[2; 1]; [0; 3]]%Z.

(** A file system that is the set of its directories. *)
Definition example_isdir (fs : gset string) (p : string) : bool :=
  bool_decide (p ∈ fs).

Definition example_makedirs (p : string) (fs : gset string)
    : result () * gset string :=
  (Ok (), {[ p ]} ∪ fs).

(** Scores over binary64, all of them exact. *)
Definition example_scores : list float :=
  [0; 0.125; 0.25; 0.375; 0.5; 0.625; 0.75]%float.

(** A pool of 500 pairs: pair [i] has the score [(i mod 7) / 8] and the
    label [i mod 2]. *)
Definition large_pool : list (float * Z) :=
  (λ i, (default 0%float (example_scores !! (i mod 7)), Z.of_nat (i mod 2)))
    <$> seq 0 500.

(** A library over binary64 whose average precision is the number of
    scores it is given. *)
Definition counting_library : Library float :=
  mk_Library float
    example_int
    (λ _ _, Ok 1%float)
    (λ _ _ _, Ok (1%float, 1%float, 1%float, None))
    (λ _ _, Ok 0%float)
    (λ _ y_score, Ok (float_of_Z (Z.of_nat (length y_score)))).

Definition large_world : World float :=
  mk_World ∅ {[ 0 := large_pool ]} [] ∅.

Definition float_array_repr (l : list float) : string :=
  pretty (length l) +:+ " values".

(** * Properties *)

(** ** The exact floats *)

Lemma Qltb_lt (a b : Q) : Qltb a b = true ↔ (a < b)%Q.
Proof.
  unfold Qltb. rewrite negb_true_iff, <- not_true_iff_false, Qle_bool_iff.
  split; [apply Qnot_le_lt | apply Qlt_not_le].
Qed.

(** On the rationals [p > 0.5] is the order of the rationals. *)
Lemma Q_above_half (p : Q) : f_gtb p f_half = true ↔ (1 # 2 < p)%Q.
Proof. apply Qltb_lt. Qed.

#[export] Instance Q_order : PyFloatOrder Q.
Proof.
  split; unfold f_ltb; cbn.
  - intros a. apply not_true_iff_false. rewrite Qltb_lt. apply Qlt_irrefl.
  - intros a b c. rewrite !Qltb_lt. apply Qlt_trans.
  - intros a b c. rewrite !Qltb_lt. intros Hac.
    destruct (Qlt_le_dec a b) as [Hab | Hba]; [by left | right].
    by eapply Qle_lt_trans.
Qed.

(** ** Results and dict comprehensions *)

Section ResultFacts.
Context {A B : Type}.

Lemma mapR_fmap (f : A → result B) (g : A → B) (l : list A) :
  Forall (λ x, f x = Ok (g x)) l → mapR f l = Ok (g <$> l).
Proof.
  induction 1 as [| x l Hx _ IH]; [done |].
  cbn. by rewrite Hx, IH.
Qed.

Lemma mapR_Raise (f : A → result B) (l : list A) (e : PyExn) :
  mapR f l = Raise e → ∃ x, x ∈ l ∧ f x = Raise e.
Proof.
  induction l as [| x l IH]; [done |]. cbn.
  destruct (f x) as [y |] eqn:Hx; cbn.
  - destruct (mapR f l); [done |]. intros [= ->].
    destruct IH as (x' & ? & ?); [done |]. exists x'. split; [by right | done].
  - intros [= ->]. exists x. split; [by left | done].
Qed.
End ResultFacts.

Section DictFacts.
Context {A B : Type}.

(** A comprehension whose body succeeds on every item builds the dict of
    the bodies' values. *)
Lemma dict_comprehension_Ok (f : string → A → result B) (g : string → A → B)
    (d : gmap string A) :
  (∀ k v, d !! k = Some v → f k v = Ok (g k v)) →
  ∃ d', dict_comprehension f d = Ok d' ∧ ∀ k, d' !! k = g k <$> d !! k.
Proof.
  intros Hf. unfold dict_comprehension.
  rewrite (mapR_fmap _ (λ kv, (kv.1, g kv.1 kv.2))).
  2:{ apply Forall_forall. intros [k v] Hkv%elem_of_map_to_list. cbn.
      by rewrite (Hf k v Hkv). }
  eexists. split; [reflexivity |]. intros k.
  assert (NoDup ((λ kv, (kv.1, g kv.1 kv.2)) <$> map_to_list d).*1) as Hnd.
  { rewrite <- list_fmap_compose. apply NoDup_fst_map_to_list. }
  destruct (d !! k) as [v |] eqn:Hk; cbn.
  - apply elem_of_list_to_map_1; [done |].
    apply list_elem_of_fmap. exists (k, v). split; [done |].
    by apply elem_of_map_to_list.
  - apply not_elem_of_list_to_map_1. intros Hin.
    apply list_elem_of_fmap in Hin as ([k' b] & -> & Hin).
    apply list_elem_of_fmap in Hin as ([k'' v] & [= -> ->] & Hin).
    apply elem_of_map_to_list in Hin. cbn in Hk. congruence.
Qed.

(** A comprehension raises what its body raises on some item. *)
Lemma dict_comprehension_Raise (f : string → A → result B)
    (d : gmap string A) (e : PyExn) :
  dict_comprehension f d = Raise e → ∃ k v, d !! k = Some v ∧ f k v = Raise e.
Proof.
  unfold dict_comprehension. intros He.
  destruct (mapR _ (map_to_list d)) as [items |] eqn:Hm; [done |].
  injection He as ->. apply mapR_Raise in Hm as ([k v] & Hin & Hf).
  exists k, v. split; [by apply elem_of_map_to_list |].
  cbn in Hf. unfold mbind, result_bind, bindR, mret, result_ret in Hf.
  destruct (f k v); [discriminate Hf | congruence].
Qed.
End DictFacts.


(** ** Properties of the store *)

Section StoreFacts.
Context {F : Type}.
Implicit Types (w : World F) (a : ndarray F).

Lemma new_array_spec a w :
  ∃ l, new_array a w
         = (Ok l, mk_World (<[l := a]> (arrays w)) (pools w) (stdout w) (files w))
       ∧ arrays w !! l = None.
Proof.
  eexists. split; [reflexivity |]. apply not_elem_of_dom, is_fresh.
Qed.

Lemma new_pool_spec (p : list (F * Z)) w :
  ∃ l, new_pool p w
         = (Ok l, mk_World (arrays w) (<[l := p]> (pools w)) (stdout w) (files w))
       ∧ pools w !! l = None.
Proof.
  eexists. split; [reflexivity |]. apply not_elem_of_dom, is_fresh.
Qed.

Lemma insert_fresh_lookup {V} (m : gmap loc V) (l y : loc) (v x : V) :
  m !! l = None → m !! y = Some x → <[l := v]> m !! y = Some x.
Proof.
  intros Hl Hy. rewrite lookup_insert_ne; [done |]. congruence.
Qed.
End StoreFacts.

Section PredictionFacts.
Context `{PyFloat F} (lib : Library F).
Implicit Types (w : World F) (a : ndarray F) (y : loc).

(** The outcome of [verify_probabilities], by the outcome of its
    condition. *)
Lemma verify_probabilities_spec y trn w :
  match misaligned trn, arrays w !! y with
  | Raise e, _ => verify_probabilities y trn w = (Raise e, w)
  | Ok _, None => verify_probabilities y trn w = (Raise NameError, w)
  | Ok flip, Some a =>
      let a' := if flip
                then np_array (map (λ el, f_sub (f_of_Z 1) el) (data (flatten a)))
                else flatten a in
      ∃ l, verify_probabilities y trn w
             = (Ok l, mk_World (<[l := a']> (arrays w)) (pools w) (stdout w) (files w))
           ∧ arrays w !! l = None
  end.
Proof.
  unfold verify_probabilities, mbind, M_bind, liftR, read_array.
  destruct (misaligned trn) as [flip | e]; [| done].
  destruct (arrays w !! y) as [a |]; [| done].
  destruct flip; apply new_array_spec.
Qed.




(** In multi-class mode the store is only read. *)
Lemma calculate_prediction_multiclass_pure y trn tst :
  ∃ r : ndarray F → result (Predictions * list Z),
    ∀ w,
    calculate_prediction lib y trn tst false w
    = match arrays w !! y with
      | None => (Raise NameError, w)
      | Some a => (match r a with Ok (p, t) => Ok (y, p, t) | Raise e => Raise e end, w)
      end.
Proof.
  eexists (λ a,
    match np_argmax_axis1 a with
    | Ok items =>
        match
          match items with
          | Indices ks =>
              mapR (λ k, s ← assoc_getitem (dict_invert (class_indices trn)) (Z.of_nat k);
                         py_int lib s) ks
          | SubArrays n => if decide (n = 0) then Ok [] else Raise TypeError
          end
        with
        | Ok l => Ok (PredList l, classes tst)
        | Raise e => Raise e
        end
    | Raise e => Raise e
    end).
  intros w'. unfold calculate_prediction, mbind, M_bind, liftR, read_array.
  destruct (arrays w' !! y) as [a |]; [| done].
  destruct (np_argmax_axis1 a) as [items | e]; [| done].
  destruct items as [ks | n].
  - destruct (mapR _ ks); done.
  - destruct (decide (n = 0)); done.
Qed.

(** The outcome of [calculate_prediction] in binary mode. *)
Lemma calculate_prediction_binary_spec y trn tst w :
  match misaligned trn, arrays w !! y with
  | Raise e, _ => calculate_prediction lib y trn tst true w = (Raise e, w)
  | Ok _, None => calculate_prediction lib y trn tst true w = (Raise NameError, w)
  | Ok flip, Some a =>
      let a' := if flip
                then np_array (map (λ el, f_sub (f_of_Z 1) el) (data (flatten a)))
                else flatten a in
      ∃ l, calculate_prediction lib y trn tst true w
             = (Ok (l, PredArray (np_where (λ p, f_gtb p f_half) a'), classes tst),
                mk_World (<[l := a']> (arrays w)) (pools w) (stdout w) (files w))
           ∧ arrays w !! l = None
  end.
Proof.
  pose proof (verify_probabilities_spec y trn w) as Hv.
  unfold calculate_prediction, mbind, M_bind.
  destruct (misaligned trn) as [flip | e]; [| by rewrite Hv].
  destruct (arrays w !! y) as [a |]; [| by rewrite Hv].
  destruct Hv as (l & -> & Hl). exists l. split; [| done].
  unfold read_array. cbn [arrays]. by rewrite lookup_insert_eq.
Qed.

(** C7: [calculate_prediction] run twice in a row on the same array,
    flows and mode flag has the same outcome both times: the same
    predictions, true labels and contents of the returned probability
    array, or the same exception. *)
Theorem calculate_prediction_deterministic y trn tst is_binary w :
  let '(o1, o2) := twice (calculate_prediction lib y trn tst is_binary) w in
  same_prediction o1 o2.
Proof.
  unfold twice, same_prediction. destruct is_binary.
  - pose proof (calculate_prediction_binary_spec y trn tst w) as H1.
    destruct (misaligned trn) as [flip | e] eqn:Hm.
    2:{ repeat (rewrite H1; cbn [fst snd]). done. }
    destruct (arrays w !! y) as [a |] eqn:Hy.
    2:{ repeat (rewrite H1; cbn [fst snd]). done. }
    destruct H1 as (l & -> & Hl). cbn [fst snd].
    match goal with |- context [calculate_prediction lib y trn tst true ?w1] =>
      pose proof (calculate_prediction_binary_spec y trn tst w1) as H2 end.
    rewrite Hm in H2. cbn [arrays] in H2.
    rewrite (insert_fresh_lookup _ _ _ _ _ Hl Hy) in H2.
    destruct H2 as (l2 & -> & Hl2). cbn [fst snd arrays].
    split; [| done]. eexists. split_and!.
    + apply lookup_insert_eq.
    + apply lookup_insert_eq.
    + apply insert_fresh_lookup; [done |]. apply lookup_insert_eq.
  - destruct (calculate_prediction_multiclass_pure y trn tst) as [r Hr].
    rewrite (Hr w). destruct (arrays w !! y) as [a |] eqn:Hy; cbn [fst snd].
    + rewrite (Hr w), Hy. cbn [fst snd].
      destruct (r a) as [[p t] | e]; [| done].
      split; [| done]. by exists a.
    + by rewrite (Hr w), Hy.
Qed.
End PredictionFacts.

Section InvertedFacts.
Context `{PyFloat F} (lib : Library F).

(** A flow of the generator library whose table gives label ["0"] an
    index other than [0]: the condition raises at the subscript. *)
Lemma misaligned_keras_inverted ci cls names (i0 : Z) :
  assoc_get ci "0" = Some i0 → i0 ≠ 0%Z →
  misaligned (keras_flow ci cls names) = Raise TypeError.
Proof.
  intros Hget Hne. unfold misaligned, assoc_getitem. cbn. rewrite Hget. cbn.
  by destruct (Z.eqb_spec i0 0).
Qed.

Lemma calculate_prediction_keras_inverted (y : loc) ci cls names tst (i0 : Z)
    (w : World F) :
  assoc_get ci "0" = Some i0 → i0 ≠ 0%Z →
  calculate_prediction lib y (keras_flow ci cls names) tst true w
  = (Raise TypeError, w).
Proof.
  intros Hget Hne.
  pose proof (calculate_prediction_binary_spec lib y (keras_flow ci cls names) tst w)
    as Hspec.
  by rewrite (misaligned_keras_inverted ci cls names i0) in Hspec.
Qed.

(** The correction itself, for a flow whose subscript does return
    something other than [1]: the probabilities are complemented and then
    compared with [0.5]. *)
Lemma calculate_prediction_flipped (y : loc) (a : ndarray F) trn tst (w : World F) :
  arrays w !! y = Some a →
  misaligned trn = Ok true →
  ∃ y' w',
    calculate_prediction lib y trn tst true w
    = (Ok (y',
           PredArray (np_where (λ p, f_gtb p f_half)
                        (np_array (map (λ el, f_sub (f_of_Z 1) el) (data a)))),
           classes tst), w')
    ∧ arrays w' !! y'
      = Some (np_array (map (λ el, f_sub (f_of_Z 1) el) (data a))).
Proof.
  intros Hy Hm.
  pose proof (calculate_prediction_binary_spec lib y trn tst w) as Hspec.
  rewrite Hm, Hy in Hspec. destruct Hspec as (l & -> & _).
  eexists _, _. split; [reflexivity |]. cbn. apply lookup_insert_eq.
Qed.
End InvertedFacts.

(** C1, at an inverted flow: the claim expects the predictions [0; 1] of
    the complemented probabilities [0.9; 0.2]; the call raises at the
    subscript of the flow and returns no prediction. *)
Theorem calculate_prediction_inverted_flow_raises :
  assoc_get (class_indices inverted_flow) "1" = Some 0%Z
  ∧ np_where (λ p, f_gtb p f_half)
      (np_array (map (λ el, f_sub (f_of_Z 1) el) (data example_probabilities)))
    = mk_ndarray [2] [0%Z; 1%Z]
  ∧ calculate_prediction stub_library 0 inverted_flow aligned_flow true
      example_world
    = (Raise TypeError, example_world).
Proof.
  split_and!; [done | done |].
  by apply (calculate_prediction_keras_inverted stub_library 0 _ _ _ _ 1%Z).
Qed.

(** In multi-class mode the arg-max of every row is mapped back to its
    label; the array that is returned is the one that was passed. *)
Example calculate_prediction_multiclass_example :
  calculate_prediction stub_library 0 three_class_flow three_class_flow false
    three_class_world
  = (Ok (0, PredList [5%Z; 3%Z], [2%Z; 0%Z]), three_class_world).
Proof. reflexivity. Qed.


(** ** Metrics and the report *)

Section MetricsFacts.
Context `{PyFloat F} (lib : Library F).

(** C6: once the library calls return, the dict that
    [accuracy_precision_recall_fscore] returns holds the accuracy and, in
    binary mode, the precision, recall and F-score of the ["binary"]
    average, in multi-class mode the mean absolute error and the
    precision, recall and F-score of the ["macro"] average: these keys
    and no other. *)
Theorem accuracy_precision_recall_fscore_keys (y_test y_pred : list Z)
    (accuracy : F) :
  accuracy_score lib y_test y_pred = Ok accuracy →
  (∀ precision recall f_score support,
      precision_recall_fscore_support lib y_test y_pred AvgBinary
        = Ok (precision, recall, f_score, support) →
      ∃ metrics,
        accuracy_precision_recall_fscore lib y_test y_pred true = Ok metrics
        ∧ dom metrics = {[ "accuracy"; "precision"; "recall"; "f-score" ]}
        ∧ metrics !! "accuracy" = Some accuracy
        ∧ metrics !! "precision" = Some precision
        ∧ metrics !! "recall" = Some recall
        ∧ metrics !! "f-score" = Some f_score)
  ∧ (∀ mean_absolute precision_ma recall_ma f_score_ma support,
      mean_absolute_error lib y_test y_pred = Ok mean_absolute →
      precision_recall_fscore_support lib y_test y_pred AvgMacro
        = Ok (precision_ma, recall_ma, f_score_ma, support) →
      ∃ metrics,
        accuracy_precision_recall_fscore lib y_test y_pred false = Ok metrics
        ∧ dom metrics = {[ "accuracy"; "mean_absolute_error"; "precision_ma";
                           "recall_ma"; "f-score_ma" ]}
        ∧ metrics !! "accuracy" = Some accuracy
        ∧ metrics !! "mean_absolute_error" = Some mean_absolute
        ∧ metrics !! "precision_ma" = Some precision_ma
        ∧ metrics !! "recall_ma" = Some recall_ma
        ∧ metrics !! "f-score_ma" = Some f_score_ma).
Proof.
  intros Hacc. split.
  - intros precision recall f_score support Hprf.
    eexists. split.
    { unfold accuracy_precision_recall_fscore. rewrite Hacc. cbn.
      rewrite Hprf. cbn. reflexivity. }
    unfold dict_update. split_and!.
    + rewrite dom_union_L, !dom_insert_L, !dom_singleton_L. set_solver.
    + by simplify_map_eq.
    + by simplify_map_eq.
    + by simplify_map_eq.
    + by simplify_map_eq.
  - intros mean_absolute precision_ma recall_ma f_score_ma support Hmae Hprf.
    eexists. split.
    { unfold accuracy_precision_recall_fscore. rewrite Hacc. cbn.
      rewrite Hmae. cbn. rewrite Hprf. cbn. reflexivity. }
    unfold dict_update. split_and!.
    + rewrite dom_union_L, !dom_insert_L, !dom_singleton_L. set_solver.
    + by simplify_map_eq.
    + by simplify_map_eq.
    + by simplify_map_eq.
    + by simplify_map_eq.
    + by simplify_map_eq.
Qed.
End MetricsFacts.

Section ReportFacts.
Context {F : Type}.

(** C8: with a false [print_classifications] flag the call returns at
    once: nothing is printed and no file is created or written. *)
Theorem print_classifications_disabled (args : gmap string PyVal)
    (flag : PyVal) (tst_flow : Flow) (y_pred : list Z) (w : World F) :
  args !! "print_classifications" = Some flag →
  truthy flag = false →
  print_classifications args tst_flow y_pred w = (Ok (), w).
Proof.
  intros Hflag Hfalse.
  unfold print_classifications, mbind, M_bind, liftR, dict_getitem.
  by rewrite Hflag, Hfalse.
Qed.
End ReportFacts.

Lemma accuracy_precision_recall_fscore_keys_witness :
  accuracy_score stub_library [1%Z; 0%Z] [1%Z; 1%Z] = Ok 1%Q
  ∧ ∃ metrics,
      accuracy_precision_recall_fscore stub_library [1%Z; 0%Z] [1%Z; 1%Z] true
      = Ok metrics
      ∧ dom metrics = {[ "accuracy"; "precision"; "recall"; "f-score" ]}.
Proof.
  split; [reflexivity |].
  destruct (accuracy_precision_recall_fscore_keys stub_library
              [1%Z; 0%Z] [1%Z; 1%Z] 1%Q eq_refl) as [Hbinary _].
  destruct (Hbinary 1%Q 1%Q 1%Q None eq_refl) as (metrics & Hrun & Hdom & _).
  by exists metrics.
Defined.

(** With the flag set, every prediction is printed and appended to the
    report, and the separator after them. *)
Example print_classifications_enabled_example :
  let run :=
    print_classifications {[ "print_classifications" := VBool true ]}
      aligned_flow [1%Z; 1%Z] example_world in
  run.1 = Ok ()
  ∧ stdout run.2
    = [ Line (green +:+ classification_line "a.png" 1 1 +:+ end_colour);
        Line (red +:+ classification_line "b.png" 0 1 +:+ end_colour) ]
  ∧ files run.2 !! "info.txt"
    = Some [ classification_line "a.png" 1 1 +:+ " -> Correct";
             classification_line "b.png" 0 1 +:+ " -> Incorrect";
             separator ].
Proof. vm_compute. done. Qed.

Lemma print_classifications_disabled_witness :
  ({[ "print_classifications" := VBool false ]} : gmap string PyVal)
    !! "print_classifications" = Some (VBool false)
  ∧ truthy (VBool false) = false
  ∧ print_classifications {[ "print_classifications" := VBool false ]}
      aligned_flow [1%Z; 1%Z] example_world
    = (Ok (), example_world).
Proof.
  assert (({[ "print_classifications" := VBool false ]} : gmap string PyVal)
            !! "print_classifications" = Some (VBool false)) as Hflag
    by apply lookup_singleton_eq.
  split_and!; [exact Hflag | reflexivity |].
  exact (print_classifications_disabled _ (VBool false) aligned_flow
           [1%Z; 1%Z] example_world Hflag eq_refl).
Defined.

(** ** Averaging over the folds *)

Section FoldFacts.
Context `{PyFloat F}.
Implicit Types (d : gmap string F) (folds : list (gmap string F)).

Lemma add_fold_default metrics_it :
  ∃ d', add_fold (DefaultDict ∅) metrics_it = Ok (PlainDict d')
        ∧ ∀ k, d' !! k = f_add (f_of_Z 0) <$> metrics_it !! k.
Proof.
  unfold add_fold.
  destruct (dict_comprehension_Ok
              (λ k v, old ← metrics_getitem (DefaultDict ∅) k; mret (f_add old v))
              (λ _ v, f_add (f_of_Z 0) v) metrics_it) as (d' & -> & Hd').
  { intros k v _. cbn. by rewrite lookup_empty. }
  by exists d'.
Qed.

Lemma add_fold_plain d metrics_it :
  dom metrics_it ⊆ dom d →
  ∃ d', add_fold (PlainDict d) metrics_it = Ok (PlainDict d')
        ∧ dom d' = dom metrics_it
        ∧ ∀ k old v, d !! k = Some old → metrics_it !! k = Some v →
                     d' !! k = Some (f_add old v).
Proof.
  intros Hsub. unfold add_fold.
  destruct (dict_comprehension_Ok
              (λ k v, old ← metrics_getitem (PlainDict d) k; mret (f_add old v))
              (λ k v, f_add (default (f_of_Z 0) (d !! k)) v) metrics_it)
    as (d' & -> & Hd').
  { intros k v Hk. cbn.
    assert (k ∈ dom d) as [old Hold]%elem_of_dom
      by (apply Hsub, elem_of_dom; eauto).
    by rewrite Hold. }
  exists d'. split_and!; [done | |].
  - apply set_eq. intros k. rewrite !elem_of_dom, Hd'.
    by rewrite fmap_is_Some.
  - intros k old v Hold Hv. by rewrite Hd', Hv, Hold.
Qed.

Lemma add_folds_plain d folds :
  Forall (λ metrics_it, dom metrics_it = dom d) folds →
  ∃ d', add_folds (PlainDict d) folds = Ok (PlainDict d')
        ∧ dom d' = dom d
        ∧ ∀ k v0, d !! k = Some v0 →
                  d' !! k = Some (foldl f_add v0 (fold_values k folds)).
Proof.
  intros Hall. revert d Hall.
  induction folds as [| metrics_it folds IH]; intros d Hall.
  { exists d. by split_and!. }
  apply Forall_cons in Hall as [Hdom Hall].
  destruct (add_fold_plain d metrics_it) as (d1 & Hd1 & Hdom1 & Hval1).
  { by rewrite Hdom. }
  destruct (IH d1) as (d' & Hd' & Hdom' & Hval').
  { eapply Forall_impl; [exact Hall |]. cbn. intros m ->. congruence. }
  exists d'. cbn. rewrite Hd1. cbn. split_and!; [done | congruence |].
  intros k v0 Hk.
  assert (k ∈ dom metrics_it) as [v Hv]%elem_of_dom
    by (rewrite Hdom; apply elem_of_dom; eauto).
  cbn. rewrite Hv. cbn. apply Hval'. by apply Hval1.
Qed.

Lemma fold_values_length k folds (keys : gset string) :
  k ∈ keys →
  Forall (λ metrics_it, dom metrics_it = keys) folds →
  length (fold_values k folds) = length folds.
Proof.
  intros Hk. induction 1 as [| m folds Hm _ IH]; [done |].
  assert (k ∈ dom m) as [v Hv]%elem_of_dom by by rewrite Hm.
  unfold fold_values in *. cbn. rewrite Hv. cbn. by rewrite IH.
Qed.

Lemma cv_metrics_mean (nr_folds : Z) folds (keys : gset string) :
  folds ≠ [] →
  Forall (λ metrics_it, dom metrics_it = keys) folds →
  ∃ metrics_dict,
    train_test_model_cv_metrics nr_folds folds = Ok metrics_dict
    ∧ dom metrics_dict = keys
    ∧ ∀ k, k ∈ keys →
        length (fold_values k folds) = length folds
        ∧ metrics_dict !! k
          = Some (f_div (foldl f_add (f_of_Z 0) (fold_values k folds))
                        (f_of_Z nr_folds)).
Proof.
  intros Hne Hall. destruct folds as [| metrics_it folds]; [done |].
  apply Forall_cons in Hall as [Hdom Hall].
  destruct (add_fold_default metrics_it) as (d1 & Hd1 & Hval1).
  assert (dom d1 = keys) as Hdom1.
  { rewrite <- Hdom. apply set_eq. intros k.
    by rewrite !elem_of_dom, Hval1, fmap_is_Some. }
  destruct (add_folds_plain d1 folds) as (d' & Hd' & Hdom' & Hval').
  { eapply Forall_impl; [exact Hall |]. cbn. congruence. }
  destruct (dict_comprehension_Ok
              (λ _ v, Ok (f_div v (f_of_Z nr_folds)))
              (λ _ v, f_div v (f_of_Z nr_folds)) d')
    as (metrics_dict & Hm & Hval); [done |].
  exists metrics_dict. split_and!.
  - unfold train_test_model_cv_metrics. cbn [add_folds].
    rewrite Hd1. cbn. rewrite Hd'. cbn. exact Hm.
  - rewrite <- Hdom1, <- Hdom'. apply set_eq. intros k.
    by rewrite !elem_of_dom, Hval, fmap_is_Some.
  - intros k Hk.
    assert (k ∈ dom metrics_it) as [v Hv]%elem_of_dom by by rewrite Hdom.
    split.
    + apply (fold_values_length k _ keys); [done |]. by constructor.
    + rewrite Hval. unfold fold_values. cbn. rewrite Hv. cbn.
      rewrite (Hval' k (f_add (f_of_Z 0) v)); [done |].
      by rewrite Hval1, Hv.
Qed.
End FoldFacts.

(** C2: over folds whose metrics have one key set, the aggregated dict has
    that key set and maps every key to the sum of its per-fold values,
    added up from [0] in the order of the folds, divided by the number of
    folds.  Four folds with accuracies 0.80, 0.85, 0.90 and 0.75 aggregate
    to 0.825, in exact arithmetic and in binary64 arithmetic alike. *)
Theorem train_test_model_cv_metrics_mean :
  (∀ (F : Type) (HF : PyFloat F) (nr_folds : Z) (folds : list (gmap string F))
     (keys : gset string),
     nr_folds = Z.of_nat (length folds) →
     (0 < nr_folds)%Z →
     Forall (λ metrics_it, dom metrics_it = keys) folds →
     ∃ metrics_dict,
       train_test_model_cv_metrics nr_folds folds = Ok metrics_dict
       ∧ dom metrics_dict = keys
       ∧ ∀ k, k ∈ keys →
           length (fold_values k folds) = length folds
           ∧ metrics_dict !! k
             = Some (f_div (foldl f_add (f_of_Z 0) (fold_values k folds))
                           (f_of_Z (Z.of_nat (length folds)))))
  ∧ (∃ metrics_dict accuracy,
       train_test_model_cv_metrics 4
         (accuracy_folds (4 # 5) (17 # 20) (9 # 10) (3 # 4))%Q = Ok metrics_dict
       ∧ metrics_dict !! "accuracy" = Some accuracy
       ∧ (accuracy == 33 # 40)%Q)
  ∧ (∃ metrics_dict,
       @train_test_model_cv_metrics float binary64 4
         (accuracy_folds 0x1.999999999999ap-1 0x1.b333333333333p-1
                         0x1.ccccccccccccdp-1 0x1.8p-1)%float = Ok metrics_dict
       ∧ metrics_dict !! "accuracy" = Some 0x1.a666666666666p-1%float).
Proof.
  split_and!.
  - intros F HF nr_folds folds keys -> Hpos Hall.
    apply cv_metrics_mean; [| done]. intros ->. cbn in Hpos. lia.
  - destruct (cv_metrics_mean 4
                (accuracy_folds (4 # 5) (17 # 20) (9 # 10) (3 # 4))%Q
                {[ "accuracy" ]}) as (metrics_dict & Hrun & _ & Hval).
    { done. }
    { unfold accuracy_folds. repeat constructor; apply dom_singleton_L. }
    destruct (Hval "accuracy") as [_ Hacc]; [set_solver |].
    eexists _, _. split_and!; [exact Hrun | exact Hacc |].
    vm_compute. reflexivity.
  - destruct (@cv_metrics_mean float binary64 4
                (accuracy_folds 0x1.999999999999ap-1 0x1.b333333333333p-1
                                0x1.ccccccccccccdp-1 0x1.8p-1)%float
                {[ "accuracy" ]}) as (metrics_dict & Hrun & _ & Hval).
    { done. }
    { unfold accuracy_folds. repeat constructor; apply dom_singleton_L. }
    destruct (Hval "accuracy") as [_ Hacc]; [set_solver |].
    exists metrics_dict. split; [exact Hrun |].
    rewrite Hacc. f_equal.
Qed.

Lemma train_test_model_cv_metrics_mean_witness :
  2%Z = Z.of_nat (length [ ({[ "accuracy" := 1%Q ]} : gmap string Q);
                           {[ "accuracy" := 0%Q ]} ])
  ∧ (0 < 2)%Z
  ∧ Forall (λ metrics_it : gmap string Q, dom metrics_it = {[ "accuracy" ]})
      [ {[ "accuracy" := 1%Q ]}; {[ "accuracy" := 0%Q ]} ]
  ∧ ∃ metrics_dict,
      train_test_model_cv_metrics 2
        [ {[ "accuracy" := 1%Q ]}; {[ "accuracy" := 0%Q ]} ] = Ok metrics_dict
      ∧ dom metrics_dict = {[ "accuracy" ]}.
Proof.
  assert (Forall (λ metrics_it : gmap string Q, dom metrics_it = {[ "accuracy" ]})
            [ {[ "accuracy" := 1%Q ]}; {[ "accuracy" := 0%Q ]} ]) as Hall
    by (repeat constructor; apply dom_singleton_L).
  split_and!; [reflexivity | reflexivity | exact Hall |].
  destruct (proj1 train_test_model_cv_metrics_mean Q Q_float 2%Z
              [ {[ "accuracy" := 1%Q ]}; {[ "accuracy" := 0%Q ]} ]
              {[ "accuracy" ]} eq_refl eq_refl Hall)
    as (metrics_dict & Hrun & Hdom & _).
  exists metrics_dict. split; [exact Hrun | exact Hdom].
Defined.

(** ** Sorting the pool *)

Section SortFacts.
Context `{PyFloat F}.
Implicit Types (x y : F * Z) (l pool : list (F * Z)).

Lemma insert_desc_perm x l : insert_desc x l ≡ₚ x :: l.
Proof.
  induction l as [| y l IH]; [done |]. cbn.
  destruct (f_ltb _ _); [| done]. rewrite IH. apply Permutation_swap.
Qed.

Lemma sorted_desc_perm pool : sorted_desc pool ≡ₚ pool.
Proof.
  induction pool as [| x pool IH]; [done |]. cbn.
  fold (sorted_desc pool). by rewrite insert_desc_perm, IH.
Qed.

Lemma sorted_desc_length pool : length (sorted_desc pool) = length pool.
Proof. by rewrite sorted_desc_perm. Qed.

Lemma sorted_desc_nil pool : sorted_desc pool = [] → pool = [].
Proof.
  intros Hnil. apply Permutation_nil_r. by rewrite <- Hnil, sorted_desc_perm.
Qed.
End SortFacts.

(** ** Floats that [<] orders *)

Section OrderFacts.
Context `{PyFloat F}.
Implicit Types (keys : list F).

Lemma orders_of_class `{!PyFloatOrder F} keys : orders keys.
Proof.
  intros a b c _ _ _. split_and!.
  - apply f_ltb_irrefl.
  - apply f_ltb_trans.
  - apply f_ltb_cotrans.
Qed.

Lemma ordersb_orders keys : ordersb keys = true → orders keys.
Proof.
  unfold ordersb. intros Hall a b c Ha Hb Hc.
  rewrite forallb_forall in Hall.
  specialize (Hall a (proj1 (list_elem_of_In _ _) Ha)).
  rewrite forallb_forall in Hall.
  specialize (Hall b (proj1 (list_elem_of_In _ _) Hb)).
  rewrite forallb_forall in Hall.
  specialize (Hall c (proj1 (list_elem_of_In _ _) Hc)).
  destruct (f_ltb a a), (f_ltb a b), (f_ltb b c), (f_ltb a c);
    cbn in Hall; try discriminate Hall; split_and!; auto; discriminate.
Qed.

Lemma orders_subseteq keys keys' : orders keys → keys' ⊆ keys → orders keys'.
Proof. intros Hord Hsub a b c Ha Hb Hc. apply Hord; by apply Hsub. Qed.

Lemma orders_irrefl keys (a : F) : orders keys → a ∈ keys → f_ltb a a = false.
Proof. intros Hord Ha. by destruct (Hord a a a Ha Ha Ha) as (? & _). Qed.

Lemma orders_trans keys (a b c : F) :
  orders keys → a ∈ keys → b ∈ keys → c ∈ keys →
  f_ltb a b = true → f_ltb b c = true → f_ltb a c = true.
Proof. intros Hord Ha Hb Hc. by destruct (Hord a b c Ha Hb Hc) as (_ & ? & _). Qed.

Lemma orders_cotrans keys (a b c : F) :
  orders keys → a ∈ keys → b ∈ keys → c ∈ keys →
  f_ltb a c = true → f_ltb a b = true ∨ f_ltb b c = true.
Proof. intros Hord Ha Hb Hc. by destruct (Hord a b c Ha Hb Hc) as (_ & _ & ?). Qed.

Lemma orders_asym keys (a b : F) :
  orders keys → a ∈ keys → b ∈ keys → f_ltb a b = true → f_ltb b a = false.
Proof.
  intros Hord Ha Hb Hab. destruct (f_ltb b a) eqn:Hba; [| done].
  by rewrite <- (orders_irrefl keys a Hord Ha),
    (orders_trans keys a b a Hord Ha Hb Ha Hab Hba).
Qed.
End OrderFacts.

(** ** The ranking of a pool whose keys [<] orders *)

Section OrderedSortFacts.
Context `{PyFloat F}.
Context (keys : list F) (Hord : orders keys).
Implicit Types (x y : F * Z) (l pool : list (F * Z)).

Lemma not_below_trans x y z :
  x.1 ∈ keys → y.1 ∈ keys → z.1 ∈ keys →
  not_below x y → not_below y z → not_below x z.
Proof.
  unfold not_below, itemgetter_0. intros Hx Hy Hz Hxy Hyz.
  destruct (f_ltb x.1 z.1) eqn:Hxz; [| done].
  destruct (orders_cotrans keys _ y.1 _ Hord Hx Hy Hz Hxz); congruence.
Qed.

Lemma tied_not_below (p : F) x y :
  p ∈ keys → x.1 ∈ keys → y.1 ∈ keys →
  f_tied (itemgetter_0 x) p → f_tied (itemgetter_0 y) p → not_below x y.
Proof.
  unfold f_tied, not_below, itemgetter_0.
  intros Hp Hx Hy [Hxp _]%andb_prop_elim [_ Hpy]%andb_prop_elim.
  apply negb_prop_elim in Hxp, Hpy.
  destruct (f_ltb x.1 y.1) eqn:Hxy; [| done].
  destruct (orders_cotrans keys _ p _ Hord Hx Hp Hy Hxy) as [Hlt | Hlt];
    rewrite Hlt in *; by cbn in *.
Qed.

Lemma insert_desc_descending x l :
  x.1 ∈ keys → l.*1 ⊆ keys → descending l → descending (insert_desc x l).
Proof.
  unfold descending. intros Hx Hl Hs. induction Hs as [| y l Hs IH Hy]; cbn.
  { repeat constructor. }
  assert (y.1 ∈ keys) as Hyk by (apply Hl; cbn; left).
  assert (l.*1 ⊆ keys) as Hlk by (intros k Hk; apply Hl; cbn; by right).
  unfold itemgetter_0 at 1 2.
  destruct (f_ltb x.1 y.1) eqn:Hxy.
  - constructor; [by apply IH |].
    rewrite insert_desc_perm. constructor; [| done].
    by apply (orders_asym keys).
  - constructor; [by constructor |]. constructor; [done |].
    apply Forall_forall. intros z Hz.
    apply (not_below_trans x y z); [done | done | | done |].
    + apply Hlk. by apply list_elem_of_fmap_2.
    + by eapply Forall_forall in Hy.
Qed.

Lemma sorted_desc_descending pool :
  pool.*1 ⊆ keys → descending (sorted_desc pool).
Proof.
  induction pool as [| x pool IH]; intros Hk; [constructor |].
  change (sorted_desc (x :: pool)) with (insert_desc x (sorted_desc pool)).
  apply insert_desc_descending.
  - apply Hk. cbn. left.
  - rewrite sorted_desc_perm. intros k Hin. apply Hk. cbn. by right.
  - apply IH. intros k Hin. apply Hk. cbn. by right.
Qed.

Lemma insert_desc_tied (p : F) x l :
  p ∈ keys → x.1 ∈ keys → l.*1 ⊆ keys →
  tied_with p (insert_desc x l) = tied_with p (x :: l).
Proof.
  unfold tied_with. intros Hp Hx. induction l as [| y l IH]; intros Hl; [done |].
  cbn.
  assert (y.1 ∈ keys) as Hyk by (apply Hl; cbn; left).
  assert (l.*1 ⊆ keys) as Hlk by (intros k Hk; apply Hl; cbn; by right).
  destruct (f_ltb (itemgetter_0 x) (itemgetter_0 y)) eqn:Hxy; [| done].
  rewrite filter_cons, (IH Hlk), !filter_cons.
  destruct (decide (f_tied (itemgetter_0 y) p)) as [Hy |]; [| done].
  destruct (decide (f_tied (itemgetter_0 x) p)) as [Hxt |]; [| done].
  pose proof (tied_not_below p x y Hp Hx Hyk Hxt Hy) as Hnb.
  unfold not_below in Hnb. congruence.
Qed.

(** Items with tied keys keep the order they have in the pool. *)
Lemma sorted_desc_stable (p : F) pool :
  p ∈ keys → pool.*1 ⊆ keys →
  tied_with p (sorted_desc pool) = tied_with p pool.
Proof.
  intros Hp. induction pool as [| x pool IH]; intros Hk; [done |].
  change (sorted_desc (x :: pool)) with (insert_desc x (sorted_desc pool)).
  assert (pool.*1 ⊆ keys) as Hpk by (intros k Hin; apply Hk; cbn; by right).
  rewrite insert_desc_tied; [| done | apply Hk; cbn; left |].
  - unfold tied_with in *. by rewrite !filter_cons, (IH Hpk).
  - by rewrite sorted_desc_perm.
Qed.

Lemma f_tied_refl (a : F) : a ∈ keys → f_tied a a.
Proof. intros Ha. unfold f_tied. by rewrite (orders_irrefl keys a Hord Ha). Qed.

(** A descending list is determined by its classes of tied items: there
    is one stable descending arrangement of a pool. *)
Lemma descending_unique l l' :
  l.*1 ⊆ keys → l'.*1 ⊆ keys →
  descending l → descending l' →
  (∀ p, p ∈ keys → tied_with p l = tied_with p l') → l = l'.
Proof.
  intros Hlk Hlk' Hl. revert l' Hlk'.
  induction Hl as [| x l Hl IH Hx]; intros l' Hlk' Hl' Hp.
  - destruct l' as [| y l']; [done |].
    assert (y.1 ∈ keys) as Hyk by (apply Hlk'; cbn; left).
    specialize (Hp (itemgetter_0 y) Hyk). unfold tied_with in Hp.
    rewrite filter_cons in Hp.
    destruct (decide _) as [| Hn]; [done |]. destruct Hn. by apply f_tied_refl.
  - assert (x.1 ∈ keys) as Hxk by (apply Hlk; cbn; left).
    assert (l.*1 ⊆ keys) as Hlk0 by (intros k Hk; apply Hlk; cbn; by right).
    destruct Hl' as [| y l' Hl' Hy].
    { specialize (Hp (itemgetter_0 x) Hxk). unfold tied_with in Hp.
      rewrite filter_cons in Hp.
      destruct (decide _) as [| Hn]; [done |]. destruct Hn. by apply f_tied_refl. }
    assert (y.1 ∈ keys) as Hyk by (apply Hlk'; cbn; left).
    assert (l'.*1 ⊆ keys) as Hlk0' by (intros k Hk; apply Hlk'; cbn; by right).
    assert (x ∈ y :: l') as Hxin.
    { pose proof (Hp (itemgetter_0 x) Hxk) as Hpx. unfold tied_with in Hpx.
      rewrite filter_cons in Hpx.
      destruct (decide (f_tied (itemgetter_0 x) (itemgetter_0 x))) as [| Hn];
        [| destruct Hn; by apply f_tied_refl].
      assert (x ∈ filter (λ x0, f_tied (itemgetter_0 x0) (itemgetter_0 x)) (y :: l'))
        as Hin by (rewrite <- Hpx; left).
      by apply list_elem_of_filter in Hin as [_ ?]. }
    assert (y ∈ x :: l) as Hyin.
    { pose proof (Hp (itemgetter_0 y) Hyk) as Hpy. unfold tied_with in Hpy.
      rewrite (filter_cons _ y) in Hpy.
      destruct (decide (f_tied (itemgetter_0 y) (itemgetter_0 y))) as [| Hn];
        [| destruct Hn; by apply f_tied_refl].
      assert (y ∈ filter (λ x0, f_tied (itemgetter_0 x0) (itemgetter_0 y)) (x :: l))
        as Hin by (rewrite Hpy; left).
      by apply list_elem_of_filter in Hin as [_ ?]. }
    assert (not_below x y) as Hxy.
    { apply elem_of_cons in Hyin as [-> | Hyin].
      - unfold not_below. by apply (orders_irrefl keys).
      - by eapply Forall_forall in Hx. }
    assert (not_below y x) as Hyx.
    { apply elem_of_cons in Hxin as [-> | Hxin].
      - unfold not_below. by apply (orders_irrefl keys).
      - by eapply Forall_forall in Hy. }
    assert (f_tied (itemgetter_0 y) (itemgetter_0 x)) as Htied.
    { unfold f_tied, not_below in *. by rewrite Hxy, Hyx. }
    assert (x = y) as ->.
    { pose proof (Hp (itemgetter_0 x) Hxk) as Hpx. unfold tied_with in Hpx.
      rewrite !filter_cons in Hpx.
      destruct (decide (f_tied (itemgetter_0 x) (itemgetter_0 x))) as [| Hn];
        [| destruct Hn; by apply f_tied_refl].
      destruct (decide (f_tied (itemgetter_0 y) (itemgetter_0 x))); [| done].
      congruence. }
    f_equal. apply IH; [done | done | done |]. intros p Hpk.
    specialize (Hp p Hpk).
    unfold tied_with in *. rewrite !filter_cons in Hp.
    destruct (decide _); congruence.
Qed.
End OrderedSortFacts.

(** ** Ranked average precision *)

Section RankingFacts.
Context `{PyFloat F} (lib : Library F).
Implicit Types (w : World F) (pool r : list (F * Z)) (ks : list Z).

Lemma slice_to_positive {A} (k : Z) (l : list A) :
  (0 < k)%Z → slice_to k l = take (Z.to_nat k) l.
Proof.
  intros Hk. unfold slice_to.
  destruct (0 <=? k)%Z eqn:Hle; [done |]. lia.
Qed.

Lemma slice_to_positive_length {A} (k : Z) (l : list A) :
  (0 < k)%Z → length (slice_to k l) = Z.to_nat k `min` length l.
Proof. intros Hk. by rewrite slice_to_positive, length_take. Qed.

Lemma unzip_pairs_Ok pool :
  pool ≠ [] → unzip_pairs pool = Ok (pool.*1, pool.*2).
Proof. by destruct pool. Qed.

(** The loop only prints. *)
Lemma average_precision_loop_frame (results : loc) ks (score : F) w :
  let w' := (average_precision_loop lib results ks score w).2 in
  arrays w' = arrays w ∧ pools w' = pools w ∧ files w' = files w.
Proof.
  revert score w. induction ks as [| k ks IH]; intros score w; [done |].
  cbn [average_precision_loop]. unfold mbind, M_bind, read_pool, liftR.
  destruct (pools w !! results) as [r |]; [| done].
  destruct (unzip_pairs (slice_to k r)) as [[y_score y_true] |]; [| done].
  destruct (average_precision_score lib y_true y_score) as [ap |]; [| done].
  unfold print. cbn.
  match goal with |- context [average_precision_loop lib results ks ?s ?w1] =>
    destruct (IH s w1) as (Ha & Hp & Hf) end.
  by rewrite Ha, Hp, Hf.
Qed.

(** A run of the loop in which every slice has a pair and every call of
    the library returns. *)
Lemma average_precision_loop_run (results : loc) r ks (ap : Z → F)
    (score : F) w :
  pools w !! results = Some r →
  Forall (λ k, slice_to k r ≠ [] ∧ average_precision_at lib r k = Ok (ap k)) ks →
  average_precision_loop lib results ks score w
  = (Ok (foldl f_add score (ap <$> ks)),
     mk_World (arrays w) (pools w)
       (stdout w ++ ((λ k, AveragePrecisionAt k (ap k)) <$> ks)) (files w)).
Proof.
  intros Hr Hks. revert score w Hr.
  induction Hks as [| k ks [Hne Hap] _ IH]; intros score w Hr.
  { cbn. rewrite app_nil_r. by destruct w. }
  cbn [average_precision_loop]. unfold mbind, M_bind, read_pool, liftR.
  rewrite Hr, (unzip_pairs_Ok _ Hne).
  unfold average_precision_at in Hap. rewrite Hap.
  unfold print at 1. rewrite IH by done. cbn.
  by rewrite <- app_assoc.
Qed.

Lemma sorted_desc_nonempty pool : pool ≠ [] → sorted_desc pool ≠ [].
Proof. intros Hne Hnil. by apply Hne, sorted_desc_nil. Qed.

Lemma slice_to_nonempty {A} (k : Z) (l : list A) :
  (0 < k)%Z → l ≠ [] → slice_to k l ≠ [].
Proof.
  intros Hk Hl Hnil. apply (f_equal length) in Hnil.
  rewrite slice_to_positive_length in Hnil by done.
  destruct l; [done |]. cbn in Hnil. lia.
Qed.

(** A run on a pool that has a pair, with cut-offs above [0], when every
    call of the library returns. *)
Lemma calculate_average_precision_ks_run (lst : loc) pool ks (ap : Z → F) w :
  pools w !! lst = Some pool →
  pool ≠ [] →
  ks ≠ [] →
  Forall (λ k, (0 < k)%Z) ks →
  Forall (λ k, average_precision_at lib (sorted_desc pool) k = Ok (ap k)) ks →
  ∃ results,
    pools w !! results = None
    ∧ calculate_average_precision_ks lib lst true ks w
      = (Ok (),
         mk_World (arrays w) (<[results := sorted_desc pool]> (pools w))
           (stdout w ++ ((λ k, AveragePrecisionAt k (ap k)) <$> ks)
              ++ [AveragePrecisionMean ks
                    (f_div (foldl f_add (f_of_Z 0) (ap <$> ks))
                           (f_of_Z (Z.of_nat (length ks))))])
           (files w)).
Proof.
  intros Hlst Hne Hks Hpos Hap.
  unfold calculate_average_precision_ks, mbind, M_bind, read_pool.
  rewrite Hlst.
  destruct (new_pool_spec (sorted_desc pool) w) as (results & -> & Hfresh).
  exists results. split; [done |].
  rewrite (average_precision_loop_run results (sorted_desc pool) ks ap).
  - destruct (decide (ks = [])); [done |]. unfold print. cbn.
    by rewrite <- app_assoc.
  - cbn. apply lookup_insert_eq.
  - apply Forall_forall. intros k Hk. split.
    + apply slice_to_nonempty; [| by apply sorted_desc_nonempty].
      by eapply Forall_forall in Hpos.
    + by eapply Forall_forall in Hap.
Qed.

(** A run on the empty pool stops at the first unpacking. *)
Lemma calculate_average_precision_ks_empty (lst : loc) (k : Z) ks w :
  pools w !! lst = Some [] →
  ∃ results,
    calculate_average_precision_ks lib lst true (k :: ks) w
    = (Raise ValueError,
       mk_World (arrays w) (<[results := []]> (pools w)) (stdout w) (files w)).
Proof.
  intros Hlst.
  unfold calculate_average_precision_ks, mbind, M_bind, read_pool.
  rewrite Hlst.
  destruct (new_pool_spec (sorted_desc []) w) as (results & -> & Hfresh).
  exists results. cbn [average_precision_loop].
  unfold mbind, M_bind, read_pool. cbn [pools sorted_desc foldr].
  rewrite lookup_insert_eq.
  assert (slice_to k (@nil (F * Z)) = []) as ->.
  { unfold slice_to. destruct (0 <=? k)%Z; by rewrite take_nil. }
  done.
Qed.

(** No list that exists before the call is changed by it. *)
Lemma calculate_average_precision_ks_frame (lst : loc) (is_binary : bool)
    ks w (l : loc) pool :
  pools w !! l = Some pool →
  pools (calculate_average_precision_ks lib lst is_binary ks w).2 !! l
  = Some pool.
Proof.
  intros Hl. unfold calculate_average_precision_ks.
  destruct is_binary; [| done].
  unfold mbind, M_bind, read_pool.
  destruct (pools w !! lst) as [p |]; [| done].
  destruct (new_pool_spec (sorted_desc p) w) as (results & -> & Hfresh).
  match goal with |- context [average_precision_loop lib results ks ?s ?w1] =>
    pose proof (average_precision_loop_frame results ks s w1) as (_ & Hp & _);
    destruct (average_precision_loop lib results ks s w1) as [[score |] w2]
  end; cbn [snd] in *.
  - destruct (decide (ks = [])); cbn; rewrite Hp; cbn;
      by apply insert_fresh_lookup.
  - rewrite Hp. cbn. by apply insert_fresh_lookup.
Qed.
End RankingFacts.

Section RankingTheorems.
Context `{PyFloat F} (lib : Library F).
Implicit Types (w : World F) (pool : list (F * Z)).

Lemma default_ks_positive : Forall (λ k, (0 < k)%Z) default_ks.
Proof. unfold default_ks. repeat constructor. Qed.

(** C3: in binary mode, a pool whose probabilities [<] orders is ranked
    by descending probability, tied pairs keeping their order (and only
    one arrangement of the pool is such a ranking); for each cut-off of
    [50, 100, 250, 480] the library is asked the average precision of the
    first [k] pairs of the ranking, the four values are printed and then
    their sum divided by four.  In multi-class mode the call does
    nothing. *)
Theorem calculate_average_precision_ks_ranking
    (lst : loc) pool (ap : Z → F) w :
  pools w !! lst = Some pool →
  pool ≠ [] →
  orders pool.*1 →
  let results := sorted_desc pool in
  (∀ k, k ∈ default_ks →
     average_precision_score lib (take (Z.to_nat k) results).*2
                                 (take (Z.to_nat k) results).*1 = Ok (ap k)) →
  (results ≡ₚ pool
   ∧ descending results
   ∧ (∀ p, p ∈ pool.*1 → tied_with p results = tied_with p pool)
   ∧ (∀ r, r.*1 ⊆ pool.*1 → descending r →
           (∀ p, p ∈ pool.*1 → tied_with p r = tied_with p pool) →
           r = results))
  ∧ (∃ w',
       calculate_average_precision_ks lib lst true default_ks w = (Ok (), w')
       ∧ stdout w'
         = stdout w
           ++ [AveragePrecisionAt 50 (ap 50%Z);
               AveragePrecisionAt 100 (ap 100%Z);
               AveragePrecisionAt 250 (ap 250%Z);
               AveragePrecisionAt 480 (ap 480%Z);
               AveragePrecisionMean default_ks
                 (f_div (f_add (f_add (f_add (f_add (f_of_Z 0) (ap 50%Z))
                                             (ap 100%Z)) (ap 250%Z)) (ap 480%Z))
                        (f_of_Z 4))])
  ∧ (∀ (lst' : loc) (ks : list Z) (w0 : World F),
       calculate_average_precision_ks lib lst' false ks w0 = (Ok (), w0)).
Proof.
  intros Hlst Hne Hord results Hap. split_and!.
  - apply sorted_desc_perm.
  - by apply (sorted_desc_descending pool.*1).
  - intros p Hp. by apply (sorted_desc_stable pool.*1).
  - intros r Hkeys Hr Hp.
    apply (descending_unique pool.*1 Hord); [done | | done | |].
    + unfold results. by rewrite sorted_desc_perm.
    + by apply (sorted_desc_descending pool.*1).
    + intros p Hpk. unfold results.
      by rewrite (Hp p Hpk), (sorted_desc_stable pool.*1).
  - destruct (calculate_average_precision_ks_run lib lst pool default_ks ap w)
      as (l & _ & ->); [done | done | done | apply default_ks_positive | |].
    + apply Forall_forall. intros k Hk.
      unfold average_precision_at. rewrite slice_to_positive.
      * by apply Hap.
      * by eapply Forall_forall in Hk; [| apply default_ks_positive].
    + eexists. split; [reflexivity |]. done.
  - done.
Qed.

(** C4, as the code has it: a slice holds the first [k] pairs or the
    whole ranking when that is shorter, so the unpacking succeeds for
    every pool that has a pair, and the call completes when the library
    returns; the unpacking fails for the empty pool alone, at the first
    cut-off and before anything is printed. *)
Theorem calculate_average_precision_ks_short_pool (lst : loc) pool w :
  pools w !! lst = Some pool →
  (pool ≠ [] →
     (∀ k, (0 < k)%Z →
        ∃ y_score y_true,
          unzip_pairs (slice_to k (sorted_desc pool)) = Ok (y_score, y_true)
          ∧ length y_score = Z.to_nat k `min` length pool
          ∧ length y_true = Z.to_nat k `min` length pool)
     ∧ ((∀ k, k ∈ default_ks →
           is_Ok (average_precision_at lib (sorted_desc pool) k) = true) →
        (calculate_average_precision_ks lib lst true default_ks w).1 = Ok ()))
  ∧ (pool = [] →
       (calculate_average_precision_ks lib lst true default_ks w).1
         = Raise ValueError
       ∧ stdout (calculate_average_precision_ks lib lst true default_ks w).2
         = stdout w).
Proof.
  intros Hlst. split.
  - intros Hne. split.
    + intros k Hk. eexists _, _. split.
      * apply unzip_pairs_Ok, slice_to_nonempty; [done |].
        by apply sorted_desc_nonempty.
      * by rewrite !length_fmap, slice_to_positive_length, sorted_desc_length.
    + intros Hap.
      destruct (calculate_average_precision_ks_run lib lst pool default_ks
                  (λ k, match average_precision_at lib (sorted_desc pool) k with
                        | Ok v => v
                        | Raise _ => f_of_Z 0
                        end) w)
        as (l & _ & ->); [done | done | done | apply default_ks_positive | | done].
      apply Forall_forall. intros k Hk. specialize (Hap k Hk).
      by destruct (average_precision_at lib (sorted_desc pool) k).
  - intros ->.
    destruct (calculate_average_precision_ks_empty lib lst 50%Z [100; 250; 480]%Z w)
      as (l & Hrun); [done |].
    unfold default_ks. by rewrite Hrun.
Qed.

(** C9: the list passed to [calculate_average_precision_ks] holds the
    same pairs in the same order after the call, in either mode and
    however the call ends: the ranking is a new list. *)
Theorem calculate_average_precision_ks_keeps_pool (lst : loc) pool
    (is_binary : bool) (ks : list Z) w :
  pools w !! lst = Some pool →
  pools (calculate_average_precision_ks lib lst is_binary ks w).2 !! lst
  = Some pool.
Proof. apply calculate_average_precision_ks_frame. Qed.
End RankingTheorems.

(** The pool of 500 pairs has its keys among seven floats that [<]
    orders. *)
Lemma large_pool_keys : large_pool.*1 ⊆ example_scores.
Proof.
  intros k Hk. unfold large_pool in Hk. rewrite <- list_fmap_compose in Hk.
  apply list_elem_of_fmap in Hk as (i & -> & _). unfold compose. cbn [fst].
  assert (i mod 7 < 7) as Hlt by (apply Nat.mod_upper_bound; lia).
  apply (lookup_lt_is_Some_2 example_scores) in Hlt as [key Hkey].
  rewrite Hkey. cbn [default].
  by eapply list_elem_of_lookup_2.
Qed.

Lemma large_pool_orders : @orders float binary64 large_pool.*1.
Proof.
  apply (@orders_subseteq float binary64 example_scores); [| apply large_pool_keys].
  apply (@ordersb_orders float binary64). vm_compute. reflexivity.
Qed.

Lemma calculate_average_precision_ks_ranking_witness :
  pools large_world !! 0 = Some large_pool
  ∧ large_pool ≠ []
  ∧ @orders float binary64 large_pool.*1
  ∧ length large_pool = 500
  ∧ (take 50 (@sorted_desc float binary64 large_pool)).*1 = replicate 50 0.75%float
  ∧ (take 4 (@sorted_desc float binary64 large_pool)).*2 = [0; 1; 0; 1]%Z
  ∧ ∃ w',
      @calculate_average_precision_ks float binary64 counting_library 0 true
        default_ks large_world = (Ok (), w')
      ∧ stdout w'
        = [AveragePrecisionAt 50 50%float; AveragePrecisionAt 100 100%float;
           AveragePrecisionAt 250 250%float; AveragePrecisionAt 480 480%float;
           AveragePrecisionMean default_ks 220%float].
Proof.
  assert (pools large_world !! 0 = Some large_pool) as Hlst by reflexivity.
  assert (large_pool ≠ []) as Hne by discriminate.
  split_and!; [exact Hlst | exact Hne | exact large_pool_orders
              | reflexivity | vm_compute; reflexivity | vm_compute; reflexivity |].
  destruct (@calculate_average_precision_ks_ranking float binary64
              counting_library 0 large_pool float_of_Z large_world Hlst Hne
              large_pool_orders)
    as (_ & (w' & Hrun & Hout) & _).
  { intros k Hk. unfold default_ks in Hk.
    repeat (apply elem_of_cons in Hk as [-> | Hk]; [vm_compute; reflexivity |]).
    by apply elem_of_nil in Hk. }
  exists w'. split; [exact Hrun |]. rewrite Hout. vm_compute. reflexivity.
Defined.

Lemma calculate_average_precision_ks_short_pool_witness :
  pools example_world !! 0 = Some example_pool
  ∧ (calculate_average_precision_ks stub_library 0 true default_ks
       example_world).1 = Ok ().
Proof.
  assert (pools example_world !! 0 = Some example_pool) as Hlst by reflexivity.
  split; [exact Hlst |].
  destruct (calculate_average_precision_ks_short_pool stub_library 0
              example_pool example_world Hlst) as [Hfull _].
  destruct (Hfull ltac:(discriminate)) as [_ Hcompletes].
  apply Hcompletes. intros k _. reflexivity.
Defined.

(** A pool of four pairs, fewer than the largest cut-off, on which the
    call completes: C4 as the specification has it does not hold. *)
Lemma short_pool_completes :
  example_pool ≠ []
  ∧ length example_pool < 480
  ∧ pools example_world !! 0 = Some example_pool
  ∧ (calculate_average_precision_ks stub_library 0 true default_ks
       example_world).1 = Ok ()
  ∧ unzip_pairs (slice_to 480 (sorted_desc example_pool))
    = Ok ([(9 # 10)%Q; (9 # 10)%Q; (1 # 2)%Q; (1 # 2)%Q], [0%Z; 1%Z; 1%Z; 0%Z]).
Proof.
  split_and!; [discriminate | cbn; lia | reflexivity | | reflexivity].
  vm_compute. reflexivity.
Qed.

Lemma calculate_average_precision_ks_keeps_pool_witness :
  pools example_world !! 0 = Some example_pool
  ∧ pools (calculate_average_precision_ks stub_library 0 true default_ks
             example_world).2 !! 0 = Some example_pool.
Proof.
  assert (pools example_world !! 0 = Some example_pool) as Hlst by reflexivity.
  split; [exact Hlst |].
  exact (calculate_average_precision_ks_keeps_pool stub_library 0 example_pool
           true default_ks example_world Hlst).
Defined.

(** ** The fused generator *)

Section FusedGeneratorFacts.
Context {St X Y : Type}.
Context (flow_reset : St → St) (flow_next : St → result (X * Y) * St).
Implicit Types (flows : gmap loc St) (x : loc) (s : St).

Lemma flow_pulls_length n s bs s' :
  flow_pulls flow_next n s = (Ok bs, s') → length bs = n.
Proof.
  revert s bs. induction n as [| n IH]; intros s bs; cbn.
  { by intros [= <- <-]. }
  destruct (flow_next s) as [[b |] t]; [| done].
  destruct (flow_pulls flow_next n t) as [[bs' |] t'] eqn:Hn; [| done].
  intros [= <- <-]. cbn. f_equal. by eapply IH.
Qed.

Lemma flow_pulls_succ n s bs s' :
  flow_pulls flow_next (S n) s = (Ok bs, s') →
  ∃ b t bs', flow_next s = (Ok b, t)
             ∧ flow_pulls flow_next n t = (Ok bs', s')
             ∧ bs = b :: bs'.
Proof.
  cbn. destruct (flow_next s) as [[b |] t]; [| done].
  destruct (flow_pulls flow_next n t) as [[bs' |] t'] eqn:Hn; [| done].
  intros [= <- <-]. by exists b, t, bs'.
Qed.

Lemma call_next_Ok x flows s b t :
  flows !! x = Some s → flow_next s = (Ok b, t) →
  call_next flow_next x flows = (Ok b, <[x := t]> flows).
Proof. intros Hx Hn. unfold call_next. by rewrite Hx, Hn. Qed.

(** The pulls of a generator suspended at its [yield], on two distinct
    flows that go on handing out batches. *)
Lemma suspended_pulls n x1 x2 : ∀ flows s1 s2 b1 b2 s1' s2',
  x1 ≠ x2 →
  flows !! x1 = Some s1 →
  flows !! x2 = Some s2 →
  flow_pulls flow_next n s1 = (Ok b1, s1') →
  flow_pulls flow_next n s2 = (Ok b2, s2') →
  ∃ flows',
    generator_pulls flow_reset flow_next n (mk_Generator Suspended x1 x2) flows
    = (Ok (zip_with fused b1 b2), mk_Generator Suspended x1 x2, flows')
    ∧ flows' !! x1 = Some s1'
    ∧ flows' !! x2 = Some s2'.
Proof.
  induction n as [| n IH]; intros flows s1 s2 b1 b2 s1' s2' Hne H1 H2 Hp1 Hp2.
  { cbn in *. injection Hp1 as <- <-. injection Hp2 as <- <-.
    by exists flows. }
  apply flow_pulls_succ in Hp1 as (x1i & t1 & bs1 & Hn1 & Hp1 & ->).
  apply flow_pulls_succ in Hp2 as (x2i & t2 & bs2 & Hn2 & Hp2 & ->).
  destruct (IH (<[x2 := t2]> (<[x1 := t1]> flows)) t1 t2 bs1 bs2 s1' s2')
    as (flows' & Hrun & Hf1 & Hf2); [done | | | done | done |].
  { rewrite lookup_insert_ne by done. apply lookup_insert_eq. }
  { apply lookup_insert_eq. }
  exists flows'. split; [| done].
  cbn [generator_pulls]. unfold generator_next, loop_turn. cbn.
  rewrite (call_next_Ok x1 flows s1 x1i t1) by done.
  rewrite (call_next_Ok x2 (<[x1 := t1]> flows) s2 x2i t2);
    [| by rewrite lookup_insert_ne | done].
  unfold suspended. cbn. by rewrite Hrun.
Qed.

(** C5: the generator made of two distinct flows runs nothing until it
    is pulled; its first pull resets both flows, and its [N] first pulls
    pair, in order, the image batches that the two reset flows hand out
    with the label batches of the first flow.  The labels it yields are
    those of the first flow, and so differ from those of the second
    whenever the two differ; it is left suspended, ready for the next
    pull. *)
Theorem merge_generators_yields_first_labels (N : nat) x1 x2 flows
    s1 s2 b1 b2 s1' s2' :
  x1 ≠ x2 →
  flows !! x1 = Some s1 →
  flows !! x2 = Some s2 →
  flow_pulls flow_next N (flow_reset s1) = (Ok b1, s1') →
  flow_pulls flow_next N (flow_reset s2) = (Ok b2, s2') →
  ∃ items g' flows',
    generator_pulls flow_reset flow_next N (merge_generators x1 x2) flows
    = (Ok items, g', flows')
    ∧ items = zip_with fused b1 b2
    ∧ length items = N
    ∧ items.*2 = b1.*2
    ∧ (b1.*2 ≠ b2.*2 → items.*2 ≠ b2.*2)
    ∧ (N = 0 → g' = merge_generators x1 x2 ∧ flows' = flows)
    ∧ (0 < N → gen_state g' = Suspended
               ∧ flows' !! x1 = Some s1' ∧ flows' !! x2 = Some s2').
Proof.
  intros Hne H1 H2 Hp1 Hp2.
  pose proof (flow_pulls_length _ _ _ _ Hp1) as Hl1.
  pose proof (flow_pulls_length _ _ _ _ Hp2) as Hl2.
  assert ((zip_with fused b1 b2).*2 = b1.*2) as Hlabels.
  { clear -Hl1 Hl2. revert b2 N Hl1 Hl2.
    induction b1 as [| x b1 IH]; intros [| y b2] N Hl1 Hl2; cbn in *;
      [done | done | lia |].
    f_equal. destruct N; [done |]. apply (IH b2 N); lia. }
  destruct N as [| N].
  { cbn in *. injection Hp1 as <- <-. injection Hp2 as <- <-.
    exists [], (merge_generators x1 x2), flows. split_and!; try done. lia. }
  apply flow_pulls_succ in Hp1 as (x1i & t1 & bs1 & Hn1 & Hp1 & ->).
  apply flow_pulls_succ in Hp2 as (x2i & t2 & bs2 & Hn2 & Hp2 & ->).
  set (flows0 := <[x2 := flow_reset s2]> (<[x1 := flow_reset s1]> flows)).
  assert (flows0 !! x1 = Some (flow_reset s1)) as H01.
  { unfold flows0. rewrite lookup_insert_ne by done. apply lookup_insert_eq. }
  assert (flows0 !! x2 = Some (flow_reset s2)) as H02.
  { apply lookup_insert_eq. }
  destruct (suspended_pulls N x1 x2
              (<[x2 := t2]> (<[x1 := t1]> flows0)) t1 t2 bs1 bs2 s1' s2')
    as (flows' & Hrun & Hf1 & Hf2); [done | | | done | done |].
  { rewrite lookup_insert_ne by done. apply lookup_insert_eq. }
  { apply lookup_insert_eq. }
  exists (zip_with fused (x1i :: bs1) (x2i :: bs2)),
    (mk_Generator Suspended x1 x2), flows'.
  split_and!; try done.
  - cbn [generator_pulls]. unfold generator_next, merge_generators. cbn.
    unfold call_reset. rewrite H1. rewrite lookup_insert_ne by done.
    rewrite H2. fold flows0. unfold loop_turn. cbn.
    rewrite (call_next_Ok x1 flows0 (flow_reset s1) x1i t1) by done.
    rewrite (call_next_Ok x2 (<[x1 := t1]> flows0) (flow_reset s2) x2i t2);
      [| by rewrite lookup_insert_ne | done].
    unfold suspended. cbn. by rewrite Hrun.
  - rewrite length_zip_with. cbn in *. lia.
  - intros Hdiff. by rewrite Hlabels.
Qed.
End FusedGeneratorFacts.

(** Two names of one flow: the pulls of the generator then share its
    batches, and the labels are no longer those the flow hands out in a
    row. *)
Example merge_generators_aliased_example :
  (generator_pulls example_reset example_next 3 (merge_generators 0 0)
     example_flows).1.1
  = Ok [ (["image 0"; "image 1"], 0%Z);
         (["image 2"; "image 3"], 2%Z);
         (["image 4"; "image 5"], 4%Z) ].
Proof. reflexivity. Qed.

Lemma merge_generators_yields_first_labels_witness :
  0 ≠ 1
  ∧ example_flows !! 0 = Some (0%Z, 5)
  ∧ example_flows !! 1 = Some (10%Z, 7)
  ∧ ∃ items g' flows',
      generator_pulls example_reset example_next 3 (merge_generators 0 1)
        example_flows = (Ok items, g', flows')
      ∧ items.*2 = [0%Z; 1%Z; 2%Z]
      ∧ items.*2 ≠ [10%Z; 11%Z; 12%Z].
Proof.
  assert (example_flows !! 0 = Some (0%Z, 5)) as H0 by reflexivity.
  assert (example_flows !! 1 = Some (10%Z, 7)) as H1 by reflexivity.
  split_and!; [lia | exact H0 | exact H1 |].
  destruct (merge_generators_yields_first_labels example_reset example_next
              3 0 1 example_flows (0%Z, 5) (10%Z, 7)
              [("image 0", 0%Z); ("image 1", 1%Z); ("image 2", 2%Z)]
              [("image 10", 10%Z); ("image 11", 11%Z); ("image 12", 12%Z)]
              (0%Z, 3) (10%Z, 3))
    as (items & g' & flows' & Hrun & _ & _ & Hlabels & Hnever & _);
    [lia | exact H0 | exact H1 | reflexivity | reflexivity |].
  exists items, g', flows'. split_and!; [exact Hrun | exact Hlabels |].
  apply Hnever. discriminate.
Defined.

(** ** More on the probability interpretation *)

Section AssocFacts.
Context {K V : Type} `{EqDecision K}.

Lemma assoc_get_set (d : list (K * V)) (k k' : K) (v : V) :
  assoc_get (assoc_set d k v) k'
  = if decide (k = k') then Some v else assoc_get d k'.
Proof.
  induction d as [| [k0 v0] d IH]; cbn.
  - by destruct (decide (k = k')).
  - destruct (decide (k0 = k)) as [-> |]; cbn.
    + by destruct (decide (k = k')).
    + destruct (decide (k0 = k')) as [-> |]; [| done].
      by destruct (decide (k = k')).
Qed.
End AssocFacts.

Section InvertFacts.
Context {K V : Type} `{EqDecision V}.
Implicit Types (d : list (K * V)) (acc : list (V * K)).

Lemma invert_foldl_other d acc (v : V) :
  v ∉ d.*2 →
  assoc_get (foldl (λ acc kv, assoc_set acc kv.2 kv.1) acc d) v = assoc_get acc v.
Proof.
  revert acc. induction d as [| [k0 v0] d IH]; intros acc Hv; [done |].
  cbn in *. rewrite IH by set_solver. rewrite assoc_get_set.
  destruct (decide (v0 = v)); [set_solver | done].
Qed.

Lemma invert_foldl_sound d acc (v : V) (k : K) :
  assoc_get (foldl (λ acc kv, assoc_set acc kv.2 kv.1) acc d) v = Some k →
  (k, v) ∈ d ∨ assoc_get acc v = Some k.
Proof.
  revert acc. induction d as [| [k0 v0] d IH]; intros acc Hget; [by right |].
  cbn in Hget. apply IH in Hget as [Hin | Hget]; [left; by right |].
  rewrite assoc_get_set in Hget.
  destruct (decide (v0 = v)) as [-> |]; [| by right].
  injection Hget as ->. left. by left.
Qed.

Lemma invert_foldl_complete d acc (v : V) (k : K) :
  NoDup d.*2 → (k, v) ∈ d →
  assoc_get (foldl (λ acc kv, assoc_set acc kv.2 kv.1) acc d) v = Some k.
Proof.
  revert acc. induction d as [| [k0 v0] d IH]; intros acc Hnd Hin.
  { by apply elem_of_nil in Hin. }
  cbn in *. apply NoDup_cons in Hnd as [Hv0 Hnd].
  apply elem_of_cons in Hin as [[= -> ->] | Hin].
  - rewrite invert_foldl_other by done. rewrite assoc_get_set.
    by destruct (decide (v0 = v0)).
  - by apply IH.
Qed.

(** X1: a table without two labels on one index is inverted faithfully:
    the inverted table maps an index to a label exactly when the table
    maps that label to the index. *)
Theorem dict_invert_lookup d (v : V) (k : K) :
  NoDup d.*2 →
  assoc_get (dict_invert d) v = Some k ↔ (k, v) ∈ d.
Proof.
  intros Hnd. unfold dict_invert. split.
  - intros Hget. by apply invert_foldl_sound in Hget as [Hin | Hget].
  - by apply invert_foldl_complete.
Qed.
End InvertFacts.

Lemma dict_invert_lookup_witness :
  NoDup (class_indices three_class_flow).*2
  ∧ (assoc_get (dict_invert (class_indices three_class_flow)) 1%Z = Some "5"
     ↔ ("5", 1%Z) ∈ class_indices three_class_flow).
Proof.
  assert (NoDup (class_indices three_class_flow).*2) as Hnd.
  { cbn. repeat (constructor; [set_solver |]). constructor. }
  split; [exact Hnd |].
  exact (dict_invert_lookup (class_indices three_class_flow) 1%Z "5" Hnd).
Defined.

Section MapRFacts.
Context {A B : Type}.

Lemma mapR_Ok_Forall2 (f : A → result B) (l : list A) (l' : list B) :
  mapR f l = Ok l' → Forall2 (λ x y, f x = Ok y) l l'.
Proof.
  revert l'. induction l as [| x l IH]; intros l'; cbn.
  { intros [= <-]. constructor. }
  destruct (f x) as [y |] eqn:Hx; [| done]. cbn.
  destruct (mapR f l) as [ys |]; [| done]. cbn.
  intros [= <-]. constructor; [done |]. by apply IH.
Qed.

End MapRFacts.

Section MorePredictionFacts.
Context `{PyFloat F} (lib : Library F).
Implicit Types (w : World F) (a : ndarray F) (y : loc).

(** X2: in binary mode a training flow whose table has no label ["0"]
    makes [calculate_prediction] raise [KeyError]; no array is read or
    made. *)
Theorem calculate_prediction_binary_missing_label y trn tst w :
  assoc_get (class_indices trn) "0" = None →
  calculate_prediction lib y trn tst true w = (Raise KeyError, w).
Proof.
  intros Hget.
  pose proof (calculate_prediction_binary_spec lib y trn tst w) as Hspec.
  assert (misaligned trn = Raise KeyError) as Hm.
  { unfold misaligned, assoc_getitem. by rewrite Hget. }
  by rewrite Hm in Hspec.
Qed.

(** X3: with a flow of the generator library the probabilities are never
    complemented: whenever [calculate_prediction] returns in binary mode,
    label ["0"] has index [0], the returned array is the flattened input
    and the predictions are its entries compared with [0.5]. *)
Theorem calculate_prediction_keras_never_complements y ci cls names tst w
    (p : loc) (y_pred : Predictions) (y_test : list Z) w' :
  calculate_prediction lib y (keras_flow ci cls names) tst true w
  = (Ok (p, y_pred, y_test), w') →
  assoc_get ci "0" = Some 0%Z
  ∧ ∃ a, arrays w !! y = Some a
         ∧ arrays w' !! p = Some (flatten a)
         ∧ y_pred = PredArray (np_where (λ q, f_gtb q f_half) (flatten a)).
Proof.
  intros Hrun.
  pose proof (calculate_prediction_binary_spec lib y (keras_flow ci cls names) tst w)
    as Hspec.
  assert (misaligned (keras_flow ci cls names)
          = match assoc_get ci "0" with
            | None => Raise KeyError
            | Some i0 => if (i0 =? 0)%Z then Ok false else Raise TypeError
            end) as Hm.
  { unfold misaligned, assoc_getitem. cbn.
    destruct (assoc_get ci "0") as [i0 |]; [| done]. cbn.
    by destruct (i0 =? 0)%Z. }
  rewrite Hm in Hspec.
  destruct (assoc_get ci "0") as [i0 |]; [| congruence].
  destruct (i0 =? 0)%Z eqn:Hi0; [| congruence].
  apply Z.eqb_eq in Hi0 as ->. split; [done |].
  destruct (arrays w !! y) as [a |]; [| congruence].
  destruct Hspec as (l & Hl & _). rewrite Hl in Hrun.
  injection Hrun as <- <- <- <-.
  exists a. split_and!; [done | | done]. cbn. apply lookup_insert_eq.
Qed.

(** X4: in multi-class mode [calculate_prediction] only reads: when it
    returns, the store is the one it was called in, the probability array
    it returns is the very array it was given, and every prediction is the
    integer of a label of the training flow's table. *)
Theorem calculate_prediction_multiclass_labels y trn tst w
    (p : loc) (y_pred : Predictions) (y_test : list Z) w' :
  calculate_prediction lib y trn tst false w = (Ok (p, y_pred, y_test), w') →
  w' = w ∧ p = y ∧ y_test = classes tst
  ∧ ∃ l, y_pred = PredList l
         ∧ Forall (λ z, ∃ label index,
                      (label, index) ∈ class_indices trn
                      ∧ py_int lib label = Ok z) l.
Proof.
  unfold calculate_prediction, mbind, M_bind, liftR, read_array.
  destruct (arrays w !! y) as [a |]; [| done].
  destruct (np_argmax_axis1 a) as [[ks | n] |]; [| | done].
  - destruct (mapR _ ks) as [l |] eqn:Hmap; [| done].
    intros [= <- <- <- <-]. split_and!; try done.
    exists l. split; [done |].
    apply mapR_Ok_Forall2 in Hmap.
    induction Hmap as [| k z ks l Hk _ IH]; constructor; [| done].
    unfold mbind, result_bind, bindR, assoc_getitem in Hk.
    destruct (assoc_get _ (Z.of_nat k)) as [label |] eqn:Hget; [| done].
    exists label, (Z.of_nat k). split; [| done].
    unfold dict_invert in Hget.
    by apply invert_foldl_sound in Hget as [Hin | Hget].
  - destruct (decide (n = 0)); [| done].
    intros [= <- <- <- <-]. split_and!; try done.
    exists []. by split.
Qed.
End MorePredictionFacts.

Lemma calculate_prediction_binary_missing_label_witness :
  assoc_get (class_indices cat_dog_flow) "0" = None
  ∧ calculate_prediction stub_library 0 cat_dog_flow cat_dog_flow true
      example_world
    = (Raise KeyError, example_world).
Proof.
  split; [reflexivity |].
  exact (calculate_prediction_binary_missing_label stub_library 0 cat_dog_flow
           cat_dog_flow example_world eq_refl).
Defined.

Lemma calculate_prediction_keras_never_complements_witness :
  ∃ p y_pred y_test w',
    calculate_prediction stub_library 0 aligned_flow aligned_flow true
      example_world = (Ok (p, y_pred, y_test), w')
    ∧ arrays w' !! p = Some (flatten example_probabilities).
Proof.
  destruct (calculate_prediction stub_library 0 aligned_flow aligned_flow true
              example_world) as [[[[p y_pred] y_test] |] w'] eqn:Hrun;
    [| by vm_compute in Hrun].
  exists p, y_pred, y_test, w'. split; [reflexivity |].
  destruct (calculate_prediction_keras_never_complements stub_library 0
              (class_indices aligned_flow) (classes aligned_flow)
              (filenames aligned_flow) aligned_flow example_world
              p y_pred y_test w' Hrun) as (_ & a & Ha & Hp & _).
  cbn in Ha. rewrite lookup_singleton_eq in Ha. by injection Ha as <-.
Defined.

Lemma calculate_prediction_multiclass_labels_witness :
  calculate_prediction stub_library 0 three_class_flow three_class_flow false
    three_class_world
  = (Ok (0, PredList [5%Z; 3%Z], [2%Z; 0%Z]), three_class_world)
  ∧ Forall (λ z, ∃ label index,
              (label, index) ∈ class_indices three_class_flow
              ∧ py_int stub_library label = Ok z) [5%Z; 3%Z].
Proof.
  assert (calculate_prediction stub_library 0 three_class_flow three_class_flow
            false three_class_world
          = (Ok (0, PredList [5%Z; 3%Z], [2%Z; 0%Z]), three_class_world)) as Hrun
    by reflexivity.
  split; [exact Hrun |].
  destruct (calculate_prediction_multiclass_labels stub_library 0
              three_class_flow three_class_flow three_class_world
              0 (PredList [5%Z; 3%Z]) [2%Z; 0%Z] three_class_world Hrun)
    as (_ & _ & _ & l & Hl & Hall).
  by injection Hl as <-.
Defined.

Section ArgmaxFacts.
Context `{PyFloat F}.
Implicit Types (row l : list F) (best x : F).

Lemma argmax_from_bound l best (bi i : nat) :
  bi < i → argmax_from best bi i l < i + length l.
Proof.
  revert best bi i. induction l as [| x l IH]; intros best bi i Hlt; cbn.
  { lia. }
  destruct (f_isnan best); [lia |].
  destruct (f_isnan x || f_ltb best x).
  - specialize (IH x i (S i)). lia.
  - specialize (IH best bi (S i)). lia.
Qed.

Lemma argmax_row_bound row (c : nat) :
  c ≠ 0 → length row ≤ c → argmax_row row < c.
Proof.
  intros Hc Hlen. destruct row as [| x l]; cbn in *; [lia |].
  pose proof (argmax_from_bound l x 0 1). lia.
Qed.

Lemma array_rows_length {A} (n c : nat) (d : list A) :
  length (array_rows n c d) = n.
Proof. revert d. induction n as [| n IH]; intros d; cbn; [done |]. by rewrite IH. Qed.

Lemma array_rows_row_length {A} (n c : nat) (d : list A) :
  Forall (λ r, length r ≤ c) (array_rows n c d).
Proof.
  revert d. induction n as [| n IH]; intros d; cbn; constructor; [| done].
  rewrite length_take. lia.
Qed.

(** The scan of [argmax_from] keeps a maximum of what it has read, and the
    first one.  [seen] is what was read before [l]. *)
Lemma argmax_from_first_max (seen l : list F) best (bi : nat) :
  orders (seen ++ l) →
  Forall (λ x, f_isnan x = false) (seen ++ l) →
  seen !! bi = Some best →
  (∀ x, x ∈ seen → f_ltb best x = false) →
  (∀ j x, j < bi → seen !! j = Some x → f_ltb x best = true) →
  ∃ m, (seen ++ l) !! argmax_from best bi (length seen) l = Some m
       ∧ (∀ x, x ∈ seen ++ l → f_ltb m x = false)
       ∧ (∀ j x, j < argmax_from best bi (length seen) l →
                 (seen ++ l) !! j = Some x → f_ltb x m = true).
Proof.
  revert seen best bi.
  induction l as [| x l IH]; intros seen best bi Hord Hnan Hbest Hmax Hfirst.
  { cbn. rewrite app_nil_r. by exists best. }
  assert (f_isnan best = false) as Hnb.
  { apply Forall_app in Hnan as [Hseen _].
    eapply Forall_lookup_1 in Hseen; [| exact Hbest]. done. }
  assert (f_isnan x = false) as Hnx.
  { apply Forall_app in Hnan as [_ Hl]. by apply Forall_cons in Hl as [? _]. }
  assert (best ∈ seen ++ x :: l) as Hbk.
  { apply elem_of_app. left. by eapply list_elem_of_lookup_2. }
  assert (x ∈ seen ++ x :: l) as Hxk.
  { apply elem_of_app. right. left. }
  assert (∀ z, z ∈ seen → z ∈ seen ++ x :: l) as Hsk.
  { intros z Hz. apply elem_of_app. by left. }
  cbn [argmax_from]. rewrite Hnb, Hnx. cbn [orb].
  set (keys := seen ++ x :: l) in Hord, Hbk, Hxk, Hsk.
  replace (seen ++ x :: l) with ((seen ++ [x]) ++ l) in * by by rewrite <- app_assoc.
  replace (S (length seen)) with (length (seen ++ [x])) by (rewrite length_app; cbn; lia).
  assert (orders ((seen ++ [x]) ++ l)) as Hord'.
  { subst keys. by rewrite <- app_assoc. }
  destruct (f_ltb best x) eqn:Hlt.
  - apply IH; [done | done | | |].
    + rewrite lookup_app_r by lia. by rewrite Nat.sub_diag.
    + intros z [Hz | ->%list_elem_of_singleton]%elem_of_app;
        [| by apply (orders_irrefl keys)].
      destruct (f_ltb x z) eqn:Hxz; [| done].
      rewrite <- (Hmax z Hz). symmetry.
      by apply (orders_trans keys best x z Hord Hbk Hxk (Hsk z Hz)).
    + intros j z Hj Hz. rewrite lookup_app_l in Hz by done.
      apply list_elem_of_lookup_2 in Hz.
      destruct (orders_cotrans keys best z x Hord Hbk (Hsk z Hz) Hxk Hlt)
        as [Hbz | Hzx]; [| done].
      by rewrite (Hmax z Hz) in Hbz.
  - apply IH; [done | done | | |].
    + apply lookup_app_l_Some. done.
    + intros z [Hz | ->%list_elem_of_singleton]%elem_of_app; [by apply Hmax | done].
    + intros j z Hj Hz. apply (Hfirst j z Hj).
      apply lookup_lt_Some in Hbest.
      by rewrite lookup_app_l in Hz by lia.
Qed.

(** X5: of a row that has an entry, no NaN, and entries that [<] orders,
    [argmax_row] is the index of an entry that no entry exceeds, and of the
    first such entry: every entry before it is strictly below it. *)
Theorem argmax_row_first_max row :
  row ≠ [] →
  orders row →
  Forall (λ x, f_isnan x = false) row →
  ∃ m, row !! argmax_row row = Some m
       ∧ (∀ x, x ∈ row → f_ltb m x = false)
       ∧ (∀ j x, j < argmax_row row → row !! j = Some x → f_ltb x m = true).
Proof.
  intros Hne Hord Hnan. destruct row as [| x l]; [done |]. cbn [argmax_row].
  apply (argmax_from_first_max [x] l x 0); [done | done | done | |].
  - intros z ->%list_elem_of_singleton.
    apply (orders_irrefl (x :: l)); [done | left].
  - intros j z Hj. lia.
Qed.
End ArgmaxFacts.

Lemma argmax_row_first_max_witness :
  [0.125; 0.75; 0.75; 0.25]%float ≠ []
  ∧ @orders float binary64 [0.125; 0.75; 0.75; 0.25]%float
  ∧ Forall (λ x, PrimFloat.is_nan x = false) [0.125; 0.75; 0.75; 0.25]%float
  ∧ @argmax_row float binary64 [0.125; 0.75; 0.75; 0.25]%float = 1
  ∧ ∃ m, [0.125; 0.75; 0.75; 0.25]%float !! 1 = Some m
         ∧ PrimFloat.ltb m 0.75%float = false.
Proof.
  assert (@orders float binary64 [0.125; 0.75; 0.75; 0.25]%float) as Hord.
  { apply (@ordersb_orders float binary64). vm_compute. reflexivity. }
  assert (Forall (λ x, PrimFloat.is_nan x = false) [0.125; 0.75; 0.75; 0.25]%float)
    as Hnan by (repeat constructor).
  split_and!; [discriminate | exact Hord | exact Hnan | reflexivity |].
  destruct (@argmax_row_first_max float binary64 [0.125; 0.75; 0.75; 0.25]%float
              ltac:(discriminate) Hord Hnan) as (m & Hm & Hmax & _).
  exists m. split; [exact Hm |]. apply (Hmax 0.75%float). right. left.
Defined.

Lemma mapR_total {A B} (f : A → result B) (l : list A) :
  Forall (λ x, ∃ y, f x = Ok y) l →
  ∃ l', mapR f l = Ok l' ∧ Forall2 (λ x y, f x = Ok y) l l'.
Proof.
  induction 1 as [| x l [y Hx] _ (l' & Hl' & Hall)].
  { exists []. by split; [| constructor]. }
  exists (y :: l'). split; [cbn; by rewrite Hx, Hl' | by constructor].
Qed.

Section MulticlassFacts.
Context `{PyFloat F} (lib : Library F).
Implicit Types (w : World F) (a : ndarray F) (y : loc).

(** X6: in multi-class mode, on an array of [n] rows and [c > 0] columns
    and a table that gives every column one label that [int] accepts,
    [calculate_prediction] returns [n] predictions without touching the
    store, and the prediction of a row is the integer of the label of the
    row's arg-max column. *)
Theorem calculate_prediction_multiclass_argmax y a (n c : nat) trn tst w :
  arrays w !! y = Some a →
  shape a = [n; c] →
  c ≠ 0 →
  NoDup (class_indices trn).*2 →
  (∀ k, k < c →
     ∃ label z, (label, Z.of_nat k) ∈ class_indices trn
                ∧ py_int lib label = Ok z) →
  ∃ y_pred,
    calculate_prediction lib y trn tst false w
    = (Ok (y, PredList y_pred, classes tst), w)
    ∧ length y_pred = n
    ∧ ∀ i row, array_rows n c (data a) !! i = Some row →
        ∃ label z,
          (label, Z.of_nat (argmax_row row)) ∈ class_indices trn
          ∧ py_int lib label = Ok z
          ∧ y_pred !! i = Some z.
Proof.
  intros Hy Hshape Hc Hnd Hlabels.
  set (labels := dict_invert (class_indices trn)).
  set (f := λ k : nat, s ← assoc_getitem labels (Z.of_nat k); py_int lib s).
  set (rows := array_rows n c (data a)).
  assert (∀ row, row ∈ rows →
            ∃ label z, (label, Z.of_nat (argmax_row row)) ∈ class_indices trn
                       ∧ py_int lib label = Ok z
                       ∧ f (argmax_row row) = Ok z) as Hrow.
  { intros row Hin.
    assert (argmax_row row < c) as Hlt.
    { apply argmax_row_bound; [done |].
      pose proof (array_rows_row_length n c (data a)) as Hlen.
      by eapply Forall_forall in Hlen. }
    destruct (Hlabels _ Hlt) as (label & z & Hin' & Hint).
    exists label, z. split_and!; [done | done |].
    unfold f, assoc_getitem, labels, dict_invert.
    by rewrite (invert_foldl_complete _ _ _ label Hnd Hin'). }
  destruct (mapR_total f (argmax_row <$> rows)) as (y_pred & Hmap & Hall).
  { apply Forall_fmap, Forall_forall. intros row Hin.
    destruct (Hrow row Hin) as (_ & z & _ & _ & Hz). by exists z. }
  exists y_pred. split_and!.
  - unfold calculate_prediction, mbind, M_bind, liftR, read_array.
    rewrite Hy. unfold np_argmax_axis1. rewrite Hshape.
    destruct (decide (c = 0)); [done |].
    fold rows. fold labels. change (mapR _ (map argmax_row rows))
      with (mapR f (argmax_row <$> rows)).
    by rewrite Hmap.
  - apply Forall2_length in Hall. rewrite <- Hall, length_fmap.
    apply array_rows_length.
  - intros i row Hi.
    destruct (Hrow row) as (label & z & Hin & Hint & Hz).
    { by eapply list_elem_of_lookup_2. }
    exists label, z. split_and!; [done | done |].
    assert ((argmax_row <$> rows) !! i = Some (argmax_row row)) as Hk.
    { by rewrite list_lookup_fmap, Hi. }
    destruct (Forall2_lookup_l _ _ _ _ _ Hall Hk) as (z' & Hz' & Hfz).
    congruence.
Qed.
End MulticlassFacts.

Lemma calculate_prediction_multiclass_argmax_witness :
  arrays three_class_world !! 0
  = Some (mk_ndarray [2; 3]
            [(1 # 10)%Q; (7 # 10)%Q; (2 # 10)%Q;
             (5 # 10)%Q; (3 # 10)%Q; (2 # 10)%Q])
  ∧ 3 ≠ 0
  ∧ NoDup (class_indices three_class_flow).*2
  ∧ ∃ y_pred,
      calculate_prediction stub_library 0 three_class_flow three_class_flow
        false three_class_world
      = (Ok (0, PredList y_pred, classes three_class_flow), three_class_world)
      ∧ length y_pred = 2.
Proof.
  assert (NoDup (class_indices three_class_flow).*2) as Hnd.
  { apply (bool_decide_unpack _). reflexivity. }
  split_and!; [reflexivity | lia | exact Hnd |].
  destruct (calculate_prediction_multiclass_argmax stub_library 0 _ 2 3
              three_class_flow three_class_flow three_class_world
              eq_refl eq_refl ltac:(lia) Hnd)
    as (y_pred & Hrun & Hlen & _).
  { intros k Hk.
    destruct k as [| [| [| k]]]; [| | | lia].
    - exists "3", 3%Z. split; [left | reflexivity].
    - exists "5", 5%Z. split; [right; left | reflexivity].
    - exists "7", 7%Z. split; [right; right; left | reflexivity]. }
  exists y_pred. split; [exact Hrun | exact Hlen].
Defined.

(** ** Printing the metrics *)

Section PrintingFacts.
Context `{PyFloat F} (lib : Library F) (float_repr : F → string).
Implicit Types (w : World F) (metrics : gmap string F).

Lemma accuracy_precision_recall_fscore_dom (y_test y_pred : list Z)
    (is_binary : bool) metrics :
  accuracy_precision_recall_fscore lib y_test y_pred is_binary = Ok metrics →
  dom metrics = metric_keys is_binary.
Proof.
  unfold accuracy_precision_recall_fscore, mbind, result_bind, bindR.
  destruct (accuracy_score lib y_test y_pred) as [accuracy |]; [| done].
  destruct is_binary.
  - destruct (precision_recall_fscore_support lib y_test y_pred AvgBinary)
      as [[[[precision recall] f_score] support] |]; [| done].
    intros [= <-]. unfold dict_update, metric_keys.
    rewrite dom_union_L, !dom_insert_L, !dom_singleton_L. set_solver.
  - destruct (mean_absolute_error lib y_test y_pred) as [mean_absolute |]; [| done].
    destruct (precision_recall_fscore_support lib y_test y_pred AvgMacro)
      as [[[[precision recall] f_score] support] |]; [| done].
    intros [= <-]. unfold dict_update, metric_keys.
    rewrite dom_union_L, !dom_insert_L, !dom_singleton_L. set_solver.
Qed.

Lemma print_metric_Some label metrics key (value : F) w :
  metrics !! key = Some value →
  print_metric float_repr label metrics key w
  = (Ok (), mk_World (arrays w) (pools w)
              (stdout w ++ [Line (label +:+ float_repr value)]) (files w)).
Proof.
  intros Hkey. unfold print_metric, mbind, M_bind, liftR, dict_getitem.
  by rewrite Hkey.
Qed.

Lemma print_metric_None label metrics key w :
  metrics !! key = None →
  print_metric float_repr label metrics key w = (Raise KeyError, w).
Proof.
  intros Hkey. unfold print_metric, mbind, M_bind, liftR, dict_getitem.
  by rewrite Hkey.
Qed.

Ltac step_print_metric metrics :=
  match goal with
  | |- context [print_metric _ ?label metrics ?key ?w0] =>
      let Hkey := fresh "Hkey" in
      destruct (metrics !! key) as [? |] eqn:Hkey;
      [ rewrite (print_metric_Some label metrics key _ w0 Hkey)
      | rewrite (print_metric_None label metrics key w0 Hkey) ]
  end.

(** [print_results] prints the lines of the keys of its mode, in order, up
    to the first key that the dict lacks, where it raises [KeyError]. *)
Lemma print_results_spec metrics (is_binary : bool) w :
  print_results float_repr metrics is_binary w
  = (if has_keys metrics (printed_keys is_binary) then Ok () else Raise KeyError,
     mk_World (arrays w) (pools w)
       (stdout w ++ metric_lines float_repr metrics (printed_keys is_binary))
       (files w)).
Proof.
  unfold has_keys. destruct w as [ar po out fi].
  destruct is_binary; cbn [printed_keys metric_lines forallb snd];
    unfold print_results, mbind, M_bind;
    repeat (step_print_metric metrics; cbn [arrays pools stdout files];
            rewrite ?app_nil_r, <- ?app_assoc; cbn [app];
            try (cbn; reflexivity));
    cbn; by rewrite ?app_nil_r.
Qed.

Lemma metric_lines_full metrics (keys : list (string * string)) :
  has_keys metrics keys = true →
  length (metric_lines float_repr metrics keys) = length keys.
Proof.
  unfold has_keys. induction keys as [| [label key] keys IH]; [done |].
  cbn. intros [Hkey Hrest]%andb_true_iff.
  apply bool_decide_eq_true in Hkey as [value Hkey]. rewrite Hkey. cbn.
  by rewrite IH.
Qed.

Lemma has_keys_of_mode metrics (is_binary : bool) :
  dom metrics = metric_keys is_binary →
  has_keys metrics (printed_keys is_binary) = true.
Proof.
  intros Hdom. unfold has_keys. apply forallb_forall. intros [label key] Hin.
  apply bool_decide_eq_true, elem_of_dom. rewrite Hdom. cbn.
  apply list_elem_of_In in Hin.
  destruct is_binary; cbn in Hin; unfold metric_keys;
    repeat (apply elem_of_cons in Hin as [Heq | Hin];
            [injection Heq as -> ->; set_solver |]);
    by apply elem_of_nil in Hin.
Qed.

(** X7: the dict that [accuracy_precision_recall_fscore] builds in a mode
    has every key that [print_results] and [print_fold_results] read in
    that mode: both return, [print_results] after four lines in binary
    mode and five in multi-class mode, and neither touches a file. *)
Theorem metrics_print_in_their_mode (y_test y_pred : list Z) (is_binary : bool)
    metrics w :
  accuracy_precision_recall_fscore lib y_test y_pred is_binary = Ok metrics →
  print_results float_repr metrics is_binary w
  = (Ok (),
     mk_World (arrays w) (pools w)
       (stdout w ++ metric_lines float_repr metrics (printed_keys is_binary))
       (files w))
  ∧ length (metric_lines float_repr metrics (printed_keys is_binary))
    = (if is_binary then 4 else 5)
  ∧ (print_fold_results float_repr metrics is_binary w).1 = Ok ()
  ∧ files (print_fold_results float_repr metrics is_binary w).2 = files w.
Proof.
  intros Hrun. apply accuracy_precision_recall_fscore_dom in Hrun as Hdom.
  pose proof (has_keys_of_mode metrics is_binary Hdom) as Hkeys.
  split_and!.
  - by rewrite print_results_spec, Hkeys.
  - rewrite metric_lines_full by done. by destruct is_binary.
  - assert (is_Some (metrics !! "accuracy")) as [accuracy Hacc].
    { apply elem_of_dom. rewrite Hdom. destruct is_binary; set_solver. }
    assert (is_Some (metrics !! (if is_binary then "f-score" else "f-score_ma")))
      as [f_score Hf].
    { apply elem_of_dom. rewrite Hdom. destruct is_binary; set_solver. }
    destruct is_binary; unfold print_fold_results, mbind, M_bind;
      rewrite (print_metric_Some _ _ _ _ _ Hacc);
      by rewrite (print_metric_Some _ _ _ _ _ Hf).
  - assert (is_Some (metrics !! "accuracy")) as [accuracy Hacc].
    { apply elem_of_dom. rewrite Hdom. destruct is_binary; set_solver. }
    assert (is_Some (metrics !! (if is_binary then "f-score" else "f-score_ma")))
      as [f_score Hf].
    { apply elem_of_dom. rewrite Hdom. destruct is_binary; set_solver. }
    destruct is_binary; unfold print_fold_results, mbind, M_bind;
      rewrite (print_metric_Some _ _ _ _ _ Hacc);
      by rewrite (print_metric_Some _ _ _ _ _ Hf).
Qed.

(** X8: printed in the other mode, the dict of a mode gives its accuracy
    line and then [KeyError]: the next key read is one it lacks. *)
Theorem metrics_print_other_mode (y_test y_pred : list Z) (is_binary : bool)
    metrics w :
  accuracy_precision_recall_fscore lib y_test y_pred is_binary = Ok metrics →
  ∃ accuracy,
    metrics !! "accuracy" = Some accuracy
    ∧ print_results float_repr metrics (negb is_binary) w
      = (Raise KeyError,
         mk_World (arrays w) (pools w)
           (stdout w
            ++ [Line ("Accuracy ----------------> " +:+ float_repr accuracy)])
           (files w)).
Proof.
  intros Hrun. apply accuracy_precision_recall_fscore_dom in Hrun as Hdom.
  assert (is_Some (metrics !! "accuracy")) as [accuracy Hacc].
  { apply elem_of_dom. rewrite Hdom. destruct is_binary; set_solver. }
  exists accuracy. split; [done |].
  assert (metrics !! (if is_binary then "mean_absolute_error" else "f-score")
          = None) as Hnext.
  { apply not_elem_of_dom. rewrite Hdom. destruct is_binary; set_solver. }
  destruct is_binary; cbn [negb]; unfold print_results, mbind, M_bind;
    rewrite (print_metric_Some _ _ _ _ _ Hacc);
    by rewrite (print_metric_None _ _ _ _ Hnext).
Qed.

(** X9: the tail of a cross-validation run.  Folds whose metrics come from
    [accuracy_precision_recall_fscore] in the mode of the run aggregate to
    a dict that [print_results] prints in full in that mode. *)
Theorem cv_metrics_print (nr_folds : Z) (folds : list (gmap string F))
    (is_binary : bool) w :
  folds ≠ [] →
  Forall (λ metrics_it,
            ∃ y_test y_pred,
              accuracy_precision_recall_fscore lib y_test y_pred is_binary
              = Ok metrics_it) folds →
  ∃ metrics_dict,
    train_test_model_cv_metrics nr_folds folds = Ok metrics_dict
    ∧ print_results float_repr metrics_dict is_binary w
      = (Ok (),
         mk_World (arrays w) (pools w)
           (stdout w
            ++ metric_lines float_repr metrics_dict (printed_keys is_binary))
           (files w))
    ∧ length (metric_lines float_repr metrics_dict (printed_keys is_binary))
      = (if is_binary then 4 else 5).
Proof.
  intros Hne Hall.
  destruct (cv_metrics_mean nr_folds folds (metric_keys is_binary))
    as (metrics_dict & Hrun & Hdom & _); [done | |].
  { eapply Forall_impl; [exact Hall |]. cbn. intros m (yt & yp & Hm).
    by eapply accuracy_precision_recall_fscore_dom. }
  pose proof (has_keys_of_mode metrics_dict is_binary Hdom) as Hkeys.
  exists metrics_dict. split_and!; [done | |].
  - by rewrite print_results_spec, Hkeys.
  - rewrite metric_lines_full by done. by destruct is_binary.
Qed.
End PrintingFacts.

Lemma metrics_print_in_their_mode_witness :
  accuracy_precision_recall_fscore stub_library [1%Z; 0%Z] [1%Z; 1%Z] true
  = Ok binary_fold
  ∧ (print_results example_repr binary_fold true example_world).1 = Ok ()
  ∧ length (metric_lines example_repr binary_fold (printed_keys true)) = 4.
Proof.
  assert (accuracy_precision_recall_fscore stub_library [1%Z; 0%Z] [1%Z; 1%Z] true
          = Ok binary_fold) as Hrun by reflexivity.
  split; [exact Hrun |].
  destruct (metrics_print_in_their_mode stub_library example_repr
              [1%Z; 0%Z] [1%Z; 1%Z] true binary_fold example_world Hrun)
    as (Hprint & Hlen & _).
  split; [| exact Hlen]. by rewrite Hprint.
Defined.

Lemma metrics_print_other_mode_witness :
  accuracy_precision_recall_fscore stub_library [1%Z; 0%Z] [1%Z; 1%Z] true
  = Ok binary_fold
  ∧ (print_results example_repr binary_fold false example_world).1
    = Raise KeyError.
Proof.
  assert (accuracy_precision_recall_fscore stub_library [1%Z; 0%Z] [1%Z; 1%Z] true
          = Ok binary_fold) as Hrun by reflexivity.
  split; [exact Hrun |].
  destruct (metrics_print_other_mode stub_library example_repr
              [1%Z; 0%Z] [1%Z; 1%Z] true binary_fold example_world Hrun)
    as (accuracy & _ & Hprint).
  cbn [negb] in Hprint. by rewrite Hprint.
Defined.

Lemma cv_metrics_print_witness :
  [binary_fold; binary_fold] ≠ []
  ∧ ∃ metrics_dict,
      train_test_model_cv_metrics 2 [binary_fold; binary_fold] = Ok metrics_dict
      ∧ (print_results example_repr metrics_dict true example_world).1 = Ok ().
Proof.
  split; [discriminate |].
  destruct (cv_metrics_print stub_library example_repr 2
              [binary_fold; binary_fold] true example_world)
    as (metrics_dict & Hrun & Hprint & _); [discriminate | |].
  { repeat constructor; by exists [1%Z; 0%Z], [1%Z; 1%Z]. }
  exists metrics_dict. split; [exact Hrun |]. by rewrite Hprint.
Defined.

(** ** Folds with different keys *)

Section KeySetFacts.
Context `{PyFloat F}.
Implicit Types (d : gmap string F) (folds : list (gmap string F)).

Lemma dict_comprehension_Ok_inv {A B} (f : string → A → result B)
    (m : gmap string A) (m' : gmap string B) :
  dict_comprehension f m = Ok m' →
  ∀ k v, m !! k = Some v → is_Ok (f k v) = true.
Proof.
  unfold dict_comprehension, mbind, result_bind, bindR. intros Hrun k v Hk.
  destruct (mapR _ (map_to_list m)) as [items |] eqn:Hmap; [| done].
  apply mapR_Ok_Forall2 in Hmap.
  apply elem_of_map_to_list in Hk.
  apply list_elem_of_lookup in Hk as [i Hi].
  destruct (Forall2_lookup_l _ _ _ _ _ Hmap Hi) as (item & _ & Hitem).
  cbn in Hitem. by destruct (f k v).
Qed.

(** A fold with a key that the running sums lack raises [KeyError]. *)
Lemma add_fold_new_key d metrics_it :
  ¬ dom metrics_it ⊆ dom d →
  add_fold (PlainDict d) metrics_it = Raise KeyError.
Proof.
  intros Hnot. unfold add_fold, mbind, result_bind, bindR.
  destruct (dict_comprehension _ metrics_it) as [d' | e] eqn:Hrun.
  - destruct Hnot. intros k [v Hk]%elem_of_dom.
    eapply dict_comprehension_Ok_inv in Hrun; [| exact Hk]. cbn in Hrun.
    apply elem_of_dom. by destruct (d !! k).
  - apply dict_comprehension_Raise in Hrun as (k & v & _ & Hf).
    cbn in Hf. destruct (d !! k); [done |]. by injection Hf as <-.
Qed.

Lemma add_folds_keys d folds :
  (keys_shrink (dom d) folds →
     ∃ d', add_folds (PlainDict d) folds = Ok (PlainDict d')
           ∧ ∀ metrics_it, last (d :: folds) = Some metrics_it →
                           dom d' = dom metrics_it)
  ∧ (¬ keys_shrink (dom d) folds →
       add_folds (PlainDict d) folds = Raise KeyError).
Proof.
  revert d. induction folds as [| metrics_it folds IH]; intros d.
  { split; [| by intros []]. intros _. exists d. split; [done |].
    by intros m [= <-]. }
  cbn [keys_shrink add_folds]. unfold mbind, result_bind, bindR.
  destruct (decide (dom metrics_it ⊆ dom d)) as [Hsub | Hnot].
  - destruct (add_fold_plain d metrics_it Hsub) as (d1 & -> & Hdom1 & _).
    destruct (IH d1) as [IHok IHraise]. rewrite Hdom1 in IHok, IHraise. split.
    + intros [_ Hshrink]. destruct (IHok Hshrink) as (d' & -> & Hlast).
      exists d'. split; [done |]. intros m Hm. destruct folds as [| m2 folds].
      * injection Hm as <-. by rewrite (Hlast d1 eq_refl).
      * by apply Hlast.
    + intros Hno. apply IHraise. tauto.
  - rewrite (add_fold_new_key d metrics_it Hnot). split; [tauto | done].
Qed.

(** X10: the aggregation goes through exactly when no fold reports a key
    that the fold before it lacks, and otherwise raises [KeyError]; when it
    goes through, the aggregated dict has the keys of the last fold, so a
    key that some fold lacks is dropped. *)
Theorem train_test_model_cv_metrics_key_sets (nr_folds : Z)
    (first : gmap string F) folds :
  (keys_shrink (dom first) folds →
     ∃ metrics_dict,
       train_test_model_cv_metrics nr_folds (first :: folds) = Ok metrics_dict
       ∧ ∀ metrics_it, last (first :: folds) = Some metrics_it →
                       dom metrics_dict = dom metrics_it)
  ∧ (¬ keys_shrink (dom first) folds →
       train_test_model_cv_metrics nr_folds (first :: folds) = Raise KeyError).
Proof.
  destruct (add_fold_default first) as (d1 & Hd1 & Hval1).
  assert (dom d1 = dom first) as Hdom1.
  { apply set_eq. intros k. by rewrite !elem_of_dom, Hval1, fmap_is_Some. }
  destruct (add_folds_keys d1 folds) as [Hok Hraise].
  rewrite Hdom1 in Hok, Hraise.
  unfold train_test_model_cv_metrics. cbn [add_folds].
  unfold mbind, result_bind, bindR. rewrite Hd1. split.
  - intros Hshrink. destruct (Hok Hshrink) as (d' & -> & Hlast).
    destruct (dict_comprehension_Ok
                (λ _ v, Ok (f_div v (f_of_Z nr_folds)))
                (λ _ v, f_div v (f_of_Z nr_folds)) d')
      as (metrics_dict & Hm & Hval); [done |].
    exists metrics_dict. split; [exact Hm |].
    intros m Hm'.
    assert (dom metrics_dict = dom d') as ->.
    { apply set_eq. intros k. by rewrite !elem_of_dom, Hval, fmap_is_Some. }
    destruct folds as [| m2 folds].
    + injection Hm' as <-. by rewrite (Hlast d1 eq_refl).
    + by apply Hlast.
  - intros Hno. by rewrite (Hraise Hno).
Qed.
End KeySetFacts.

Lemma train_test_model_cv_metrics_key_sets_witness :
  keys_shrink (dom binary_fold) [({[ "accuracy" := 1%Q ]} : gmap string Q)]
  ∧ (∃ metrics_dict,
       train_test_model_cv_metrics 2 [binary_fold; {[ "accuracy" := 1%Q ]}]
       = Ok metrics_dict
       ∧ dom metrics_dict = {[ "accuracy" ]})
  ∧ train_test_model_cv_metrics 2 [{[ "accuracy" := 1%Q ]}; binary_fold]
    = Raise KeyError.
Proof.
  assert (keys_shrink (dom binary_fold) [({[ "accuracy" := 1%Q ]} : gmap string Q)])
    as Hshrink.
  { split; [| done]. rewrite dom_singleton_L. unfold binary_fold, dict_update.
    rewrite dom_union_L, !dom_insert_L, !dom_singleton_L. set_solver. }
  split_and!; [exact Hshrink | |].
  - destruct (proj1 (train_test_model_cv_metrics_key_sets 2 binary_fold
                       [{[ "accuracy" := 1%Q ]}]) Hshrink)
      as (metrics_dict & Hrun & Hlast).
    exists metrics_dict. split; [exact Hrun |].
    rewrite (Hlast _ eq_refl). apply dom_singleton_L.
  - apply (proj2 (train_test_model_cv_metrics_key_sets 2 {[ "accuracy" := 1%Q ]}
                    [binary_fold])).
    intros [Hsub _]. rewrite dom_singleton_L in Hsub.
    assert ("recall" ∈ dom binary_fold) as Hin.
    { unfold binary_fold, dict_update.
      rewrite dom_union_L, !dom_insert_L, !dom_singleton_L. set_solver. }
    apply Hsub in Hin. set_solver.
Defined.

(** ** Accuracy per class *)

(** Exact division has the laws of a share at every positive count. *)
Lemma share_laws_exact (s : Z) : (0 < s)%Z → @share_laws Q Q_float s.
Proof.
  intros Hpos a b Ha Hab Hb. cbn.
  assert (0 < inject_Z s)%Q as Hq
    by (change 0%Q with (inject_Z 0); by rewrite <- Zlt_Qlt).
  assert (∀ u v v' : Q, (v == v')%Q → Qltb u v = Qltb u v') as Hr.
  { intros u v v' Heq. unfold Qltb. f_equal.
    apply Bool.eq_true_iff_eq. by rewrite !Qle_bool_iff, Heq. }
  assert (∀ u u' v : Q, (u == u')%Q → Qltb u v = Qltb u' v) as Hl.
  { intros u u' v Heq. unfold Qltb. f_equal.
    apply Bool.eq_true_iff_eq. by rewrite !Qle_bool_iff, Heq. }
  split_and!.
  - done.
  - unfold Qltb. apply negb_false_iff, Qle_bool_iff.
    apply Qmult_le_compat_r; [by rewrite <- Zle_Qle |].
    apply Qinv_le_0_compat. by apply Qlt_le_weak.
  - apply Hr. unfold Qdiv. by rewrite Qmult_0_l.
  - apply Hl. symmetry. apply Qmult_inv_r. intros Heq. rewrite Heq in Hq.
    by apply Qlt_irrefl in Hq.
Qed.

Section PerClassFacts.
Context `{PyFloat F}.
Context (confusion_matrix : list Z → list Z → result (list (list Z))).
Context (array_repr : list F → string).

Lemma diagonal_from_Forall {A} (P : A → Prop) (i : nat) (cm : list (list A)) :
  Forall (Forall P) cm → Forall P (diagonal_from i cm).
Proof.
  intros Hall. revert i. induction Hall as [| row cm Hrow _ IH]; intros i; cbn.
  { constructor. }
  destruct (row !! i) as [x |] eqn:Hx; [| constructor].
  constructor; [| apply IH]. by eapply Forall_lookup_1 in Hrow.
Qed.

Lemma diagonal_from_length {A} (i : nat) (cm : list (list A)) :
  Forall (λ row, i + length cm ≤ length row) cm →
  length (diagonal_from i cm) = length cm.
Proof.
  revert i. induction cm as [| row cm IH]; intros i Hall; [done |]. cbn in *.
  apply Forall_cons in Hall as [Hrow Hall].
  destruct (row !! i) as [x |] eqn:Hx.
  - cbn. f_equal. apply IH. eapply Forall_impl; [exact Hall |]. cbn. lia.
  - apply lookup_ge_None in Hx. lia.
Qed.

Lemma row_sum_bound (row : list Z) (x : Z) :
  Forall (λ y, 0 ≤ y)%Z row → x ∈ row → (0 ≤ x ≤ row_sum row)%Z.
Proof.
  unfold row_sum. induction 1 as [| y row Hy Hrow IH]; intros Hx.
  { by apply elem_of_nil in Hx. }
  assert (0 ≤ foldr Z.add 0 row)%Z as Hsum.
  { clear -Hrow. induction Hrow as [| z row ? ? IH]; cbn; lia. }
  cbn. apply elem_of_cons in Hx as [-> | Hx]; [lia |].
  specialize (IH Hx). lia.
Qed.

Lemma diagonal_from_le {A} (i : nat) (cm : list (list A)) :
  length (diagonal_from i cm) ≤ length cm.
Proof.
  revert i. induction cm as [| row cm IH]; intros i; cbn; [lia |].
  destruct (row !! i); cbn; [| lia]. specialize (IH (S i)). lia.
Qed.

(** A count of a row, divided by the sum of the row, lies between [0] and
    [1] when the division has the laws of a share at that sum. *)
Lemma share_bounds (x s : Z) :
  (0 ≤ x ≤ s)%Z → share_laws s →
  let v := f_div (f_of_Z x) (f_of_Z s) in
  f_isnan v = false
  ∧ f_ltb v (f_of_Z 0) = false
  ∧ f_ltb (f_of_Z 1) v = false.
Proof.
  intros [H0 Hs] Hlaws. cbn.
  destruct (Hlaws x s) as (Hnan & _ & Hzero & Hone); [lia | lia | lia |].
  cbn in Hnan, Hzero, Hone. split_and!; [done | |].
  - rewrite Hzero. destruct (Hlaws 0%Z x) as (_ & Hmono & _); [lia | lia | lia |].
    exact Hmono.
  - rewrite Hone. destruct (Hlaws x s) as (_ & Hmono & _); [lia | lia | lia |].
    exact Hmono.
Qed.

(** X11: when the confusion matrix is returned,
    [calculate_accuracy_per_class] returns after one line that holds one
    value per class at most, and one for every class of a square matrix.
    Where the counts are not negative and the division has the laws of a
    share at the sum of every row, no value is a NaN, below [0] or above
    [1]. *)
Theorem calculate_accuracy_per_class_bounds (y_test y_pred : list Z)
    (cm : list (list Z)) (w : World F) :
  confusion_matrix y_test y_pred = Ok cm →
  ∃ per_class,
    calculate_accuracy_per_class confusion_matrix array_repr y_test y_pred w
    = (Ok (),
       mk_World (arrays w) (pools w)
         (stdout w
          ++ [Line ("Accuracy per class ------> " +:+ array_repr per_class)])
         (files w))
    ∧ length per_class ≤ length cm
    ∧ (Forall (λ row, length row = length cm) cm →
       length per_class = length cm)
    ∧ (Forall (λ row, Forall (λ x, 0 ≤ x)%Z row ∧ share_laws (row_sum row)) cm →
       Forall (λ v, f_isnan v = false
                    ∧ f_ltb v (f_of_Z 0) = false
                    ∧ f_ltb (f_of_Z 1) v = false) per_class).
Proof.
  intros Hcm.
  exists (diagonal_from 0 (normalise_rows cm)). split_and!.
  - unfold calculate_accuracy_per_class, mbind, M_bind, liftR. by rewrite Hcm.
  - etrans; [apply diagonal_from_le |]. unfold normalise_rows.
    by rewrite length_fmap.
  - intros Hsquare. rewrite diagonal_from_length.
    + unfold normalise_rows. by rewrite length_fmap.
    + unfold normalise_rows. apply Forall_fmap, Forall_forall.
      intros row Hrow. cbn. rewrite !length_fmap.
      eapply Forall_forall in Hsquare; [| exact Hrow]. lia.
  - intros Hrows. apply diagonal_from_Forall. unfold normalise_rows.
    apply Forall_fmap, Forall_forall. intros row Hrow. cbn.
    eapply Forall_forall in Hrows as [Hnonneg Hlaws]; [| exact Hrow].
    apply Forall_fmap, Forall_forall. intros x Hx. cbn.
    apply (share_bounds x (row_sum row)); [| done]. by apply row_sum_bound.
Qed.
End PerClassFacts.

(** The test is sound. *)
Lemma share_lawsb_laws `{PyFloat F} (s : Z) :
  share_lawsb s = true → share_laws s.
Proof.
  unfold share_lawsb. intros Hall a b Ha Hab Hb. cbn zeta.
  rewrite forallb_forall in Hall.
  specialize (Hall (Z.to_nat a)).
  rewrite Z2Nat.id in Hall by done.
  assert (In (Z.to_nat a) (seq 0 (S (Z.to_nat s)))) as Hin by (apply in_seq; lia).
  apply Hall in Hin. clear Hall.
  apply andb_prop in Hin as [Hin Hmono].
  apply andb_prop in Hin as [Hin Hone].
  apply andb_prop in Hin as [Hnan Hzero].
  rewrite forallb_forall in Hmono.
  specialize (Hmono (Z.to_nat (b - a))).
  replace (Z.of_nat (Z.to_nat a + Z.to_nat (b - a))) with b in Hmono by lia.
  split_and!.
  - by apply negb_true_iff.
  - apply negb_true_iff, Hmono, in_seq. lia.
  - by apply Bool.eqb_prop.
  - by apply Bool.eqb_prop.
Qed.

(** In binary64 the division has the laws of a share at every sum up to
    [128]: each case is computed. *)
Lemma share_laws_binary64 (s : Z) :
  (0 < s ≤ 128)%Z → @share_laws float binary64 s.
Proof.
  intros Hs. apply (@share_lawsb_laws float binary64).
  assert (forallb (λ n, @share_lawsb float binary64 (Z.of_nat n)) (seq 1 128)
          = true) as Hall by (vm_compute; reflexivity).
  rewrite forallb_forall in Hall.
  specialize (Hall (Z.to_nat s)). rewrite Z2Nat.id in Hall by lia.
  apply Hall, in_seq. lia.
Qed.

Lemma calculate_accuracy_per_class_bounds_witness :
  example_confusion_matrix [0; 0; 0; 1; 1; 1]%Z [0; 0; 1; 1; 1; 1]%Z
  = Ok [[2; 1]; [0; 3]]%Z
  ∧ Forall (λ row, Forall (λ x, 0 ≤ x)%Z row
                   ∧ @share_laws float binary64 (row_sum row))
      [[2; 1]; [0; 3]]%Z
  ∧ ∃ per_class,
      (@calculate_accuracy_per_class float binary64 example_confusion_matrix
         float_array_repr [0; 0; 0; 1; 1; 1]%Z [0; 0; 1; 1; 1; 1]%Z
         large_world).1 = Ok ()
      ∧ length per_class = 2
      ∧ Forall (λ v, PrimFloat.is_nan v = false
                     ∧ PrimFloat.ltb v 0 = false
                     ∧ PrimFloat.ltb 1 v = false) per_class.
Proof.
  assert (Forall (λ row, Forall (λ x, 0 ≤ x)%Z row
                         ∧ @share_laws float binary64 (row_sum row))
            [[2; 1]; [0; 3]]%Z) as Hrows.
  { pose proof (share_laws_binary64 3 ltac:(lia)) as Hthree.
    repeat (apply Forall_cons; split; [split; [| exact Hthree] |]);
      try apply Forall_nil_2;
      repeat (apply Forall_cons; split; [lia |]); apply Forall_nil_2. }
  split_and!; [reflexivity | exact Hrows |].
  destruct (@calculate_accuracy_per_class_bounds float binary64
              example_confusion_matrix float_array_repr
              [0; 0; 0; 1; 1; 1]%Z [0; 0; 1; 1; 1; 1]%Z
              [[2; 1]; [0; 3]]%Z large_world eq_refl)
    as (per_class & Hrun & _ & Hsquare & Hbounds).
  exists per_class. split_and!.
  - rewrite Hrun. reflexivity.
  - apply Hsquare. repeat constructor.
  - exact (Hbounds Hrows).
Defined.

(** ** More on the ranking *)

Section MoreRankingFacts.
Context `{PyFloat F} (lib : Library F).
Implicit Types (w : World F) (pool r : list (F * Z)) (ks : list Z).

(** The loop stops at the first cut-off whose slice is empty, after the
    lines of the cut-offs before it. *)
Lemma average_precision_loop_empty_slice (results : loc) r ks (k : Z) ks'
    (ap : Z → F) (score : F) w :
  pools w !! results = Some r →
  Forall (λ k, slice_to k r ≠ [] ∧ average_precision_at lib r k = Ok (ap k)) ks →
  slice_to k r = [] →
  average_precision_loop lib results (ks ++ k :: ks') score w
  = (Raise ValueError,
     mk_World (arrays w) (pools w)
       (stdout w ++ ((λ k, AveragePrecisionAt k (ap k)) <$> ks)) (files w)).
Proof.
  intros Hr Hks Hk. revert score w Hr.
  induction Hks as [| k0 ks [Hne Hap] _ IH]; intros score w Hr.
  { cbn [app average_precision_loop]. unfold mbind, M_bind, read_pool, liftR.
    rewrite Hr, Hk. cbn. rewrite app_nil_r. by destruct w. }
  cbn [app average_precision_loop]. unfold mbind, M_bind, read_pool, liftR.
  rewrite Hr, (unzip_pairs_Ok _ Hne).
  unfold average_precision_at in Hap. rewrite Hap.
  unfold print at 1. rewrite IH by done. cbn.
  by rewrite <- app_assoc.
Qed.

(** X12: the cut-offs are not checked.  With no cut-off the call ranks the
    pool and raises [ZeroDivisionError] at the mean; with a cut-off whose
    slice is empty, such as [0], it raises [ValueError] there, after the
    lines of the cut-offs before it and without the line of the mean. *)
Theorem calculate_average_precision_ks_degenerate_cutoffs (lst : loc) pool w :
  pools w !! lst = Some pool →
  (∃ results,
     pools w !! results = None
     ∧ calculate_average_precision_ks lib lst true [] w
       = (Raise ZeroDivisionError,
          mk_World (arrays w) (<[results := sorted_desc pool]> (pools w))
            (stdout w) (files w)))
  ∧ slice_to 0 (sorted_desc pool) = []
  ∧ ∀ ks (k : Z) ks' (ap : Z → F),
      Forall (λ k, slice_to k (sorted_desc pool) ≠ []
                   ∧ average_precision_at lib (sorted_desc pool) k = Ok (ap k)) ks →
      slice_to k (sorted_desc pool) = [] →
      ∃ results,
        pools w !! results = None
        ∧ calculate_average_precision_ks lib lst true (ks ++ k :: ks') w
          = (Raise ValueError,
             mk_World (arrays w) (<[results := sorted_desc pool]> (pools w))
               (stdout w ++ ((λ k, AveragePrecisionAt k (ap k)) <$> ks))
               (files w)).
Proof.
  intros Hlst. split_and!.
  - unfold calculate_average_precision_ks, mbind, M_bind, read_pool.
    rewrite Hlst.
    destruct (new_pool_spec (sorted_desc pool) w) as (results & -> & Hfresh).
    exists results. split; [done |]. cbn. by destruct (decide ([] = [])).
  - done.
  - intros ks k ks' ap Hks Hk.
    unfold calculate_average_precision_ks, mbind, M_bind, read_pool.
    rewrite Hlst.
    destruct (new_pool_spec (sorted_desc pool) w) as (results & -> & Hfresh).
    exists results. split; [done |].
    by rewrite (average_precision_loop_empty_slice results (sorted_desc pool) ks
                  k ks' ap) by (done || (cbn; apply lookup_insert_eq)).
Qed.

Lemma slice_to_whole {A} (k : Z) (l : list A) :
  l ≠ [] → length l ≤ Z.to_nat k → slice_to k l = l.
Proof.
  intros Hne Hlen. rewrite slice_to_positive.
  - by apply take_ge.
  - destruct l; [done |]. cbn in Hlen. lia.
Qed.

(** X13: on a pool that is no longer than any cut-off, every cut-off asks
    the library the average precision of the whole ranking: the lines of
    all cut-offs carry one value. *)
Theorem calculate_average_precision_ks_saturates (lst : loc) pool ks (v : F) w :
  pools w !! lst = Some pool →
  pool ≠ [] →
  ks ≠ [] →
  Forall (λ k, length pool ≤ Z.to_nat k) ks →
  average_precision_score lib (sorted_desc pool).*2 (sorted_desc pool).*1 = Ok v →
  ∃ w',
    calculate_average_precision_ks lib lst true ks w = (Ok (), w')
    ∧ stdout w'
      = stdout w ++ ((λ k, AveragePrecisionAt k v) <$> ks)
          ++ [AveragePrecisionMean ks
                (f_div (foldl f_add (f_of_Z 0) ((λ _, v) <$> ks))
                       (f_of_Z (Z.of_nat (length ks))))].
Proof.
  intros Hlst Hne Hks Hlen Hv.
  assert (∀ k, k ∈ ks → slice_to k (sorted_desc pool) = sorted_desc pool) as Hwhole.
  { intros k Hk. apply slice_to_whole; [by apply sorted_desc_nonempty |].
    rewrite sorted_desc_length. by eapply Forall_forall in Hlen. }
  destruct (calculate_average_precision_ks_run lib lst pool ks (λ _, v) w)
    as (results & _ & ->); [done | done | done | | |].
  - apply Forall_forall. intros k Hk.
    eapply Forall_forall in Hlen; [| exact Hk].
    destruct pool; [done |]. cbn in Hlen. lia.
  - apply Forall_forall. intros k Hk. unfold average_precision_at.
    by rewrite (Hwhole k Hk).
  - eexists. split; [reflexivity |]. done.
Qed.
End MoreRankingFacts.

Section MoreSortFacts.
Context `{PyFloat F}.
Implicit Types (pool l : list (F * Z)).

(** X14: a pool that is already in descending order is its own ranking,
    whatever the floats. *)
Theorem sorted_desc_of_descending l : descending l → sorted_desc l = l.
Proof.
  unfold descending. induction 1 as [| x l Hl IH Hx]; [done |].
  change (sorted_desc (x :: l)) with (insert_desc x (sorted_desc l)).
  rewrite IH. destruct Hx as [| y l Hxy _]; [done |].
  cbn. unfold not_below in Hxy. by rewrite Hxy.
Qed.

Lemma descending_app_inv l1 l2 (x y : F * Z) :
  descending (l1 ++ l2) → x ∈ l1 → y ∈ l2 → not_below x y.
Proof.
  unfold descending. induction l1 as [| z l1 IH]; cbn; intros Hs Hx Hy.
  { by apply elem_of_nil in Hx. }
  apply StronglySorted_inv in Hs as [Hs Hz].
  apply elem_of_cons in Hx as [-> | Hx]; [| by apply IH].
  eapply Forall_forall in Hz; [exact Hz |]. apply elem_of_app. by right.
Qed.

(** X15: where [<] orders the probabilities of the pool, the first [k]
    pairs of the ranking are its top: no pair among them has a probability
    below that of a pair left out. *)
Theorem sorted_desc_top (k : nat) pool (x y : F * Z) :
  orders pool.*1 →
  x ∈ take k (sorted_desc pool) →
  y ∈ drop k (sorted_desc pool) →
  f_ltb x.1 y.1 = false.
Proof.
  intros Hord Hx Hy.
  apply (descending_app_inv (take k (sorted_desc pool)) (drop k (sorted_desc pool)));
    [| done | done].
  rewrite take_drop. by apply (sorted_desc_descending pool.*1).
Qed.
End MoreSortFacts.

Lemma calculate_average_precision_ks_degenerate_cutoffs_witness :
  pools example_world !! 0 = Some example_pool
  ∧ (calculate_average_precision_ks stub_library 0 true [] example_world).1
    = Raise ZeroDivisionError
  ∧ (calculate_average_precision_ks stub_library 0 true [50; 0; 100]%Z
       example_world).1 = Raise ValueError.
Proof.
  assert (pools example_world !! 0 = Some example_pool) as Hlst by reflexivity.
  split; [exact Hlst |].
  destruct (calculate_average_precision_ks_degenerate_cutoffs stub_library 0
              example_pool example_world Hlst) as ((r & _ & Hnone) & _ & Hzero).
  split; [by rewrite Hnone |].
  destruct (Hzero [50%Z] 0%Z [100%Z] (λ _, 1%Q)) as (r' & _ & Hrun).
  { repeat constructor. discriminate. }
  { reflexivity. }
  change ([50; 0; 100]%Z) with ([50%Z] ++ 0%Z :: [100%Z]). by rewrite Hrun.
Defined.

Lemma calculate_average_precision_ks_saturates_witness :
  pools example_world !! 0 = Some example_pool
  ∧ Forall (λ k, length example_pool ≤ Z.to_nat k) default_ks
  ∧ ∃ w',
      calculate_average_precision_ks stub_library 0 true default_ks example_world
      = (Ok (), w')
      ∧ take 4 (stdout w')
        = [ AveragePrecisionAt 50 1%Q; AveragePrecisionAt 100 1%Q;
            AveragePrecisionAt 250 1%Q; AveragePrecisionAt 480 1%Q ].
Proof.
  assert (pools example_world !! 0 = Some example_pool) as Hlst by reflexivity.
  assert (Forall (λ k, length example_pool ≤ Z.to_nat k) default_ks) as Hks.
  { repeat constructor; cbn; lia. }
  split_and!; [exact Hlst | exact Hks |].
  destruct (calculate_average_precision_ks_saturates stub_library 0 example_pool
              default_ks 1%Q example_world Hlst)
    as (w' & Hrun & Hout); [discriminate | discriminate | exact Hks | reflexivity |].
  exists w'. split; [exact Hrun |]. by rewrite Hout.
Defined.

Lemma sorted_desc_of_descending_witness :
  @descending float binary64 [(0.875%float, 0%Z); (0.5%float, 1%Z); (0.5%float, 0%Z)]
  ∧ @sorted_desc float binary64 [(0.875%float, 0%Z); (0.5%float, 1%Z); (0.5%float, 0%Z)]
    = [(0.875%float, 0%Z); (0.5%float, 1%Z); (0.5%float, 0%Z)].
Proof.
  assert (@descending float binary64
            [(0.875%float, 0%Z); (0.5%float, 1%Z); (0.5%float, 0%Z)])
    as Hdesc.
  { repeat constructor. }
  split; [exact Hdesc |].
  exact (@sorted_desc_of_descending float binary64 _ Hdesc).
Defined.

Lemma sorted_desc_top_witness :
  @orders float binary64 large_pool.*1
  ∧ (0.75%float, 0%Z) ∈ take 50 (@sorted_desc float binary64 large_pool)
  ∧ (0.625%float, 1%Z) ∈ drop 50 (@sorted_desc float binary64 large_pool)
  ∧ PrimFloat.ltb 0.75 0.625 = false.
Proof.
  assert ((0.75%float, 0%Z) ∈ take 50 (@sorted_desc float binary64 large_pool))
    as Hx.
  { apply (list_elem_of_lookup_2 _ 0). vm_compute. reflexivity. }
  assert ((0.625%float, 1%Z) ∈ drop 50 (@sorted_desc float binary64 large_pool))
    as Hy.
  { apply (list_elem_of_lookup_2 _ 21). vm_compute. reflexivity. }
  split_and!; [exact large_pool_orders | exact Hx | exact Hy |].
  exact (@sorted_desc_top float binary64 50 large_pool _ _ large_pool_orders
           Hx Hy).
Defined.

(** ** The classification report, line by line *)

Section ReportLoopFacts.
Context {F : Type}.
Implicit Types (w : World F) (tst : Flow) (y_pred old : list Z).

(** The loop gets through the samples that have a file name and a class,
    prints and appends a line for each, and raises [IndexError] at the
    first prediction without one. *)
Lemma report_loop_spec tst (idx : nat) y_pred w (lines : list string) :
  files w !! "info.txt" = Some lines →
  let rows := zip (zip (drop idx (filenames tst)) (drop idx (classes tst))) y_pred in
  report_loop tst idx y_pred w
  = (if decide (length rows = length y_pred) then Ok () else Raise IndexError,
     mk_World (arrays w) (pools w) (stdout w ++ (printed_row <$> rows))
       (<["info.txt" := lines ++ (written_row <$> rows)]> (files w))).
Proof.
  revert idx w lines. induction y_pred as [| el y_pred IH]; intros idx w lines Hfile rows.
  { subst rows. rewrite zip_with_nil_r. cbn. rewrite !app_nil_r.
    rewrite insert_id by done. by destruct w. }
  cbn [report_loop]. unfold mbind, M_bind, liftR, list_getitem.
  destruct (classes tst !! idx) as [cls |] eqn:Hcls.
  2:{ subst rows. rewrite (drop_ge (classes tst)) by by apply lookup_ge_None.
      rewrite zip_with_nil_r. cbn. rewrite !app_nil_r.
      rewrite insert_id by done. by destruct w. }
  destruct (filenames tst !! idx) as [name |] eqn:Hname.
  2:{ subst rows. rewrite (drop_ge (filenames tst)) by by apply lookup_ge_None.
      cbn. rewrite !app_nil_r. rewrite insert_id by done. by destruct w. }
  subst rows.
  rewrite (drop_S _ _ _ Hcls), (drop_S _ _ _ Hname). cbn [zip_with].
  unfold print at 1, write_line at 1. cbn [arrays pools stdout files].
  rewrite Hfile. cbn [default].
  erewrite IH by (cbn; apply lookup_insert_eq). cbn [arrays pools stdout files].
  rewrite insert_insert_eq, <- !app_assoc. cbn [fmap list_fmap app length].
  f_equal.
  destruct (decide (length _ = length y_pred)) as [-> | Hne].
  - by destruct (decide (S (length y_pred) = S (length y_pred))).
  - destruct (decide (S _ = S (length y_pred))); [| done]. lia.
Qed.

Lemma report_rows_length tst y_pred :
  length (report_rows tst y_pred)
  = (length (filenames tst) `min` length (classes tst)) `min` length y_pred.
Proof. unfold report_rows. by rewrite !length_zip_with. Qed.

(** X16: with the flag set and a file name and a class for every
    prediction, [print_classifications] prints one line per prediction and
    appends to [info.txt], after the lines it already has, one line per
    prediction and the separator; no other file changes. *)
Theorem print_classifications_appends (args : gmap string PyVal) (flag : PyVal)
    tst y_pred w :
  args !! "print_classifications" = Some flag →
  truthy flag = true →
  length y_pred ≤ length (filenames tst) →
  length y_pred ≤ length (classes tst) →
  print_classifications args tst y_pred w
  = (Ok (),
     mk_World (arrays w) (pools w)
       (stdout w ++ (printed_row <$> report_rows tst y_pred))
       (<["info.txt" := default [] (files w !! "info.txt")
                        ++ (written_row <$> report_rows tst y_pred)
                        ++ [separator]]> (files w)))
  ∧ length (report_rows tst y_pred) = length y_pred.
Proof.
  intros Hflag Htrue Hnames Hclasses.
  assert (length (report_rows tst y_pred) = length y_pred) as Hlen
    by (rewrite report_rows_length; lia).
  split; [| done].
  unfold print_classifications, mbind, M_bind, liftR, dict_getitem.
  rewrite Hflag, Htrue. cbn [negb]. unfold open_append at 1.
  erewrite (report_loop_spec tst 0 y_pred) by (cbn; apply lookup_insert_eq).
  rewrite !drop_0. fold (report_rows tst y_pred).
  destruct (decide (length (report_rows tst y_pred) = length y_pred)); [| done].
  unfold write_line. cbn [arrays pools stdout files].
  rewrite lookup_insert_eq. cbn [default].
  rewrite !insert_insert_eq. unfold id. by rewrite <- app_assoc.
Qed.

(** X17: with the flag set and more predictions than file names or
    classes, [print_classifications] raises [IndexError] once it has
    printed and appended the lines of the samples that have both; the
    separator is not written. *)
Theorem print_classifications_out_of_range (args : gmap string PyVal)
    (flag : PyVal) tst y_pred w :
  args !! "print_classifications" = Some flag →
  truthy flag = true →
  length (filenames tst) `min` length (classes tst) < length y_pred →
  print_classifications args tst y_pred w
  = (Raise IndexError,
     mk_World (arrays w) (pools w)
       (stdout w ++ (printed_row <$> report_rows tst y_pred))
       (<["info.txt" := default [] (files w !! "info.txt")
                        ++ (written_row <$> report_rows tst y_pred)]> (files w)))
  ∧ length (report_rows tst y_pred)
    = length (filenames tst) `min` length (classes tst).
Proof.
  intros Hflag Htrue Hshort.
  assert (length (report_rows tst y_pred)
          = length (filenames tst) `min` length (classes tst)) as Hlen
    by (rewrite report_rows_length; lia).
  split; [| done].
  unfold print_classifications, mbind, M_bind, liftR, dict_getitem.
  rewrite Hflag, Htrue. cbn [negb]. unfold open_append at 1.
  erewrite (report_loop_spec tst 0 y_pred) by (cbn; apply lookup_insert_eq).
  rewrite !drop_0. fold (report_rows tst y_pred).
  destruct (decide (length (report_rows tst y_pred) = length y_pred)); [lia |].
  cbn [arrays pools stdout files]. by rewrite insert_insert_eq.
Qed.
End ReportLoopFacts.

Lemma print_classifications_appends_witness :
  ({[ "print_classifications" := VBool true ]} : gmap string PyVal)
    !! "print_classifications" = Some (VBool true)
  ∧ truthy (VBool true) = true
  ∧ length [1%Z; 1%Z] ≤ length (filenames aligned_flow)
  ∧ length [1%Z; 1%Z] ≤ length (classes aligned_flow)
  ∧ (print_classifications {[ "print_classifications" := VBool true ]}
       aligned_flow [1%Z; 1%Z] example_world).1 = Ok ()
  ∧ length (report_rows aligned_flow [1%Z; 1%Z]) = 2.
Proof.
  assert (({[ "print_classifications" := VBool true ]} : gmap string PyVal)
            !! "print_classifications" = Some (VBool true)) as Hflag
    by apply lookup_singleton_eq.
  assert (length [1%Z; 1%Z] ≤ length (filenames aligned_flow)) as Hnames
    by (cbn; lia).
  assert (length [1%Z; 1%Z] ≤ length (classes aligned_flow)) as Hclasses
    by (cbn; lia).
  split_and!; [exact Hflag | reflexivity | exact Hnames | exact Hclasses | |].
  - destruct (print_classifications_appends _ (VBool true) aligned_flow
                [1%Z; 1%Z] example_world Hflag eq_refl Hnames Hclasses)
      as [Hrun _].
    rewrite Hrun. reflexivity.
  - exact (proj2 (print_classifications_appends _ (VBool true) aligned_flow
                    [1%Z; 1%Z] example_world Hflag eq_refl Hnames Hclasses)).
Defined.

Lemma print_classifications_out_of_range_witness :
  ({[ "print_classifications" := VBool true ]} : gmap string PyVal)
    !! "print_classifications" = Some (VBool true)
  ∧ truthy (VBool true) = true
  ∧ length (filenames aligned_flow) `min` length (classes aligned_flow)
    < length [1%Z; 1%Z; 0%Z]
  ∧ (print_classifications {[ "print_classifications" := VBool true ]}
       aligned_flow [1%Z; 1%Z; 0%Z] example_world).1 = Raise IndexError
  ∧ length (report_rows aligned_flow [1%Z; 1%Z; 0%Z]) = 2.
Proof.
  assert (({[ "print_classifications" := VBool true ]} : gmap string PyVal)
            !! "print_classifications" = Some (VBool true)) as Hflag
    by apply lookup_singleton_eq.
  assert (length (filenames aligned_flow) `min` length (classes aligned_flow)
          < length [1%Z; 1%Z; 0%Z]) as Hshort by (cbn; lia).
  split_and!; [exact Hflag | reflexivity | exact Hshort | |].
  - destruct (print_classifications_out_of_range _ (VBool true) aligned_flow
                [1%Z; 1%Z; 0%Z] example_world Hflag eq_refl Hshort)
      as [Hrun _].
    rewrite Hrun. reflexivity.
  - exact (proj2 (print_classifications_out_of_range _ (VBool true)
                    aligned_flow [1%Z; 1%Z; 0%Z] example_world Hflag eq_refl
                    Hshort)).
Defined.

(** ** More on the fused generator *)

Section MoreGeneratorFacts.
Context {St X Y : Type}.
Context (flow_reset : St → St) (flow_next : St → result (X * Y) * St).
Implicit Types (flows : gmap loc St) (x : loc) (s : St) (g : Generator).

(** The pulls of a suspended generator whose two names denote one flow:
    every pull takes two batches of it. *)
Lemma suspended_pulls_aliased n x : ∀ flows s bs s',
  flows !! x = Some s →
  flow_pulls flow_next (2 * n) s = (Ok bs, s') →
  ∃ flows',
    generator_pulls flow_reset flow_next n (mk_Generator Suspended x x) flows
    = (Ok (fused_pairs bs), mk_Generator Suspended x x, flows')
    ∧ flows' !! x = Some s'.
Proof.
  induction n as [| n IH]; intros flows s bs s' Hx Hp.
  { cbn in *. injection Hp as <- <-. by exists flows. }
  replace (2 * S n) with (S (S (2 * n))) in Hp by lia.
  apply flow_pulls_succ in Hp as (b1 & t1 & bs1 & Hn1 & Hp & ->).
  apply flow_pulls_succ in Hp as (b2 & t2 & bs2 & Hn2 & Hp & ->).
  destruct (IH (<[x := t2]> (<[x := t1]> flows)) t2 bs2 s')
    as (flows' & Hrun & Hf); [apply lookup_insert_eq | done |].
  exists flows'. split; [| done].
  cbn [generator_pulls fused_pairs]. unfold generator_next, loop_turn. cbn.
  rewrite (call_next_Ok flow_next x flows s b1 t1) by done.
  rewrite (call_next_Ok flow_next x (<[x := t1]> flows) t1 b2 t2)
    by (done || apply lookup_insert_eq).
  unfold suspended. cbn. by rewrite Hrun.
Qed.

(** X18: a flow passed as both arguments is reset twice at the first pull
    and then shared: each pull takes two batches of it, puts their images
    side by side and keeps the labels of the first, so the labels of
    every second batch are skipped. *)
Theorem merge_generators_same_flow (N : nat) x flows s bs s' :
  flows !! x = Some s →
  0 < N →
  flow_pulls flow_next (2 * N) (flow_reset (flow_reset s)) = (Ok bs, s') →
  ∃ g' flows',
    generator_pulls flow_reset flow_next N (merge_generators x x) flows
    = (Ok (fused_pairs bs), g', flows')
    ∧ length (fused_pairs bs) = N
    ∧ flows' !! x = Some s'.
Proof.
  intros Hx HN Hp.
  assert (∀ (l : list (X * Y)) n, length l = 2 * n → length (fused_pairs l) = n)
    as Hpairs.
  { intros l n. revert l. induction n as [| n IH]; intros l Hl.
    - by destruct l.
    - destruct l as [| b1 [| b2 l]]; cbn in *; [lia | lia |].
      f_equal. apply IH. lia. }
  pose proof (flow_pulls_length _ _ _ _ _ Hp) as Hlen.
  destruct N as [| N]; [lia |].
  replace (2 * S N) with (S (S (2 * N))) in Hp by lia.
  apply flow_pulls_succ in Hp as (b1 & t1 & bs1 & Hn1 & Hp & ->).
  apply flow_pulls_succ in Hp as (b2 & t2 & bs2 & Hn2 & Hp & ->).
  set (flows0 := <[x := flow_reset (flow_reset s)]> (<[x := flow_reset s]> flows)).
  destruct (suspended_pulls_aliased N x (<[x := t2]> (<[x := t1]> flows0)) t2 bs2 s')
    as (flows' & Hrun & Hf); [apply lookup_insert_eq | done |].
  exists (mk_Generator Suspended x x), flows'. split_and!; [| by apply Hpairs | done].
  cbn [generator_pulls fused_pairs]. unfold generator_next, merge_generators. cbn.
  unfold call_reset. rewrite Hx, lookup_insert_eq. fold flows0.
  unfold loop_turn. cbn.
  rewrite (call_next_Ok flow_next x flows0 (flow_reset (flow_reset s)) b1 t1)
    by (done || apply lookup_insert_eq).
  rewrite (call_next_Ok flow_next x (<[x := t1]> flows0) t1 b2 t2)
    by (done || apply lookup_insert_eq).
  unfold suspended. cbn. by rewrite Hrun.
Qed.

Lemma finished_pulls g flows (n : nat) :
  gen_state g = Finished →
  0 < n →
  generator_pulls flow_reset flow_next n g flows = (Raise StopIteration, g, flows).
Proof.
  intros Hg Hn. destruct n as [| n]; [lia |].
  cbn [generator_pulls]. unfold generator_next. by rewrite Hg.
Qed.

(** X19: a pull that raises ends the generator: whatever raised (a flow
    that is missing, or the [next] of either flow), the generator is
    finished, and every later pull raises [StopIteration] and leaves the
    flows alone. *)
Theorem generator_exhausted_after_raise g flows (e : PyExn) g' flows' (n : nat) :
  generator_next flow_reset flow_next g flows = (Raise e, g', flows') →
  0 < n →
  gen_state g' = Finished
  ∧ generator_pulls flow_reset flow_next n g' flows'
    = (Raise StopIteration, g', flows').
Proof.
  intros Hraise Hn.
  assert (gen_state g' = Finished) as Hfin.
  { assert (∀ fl, ∀ e g' flows',
              loop_turn flow_next g fl = (Raise e, g', flows') →
              gen_state g' = Finished) as Hturn.
    { intros fl e0 g0 fl0. unfold loop_turn.
      destruct (call_next flow_next (gen_x1 g) fl) as [[x1i |] fl1].
      - destruct (call_next flow_next (gen_x2 g) fl1) as [[x2i |] fl2];
          [done |]. by intros [= _ <- _].
      - by intros [= _ <- _]. }
    revert Hraise. unfold generator_next.
    destruct (gen_state g) eqn:Hg.
    - destruct (call_reset flow_reset (gen_x1 g) flows) as [[[] |] fl1].
      + destruct (call_reset flow_reset (gen_x2 g) fl1) as [[[] |] fl2].
        * apply Hturn.
        * by intros [= _ <- _].
      + by intros [= _ <- _].
    - apply Hturn.
    - by intros [= _ <- _]. }
  split; [done |]. by apply finished_pulls.
Qed.
End MoreGeneratorFacts.

Lemma merge_generators_same_flow_witness :
  example_flows !! 0 = Some (0%Z, 5)
  ∧ 0 < 2
  ∧ ∃ g' flows',
      generator_pulls example_reset example_next 2 (merge_generators 0 0)
        example_flows
      = (Ok [ (["image 0"; "image 1"], 0%Z); (["image 2"; "image 3"], 2%Z) ],
         g', flows')
      ∧ flows' !! 0 = Some (0%Z, 4).
Proof.
  assert (example_flows !! 0 = Some (0%Z, 5)) as H0 by reflexivity.
  split_and!; [exact H0 | lia |].
  destruct (merge_generators_same_flow example_reset example_next 2 0
              example_flows (0%Z, 5)
              [("image 0", 0%Z); ("image 1", 1%Z); ("image 2", 2%Z);
               ("image 3", 3%Z)]
              (0%Z, 4) H0)
    as (g' & flows' & Hrun & _ & Hflow); [lia | reflexivity |].
  exists g', flows'. split; [exact Hrun | exact Hflow].
Defined.

Lemma generator_exhausted_after_raise_witness :
  generator_next example_reset example_next (merge_generators 5 6) example_flows
  = (Raise NameError, mk_Generator Finished 5 6, example_flows)
  ∧ 0 < 3
  ∧ generator_pulls example_reset example_next 3 (mk_Generator Finished 5 6)
      example_flows
    = (Raise StopIteration, mk_Generator Finished 5 6, example_flows).
Proof.
  assert (generator_next example_reset example_next (merge_generators 5 6)
            example_flows
          = (Raise NameError, mk_Generator Finished 5 6, example_flows))
    as Hraise by reflexivity.
  split_and!; [exact Hraise | lia |].
  apply (generator_exhausted_after_raise example_reset example_next
           (merge_generators 5 6) example_flows NameError
           (mk_Generator Finished 5 6) example_flows 3 Hraise).
  lia.
Defined.

(** ** Checkpoint paths *)

Lemma app_String (c : ascii) (s t : string) :
  String c s +:+ t = String c (s +:+ t).
Proof. reflexivity. Qed.

Lemma app_empty (t : string) : "" +:+ t = t.
Proof. reflexivity. Qed.

Lemma app_assoc_string (s t u : string) : (s +:+ t) +:+ u = s +:+ t +:+ u.
Proof.
  induction s as [| c s IH]; [done |]. by rewrite !app_String, IH.
Qed.

Lemma lacks_app (c : ascii) (s t : string) :
  lacks c s → lacks c t → lacks c (s +:+ t).
Proof.
  induction s as [| c' s IH]; [done |]. rewrite app_String. cbn.
  intros [? ?] ?. split; [done |]. by apply IH.
Qed.

(** A digit is neither of the characters that delimit the numbers of a
    path. *)
Lemma pretty_N_char_plain (c : ascii) (d : N) :
  c = "_"%char ∨ c = "."%char ∨ c = "/"%char → pretty_N_char d ≠ c.
Proof.
  unfold pretty_N_char. intros [-> | [-> | ->]]; by repeat case_match.
Qed.

Lemma pretty_N_go_lacks (c : ascii) (x : N) (s : string) :
  c = "_"%char ∨ c = "."%char ∨ c = "/"%char →
  lacks c s → lacks c (pretty_N_go x s).
Proof.
  intros Hc. revert s. induction (N.lt_wf_0 x) as [x _ IH]; intros s Hs.
  assert (x = 0 ∨ 0 < x)%N as [-> | Hx] by lia.
  - by rewrite pretty_N_go_0.
  - rewrite pretty_N_go_step by done. apply IH.
    { by apply N.div_lt. }
    split; [by apply pretty_N_char_plain | done].
Qed.

Lemma pretty_Z_lacks (c : ascii) (z : Z) :
  c = "_"%char ∨ c = "."%char ∨ c = "/"%char → lacks c (pretty z).
Proof.
  intros Hc.
  assert (∀ p : positive, lacks c (pretty p)) as Hpos.
  { intros p. unfold pretty, pretty_positive, pretty, pretty_N.
    destruct (decide (N.pos p = 0%N)); [done |].
    by apply pretty_N_go_lacks. }
  destruct z as [| p | p]; unfold pretty, pretty_Z.
  - cbn. split; [| done]. destruct Hc as [-> | [-> | ->]]; done.
  - apply Hpos.
  - rewrite app_String, app_empty. split; [| apply Hpos].
    destruct Hc as [-> | [-> | ->]]; done.
Qed.

(** Two strings cut at the first occurrence of a character agree part by
    part. *)
Lemma split_at_first (c : ascii) (a a' r r' : string) :
  lacks c a → lacks c a' →
  a +:+ String c r = a' +:+ String c r' → a = a' ∧ r = r'.
Proof.
  revert a'. induction a as [| c0 a IH]; intros [| c1 a']; cbn;
    rewrite ?app_String, ?app_empty.
  - by intros _ _ [= ->].
  - intros _ [Hc1 _] [= <- _]. done.
  - intros [Hc0 _] _ [= -> _]. done.
  - intros [_ Ha] [_ Ha'] [= -> Heq].
    destruct (IH a' Ha Ha' Heq) as [-> ->]. done.
Qed.

(** What follows the directory in the path of a fold determines the fold
    number and the number of folds. *)
Lemma fold_file_inj (f n f' n' : Z) :
  pretty f +:+ "_from_" +:+ pretty n +:+ ".hdf5"
  = pretty f' +:+ "_from_" +:+ pretty n' +:+ ".hdf5" →
  f = f' ∧ n = n'.
Proof.
  intros Heq.
  apply (split_at_first "_") in Heq as [Hf Heq];
    [| apply pretty_Z_lacks; by left ..].
  apply (inj pretty) in Hf as ->. split; [done |].
  apply (inj (String.append "from_")) in Heq.
  apply (split_at_first ".") in Heq as [Hn _];
    [| apply pretty_Z_lacks; right; by left ..].
  by apply (inj pretty) in Hn.
Qed.

(** X20: the checkpoint paths of a data set do not collide.  Each of the
    four path formats with a fold number determines the fold number and
    the number of folds, and paths of different formats differ. *)
Theorem checkpoint_paths_distinct (dataset : string) (f n f' n' : Z) :
  (cv_weights_path dataset f n = cv_weights_path dataset f' n' → f = f' ∧ n = n')
  ∧ (first_branch_path dataset f n = first_branch_path dataset f' n' →
     f = f' ∧ n = n')
  ∧ (second_branch_path dataset f n = second_branch_path dataset f' n' →
     f = f' ∧ n = n')
  ∧ (all_network_path dataset f n = all_network_path dataset f' n' →
     f = f' ∧ n = n')
  ∧ first_branch_path dataset f n ≠ second_branch_path dataset f' n'
  ∧ first_branch_path dataset f n ≠ all_network_path dataset f' n'
  ∧ second_branch_path dataset f n ≠ all_network_path dataset f' n'
  ∧ cv_weights_path dataset f n ≠ split_weights_path dataset
  ∧ cv_weights_path dataset f n ≠ first_branch_path dataset f' n'
  ∧ cv_weights_path dataset f n ≠ second_branch_path dataset f' n'
  ∧ cv_weights_path dataset f n ≠ all_network_path dataset f' n'.
Proof.
  unfold cv_weights_path, first_branch_path, second_branch_path,
    all_network_path, split_weights_path.
  split_and!; intros Heq;
    apply (inj (String.append "weights/")) in Heq;
    apply (inj (String.append dataset)) in Heq;
    rewrite ?app_String, ?app_empty in Heq;
    try discriminate Heq.
  - apply (inj (String.append "_cv/weights_fold_")) in Heq.
    by apply fold_file_inj.
  - apply (inj (String.append "_attention_guided_global_branch_cv/weights_fold_"))
      in Heq.
    by apply fold_file_inj.
  - apply (inj (String.append "_attention_guided_local_branch_cv/weights_fold_"))
      in Heq.
    by apply fold_file_inj.
  - apply (inj (String.append "_attention_guided_all_cv/weights_fold_")) in Heq.
    by apply fold_file_inj.
Qed.

Lemma checkpoint_paths_distinct_witness :
  cv_weights_path "ucmerced" 1 10 ≠ cv_weights_path "ucmerced" 11 0
  ∧ first_branch_path "ucmerced" 1 10 ≠ second_branch_path "ucmerced" 1 10.
Proof.
  destruct (checkpoint_paths_distinct "ucmerced" 1 10 11 0)
    as (Hcv & _ & _ & _ & Hbranches & _).
  split.
  - intros Heq. apply Hcv in Heq as [? _]. lia.
  - intros Heq.
    destruct (checkpoint_paths_distinct "ucmerced" 1 10 1 10)
      as (_ & _ & _ & _ & Hne & _).
    by apply Hne.
Defined.

Example dirname_examples :
  dirname "weights/x_cv/weights_fold_1_from_5.hdf5" = "weights/x_cv"
  ∧ dirname "weights.hdf5" = ""
  ∧ dirname "/weights.hdf5" = "/"
  ∧ dirname "a//b" = "a"
  ∧ dirname "//" = "//"
  ∧ dirname "a/b/" = "a/b".
Proof. by split_and!. Qed.

Lemma head_of_path_plain (t : string) : lacks "/" t → head_of_path t = "".
Proof.
  induction t as [| c t IH]; [done |]. cbn. intros [Hc Ht].
  rewrite (IH Ht). cbn. by destruct (Ascii.eqb_spec c "/").
Qed.

Lemma head_of_path_join (a t : string) :
  lacks "/" t → head_of_path (a +:+ String "/" t) = a +:+ "/".
Proof.
  intros Ht. induction a as [| c a IH].
  - rewrite !app_empty. cbn. by rewrite (head_of_path_plain t Ht).
  - rewrite !app_String. cbn. rewrite IH.
    by destruct a.
Qed.

Lemma rstrip_slashes_one (b : string) (c : ascii) :
  c ≠ "/"%char → rstrip_slashes (b +:+ String c "/") = b +:+ String c "".
Proof.
  intros Hc. induction b as [| c0 b IH].
  - rewrite !app_empty. cbn. by destruct (Ascii.eqb_spec c "/").
  - rewrite !app_String. cbn. rewrite IH.
    destruct b; rewrite ?app_empty, ?app_String; cbn; by rewrite andb_false_r.
Qed.

Lemma all_slashes_not (b : string) (c : ascii) (s : string) :
  c ≠ "/"%char → all_slashes (b +:+ String c s) = false.
Proof.
  intros Hc. induction b as [| c0 b IH].
  - rewrite app_empty. cbn. by destruct (Ascii.eqb_spec c "/").
  - rewrite app_String. cbn. by rewrite IH, andb_false_r.
Qed.

(** The directory of [dir/file], where [dir] ends in a character other
    than a slash and [file] has no slash, is [dir]. *)
Lemma dirname_join (b : string) (c : ascii) (t : string) :
  c ≠ "/"%char → lacks "/" t →
  dirname ((b +:+ String c "") +:+ String "/" t) = b +:+ String c "".
Proof.
  intros Hc Ht. unfold dirname. rewrite head_of_path_join by done.
  rewrite app_assoc_string, app_String, app_empty.
  rewrite all_slashes_not by done. rewrite rstrip_slashes_one by done.
  by destruct b.
Qed.

Lemma fold_file_lacks_slash (f n : Z) :
  lacks "/" ("weights_fold_" +:+ pretty f +:+ "_from_" +:+ pretty n +:+ ".hdf5").
Proof.
  repeat (apply lacks_app;
          [first [by (apply pretty_Z_lacks; right; right) | by repeat split] |]).
  by repeat split.
Qed.

Lemma dirname_cv_weights_path (dataset : string) (f n : Z) :
  dirname (cv_weights_path dataset f n) = "weights/" +:+ dataset +:+ "_cv".
Proof.
  unfold cv_weights_path.
  replace ("weights/" +:+ dataset +:+ "_cv/weights_fold_" +:+ pretty f
             +:+ "_from_" +:+ pretty n +:+ ".hdf5")
    with ((("weights/" +:+ dataset +:+ "_c") +:+ String "v" "")
            +:+ String "/" ("weights_fold_" +:+ pretty f +:+ "_from_"
                              +:+ pretty n +:+ ".hdf5"))
    by (by rewrite !app_assoc_string).
  rewrite dirname_join; [| done | apply fold_file_lacks_slash].
  by rewrite !app_assoc_string.
Qed.

Section CheckPathFacts.
Context {FS : Type}.
Context (isdir : FS → string → bool).
Context (makedirs : string → FS → result () * FS).

(** X21: the folds of a cross-validation run share one directory.  When
    [os.makedirs] leaves the directory it made in place, a [check_path]
    that returns for the path of one fold returns that path and has made
    sure that [weights/<dataset>_cv] is a directory; [check_path] for the
    path of any fold then returns the path and leaves the file system as
    it is. *)
Theorem check_path_shared_directory (dataset : string) (f n : Z)
    (fs fs1 : FS) (filepath : string) :
  (∀ p fs fs', makedirs p fs = (Ok (), fs') → isdir fs' p = true) →
  check_path isdir makedirs (cv_weights_path dataset f n) fs = (Ok filepath, fs1) →
  filepath = cv_weights_path dataset f n
  ∧ isdir fs1 ("weights/" +:+ dataset +:+ "_cv") = true
  ∧ ∀ f' n',
      check_path isdir makedirs (cv_weights_path dataset f' n') fs1
      = (Ok (cv_weights_path dataset f' n'), fs1).
Proof.
  intros Hmk. unfold check_path. rewrite dirname_cv_weights_path.
  intros Hrun.
  assert (filepath = cv_weights_path dataset f n
          ∧ isdir fs1 ("weights/" +:+ dataset +:+ "_cv") = true) as [-> Hdir].
  { destruct (isdir fs ("weights/" +:+ dataset +:+ "_cv")) eqn:Hfs; cbn in Hrun.
    - by injection Hrun as <- <-.
    - destruct (makedirs _ fs) as [[[] |] fs'] eqn:Hm; [| done].
      injection Hrun as <- <-. split; [done |]. by eapply Hmk. }
  split_and!; [done | done |].
  intros f' n'. by rewrite dirname_cv_weights_path, Hdir.
Qed.
End CheckPathFacts.

Lemma check_path_shared_directory_witness :
  (∀ p fs fs', example_makedirs p fs = (Ok (), fs') → example_isdir fs' p = true)
  ∧ check_path example_isdir example_makedirs (cv_weights_path "ucmerced" 0 10) ∅
    = (Ok (cv_weights_path "ucmerced" 0 10), {[ "weights/ucmerced_cv" ]} ∪ ∅)
  ∧ check_path example_isdir example_makedirs (cv_weights_path "ucmerced" 1 10)
      ({[ "weights/ucmerced_cv" ]} ∪ ∅)
    = (Ok (cv_weights_path "ucmerced" 1 10), {[ "weights/ucmerced_cv" ]} ∪ ∅).
Proof.
  assert (∀ p fs fs', example_makedirs p fs = (Ok (), fs') →
                      example_isdir fs' p = true) as Hmk.
  { intros p fs fs' [= <-]. apply bool_decide_eq_true. set_solver. }
  assert (check_path example_isdir example_makedirs
            (cv_weights_path "ucmerced" 0 10) ∅
          = (Ok (cv_weights_path "ucmerced" 0 10),
             {[ "weights/ucmerced_cv" ]} ∪ ∅)) as Hrun.
  { unfold check_path. rewrite dirname_cv_weights_path. reflexivity. }
  split_and!; [exact Hmk | exact Hrun |].
  destruct (check_path_shared_directory example_isdir example_makedirs
              "ucmerced" 0 10 ∅ _ _ Hmk Hrun) as (_ & _ & Hnext).
  exact (Hnext 1%Z 10%Z).
Defined.
